(** * CyberShield AI: event store, correlator and live notifier

  A shallow embedding of the server side of the repository:

  - [server/storage.ts]            ([MemStorage], module [Storage]),
  - [server/routes.ts]             (routes, [broadcast], the attack listener;
                                    modules [Notifier] and [Server]),
  - [server/honeypot/services.ts]  ([HoneypotManager], module [Server]),
  - [cybershield-complete.js]      (the single-file deployment with its own
                                    storage, manager and routes; module
                                    [SingleFile]),
  - [server/ml/phishing-detector.ts] and [server/ml/deepfake-detector.ts]
                                   (modules [PhishingDetector] and
                                    [DeepfakeDetector]),
  - [server/services/geolocation.ts] (module [Geolocation]).

  JavaScript numbers are modelled by [Z] where the code only counts
  (identifiers, counters, timestamps in milliseconds) and by [Q] where a
  detector hands over a score or a confidence.  Counters are exact as long
  as they stay below 2^53.  Each handler runs to completion before the next
  one starts: the model describes the states between handlers. *)

From Stdlib Require Import List String Ascii ZArith QArith Bool Lia Lqa.
From Stdlib Require Import Permutation Sorted Qround.
Import ListNotations.

Local Open Scope string_scope.
Local Open Scope Z_scope.
Local Open Scope list_scope.

Set Warnings "-register-all".

Notation "a +s+ b" := (String.append a b) (at level 60, right associativity).

(* ------------------------------------------------------------------ *)
(** ** JavaScript values and the insertion-ordered [Map]               *)
(* ------------------------------------------------------------------ *)

Module Js.

(** What a JSON body or a [jsonb] column can hold. *)
Inductive Value : Type :=
| Undefined
| Null
| Bool (b : bool)
| Num (q : Q)
| NaN
| Str (s : string)
| Arr (items : list Value)
| Obj (fields : list (string * Value)).

(** [!!v] *)
Definition truthy (v : Value) : bool :=
  match v with
  | Undefined | Null | NaN => false
  | Bool b => b
  | Num q => negb (Qeq_bool q 0)
  | Str s => negb (String.eqb s "")
  | Arr _ | Obj _ => true
  end.

(** [typeof v === 'string'] *)
Definition is_string (v : Value) : bool :=
  match v with Str _ => true | _ => false end.

Definition of_id (n : Z) : Value := Num (inject_Z n).
Definition of_strings (l : list string) : Value := Arr (map Str l).

(** [v || null] on an optional value. *)
Definition or_null (o : option Value) : Value :=
  match o with
  | Some v => if truthy v then v else Null
  | None => Null
  end.

(** [s || d] on strings. *)
Definition str_or (s d : string) : string :=
  if String.eqb s "" then d else s.

(** [String.prototype.toUpperCase] on ASCII text. *)
Definition upper_ascii (c : ascii) : ascii :=
  let n := nat_of_ascii c in
  if (Nat.leb 97 n && Nat.leb n 122)%bool then ascii_of_nat (n - 32) else c.

Fixpoint toUpperCase (s : string) : string :=
  match s with
  | EmptyString => EmptyString
  | String c r => String (upper_ascii c) (toUpperCase r)
  end.

Definition is_digit (c : ascii) : bool :=
  let n := nat_of_ascii c in (Nat.leb 48 n && Nat.leb n 57)%bool.

Fixpoint take_digits (s : string) (acc : Z) : Z :=
  match s with
  | String c r =>
      if is_digit c
      then take_digits r (10 * acc + Z.of_nat (nat_of_ascii c - 48))
      else acc
  | EmptyString => acc
  end.

(** [parseInt(s.match(/\d+/)?.[0] || d)]: the first run of digits. *)
Fixpoint first_number (s : string) (d : Z) : Z :=
  match s with
  | EmptyString => d
  | String c r => if is_digit c then take_digits s 0 else first_number r d
  end.

End Js.

(** [Map<number, V>]: keys are unique and iteration follows insertion
  order; [set] on a present key replaces the value in place. *)
Module JsMap.
Section Ops.
Context {V : Type}.

Definition t := list (Z * V).

Definition empty : t := [].

Fixpoint get (k : Z) (m : t) : option V :=
  match m with
  | [] => None
  | (k', v) :: m' => if Z.eqb k k' then Some v else get k m'
  end.

Fixpoint set (k : Z) (v : V) (m : t) : t :=
  match m with
  | [] => [(k, v)]
  | (k', v') :: m' =>
      if Z.eqb k k' then (k, v) :: m' else (k', v') :: set k v m'
  end.

(** [Array.from(m.values())] *)
Definition values (m : t) : list V := map snd m.

Definition keys (m : t) : list Z := map fst m.

Definition size (m : t) : nat := List.length m.
End Ops.
Arguments t : clear implicits.
End JsMap.

(* ------------------------------------------------------------------ *)
(** ** [shared/schema.ts]                                              *)
(* ------------------------------------------------------------------ *)

Module Schema.

Record Threat := {
  threat_id : Z;
  threat_type : string;
  threat_severity : string;
  threat_source : string;
  threat_description : string;
  threat_metadata : Js.Value;
  threat_status : string;
  threat_detectedAt : Z }.

Record InsertThreat := {
  it_type : string;
  it_severity : string;
  it_source : string;
  it_description : string;
  it_metadata : option Js.Value;
  it_status : option string }.

Record PhishingAnalysis := {
  pa_id : Z;
  pa_content : string;
  pa_score : Q;
  pa_confidence : Q;
  pa_suspiciousLinks : Z;
  pa_indicators : option (list string);
  pa_analyzedAt : Z }.

Record InsertPhishingAnalysis := {
  ip_content : string;
  ip_score : Q;
  ip_confidence : Q;
  ip_suspiciousLinks : option Z;
  ip_indicators : option (list string) }.

Record DeepfakeAnalysis := {
  da_id : Z;
  da_fileName : string;
  da_fileType : string;
  da_fileSize : Z;
  da_isDeepfake : bool;
  da_confidence : Q;
  da_processingTime : Q;
  da_anomalies : option (list string);
  da_analyzedAt : Z }.

Record InsertDeepfakeAnalysis := {
  id_fileName : string;
  id_fileType : string;
  id_fileSize : Z;
  id_isDeepfake : bool;
  id_confidence : Q;
  id_processingTime : Q;
  id_anomalies : option (list string) }.

Record HoneypotLog := {
  hl_id : Z;
  hl_service : string;
  hl_sourceIp : string;
  hl_attackType : string;
  hl_severity : string;
  hl_port : Z;
  hl_payload : option string;
  hl_location : Js.Value;
  hl_detectedAt : Z }.

Record InsertHoneypotLog := {
  ih_service : string;
  ih_sourceIp : string;
  ih_attackType : string;
  ih_severity : string;
  ih_port : Z;
  ih_payload : option string;
  ih_location : option Js.Value }.

Record Alert := {
  alert_id : Z;
  alert_title : string;
  alert_description : string;
  alert_severity : string;
  alert_category : string;
  alert_isRead : bool;
  alert_metadata : Js.Value;
  alert_createdAt : Z }.

Record InsertAlert := {
  ia_title : string;
  ia_description : string;
  ia_severity : string;
  ia_category : string;
  ia_isRead : option bool;
  ia_metadata : option Js.Value }.

Record SystemStats := {
  stats_id : Z;
  activeThreats : Z;
  phishingBlocked : Z;
  deepfakesDetected : Z;
  honeypotHits : Z;
  updatedAt : Z }.

(** [Partial<InsertSystemStats>] *)
Record PartialStats := {
  ps_activeThreats : option Z;
  ps_phishingBlocked : option Z;
  ps_deepfakesDetected : option Z;
  ps_honeypotHits : option Z }.

Definition no_stats : PartialStats :=
  {| ps_activeThreats := None; ps_phishingBlocked := None;
     ps_deepfakesDetected := None; ps_honeypotHits := None |}.

Definition set_isRead (b : bool) (a : Alert) : Alert :=
  {| alert_id := alert_id a; alert_title := alert_title a;
     alert_description := alert_description a;
     alert_severity := alert_severity a;
     alert_category := alert_category a;
     alert_isRead := b;
     alert_metadata := alert_metadata a;
     alert_createdAt := alert_createdAt a |}.

End Schema.
Import Schema.

(* ------------------------------------------------------------------ *)
(** ** [server/storage.ts]: [MemStorage]                               *)
(* ------------------------------------------------------------------ *)

Module Storage.

Record MemStorage := {
  threats : JsMap.t Threat;
  phishingAnalyses : JsMap.t PhishingAnalysis;
  deepfakeAnalyses : JsMap.t DeepfakeAnalysis;
  honeypotLogs : JsMap.t HoneypotLog;
  alerts : JsMap.t Alert;
  systemStats : option SystemStats;
  currentThreatId : Z;
  currentPhishingId : Z;
  currentDeepfakeId : Z;
  currentHoneypotId : Z;
  currentAlertId : Z }.

(** [new MemStorage()] at time [now]. *)
Definition constructor (now : Z) : MemStorage :=
  {| threats := JsMap.empty;
     phishingAnalyses := JsMap.empty;
     deepfakeAnalyses := JsMap.empty;
     honeypotLogs := JsMap.empty;
     alerts := JsMap.empty;
     systemStats :=
       Some {| stats_id := 1; activeThreats := 7; phishingBlocked := 142;
               deepfakesDetected := 23; honeypotHits := 89;
               updatedAt := now |};
     currentThreatId := 1;
     currentPhishingId := 1;
     currentDeepfakeId := 1;
     currentHoneypotId := 1;
     currentAlertId := 1 |}.

Definition with_threats (m : JsMap.t Threat) (n : Z) (st : MemStorage) :=
  {| threats := m; phishingAnalyses := phishingAnalyses st;
     deepfakeAnalyses := deepfakeAnalyses st;
     honeypotLogs := honeypotLogs st; alerts := alerts st;
     systemStats := systemStats st;
     currentThreatId := n; currentPhishingId := currentPhishingId st;
     currentDeepfakeId := currentDeepfakeId st;
     currentHoneypotId := currentHoneypotId st;
     currentAlertId := currentAlertId st |}.

Definition with_phishing (m : JsMap.t PhishingAnalysis) (n : Z)
           (st : MemStorage) :=
  {| threats := threats st; phishingAnalyses := m;
     deepfakeAnalyses := deepfakeAnalyses st;
     honeypotLogs := honeypotLogs st; alerts := alerts st;
     systemStats := systemStats st;
     currentThreatId := currentThreatId st; currentPhishingId := n;
     currentDeepfakeId := currentDeepfakeId st;
     currentHoneypotId := currentHoneypotId st;
     currentAlertId := currentAlertId st |}.

Definition with_deepfake (m : JsMap.t DeepfakeAnalysis) (n : Z)
           (st : MemStorage) :=
  {| threats := threats st; phishingAnalyses := phishingAnalyses st;
     deepfakeAnalyses := m;
     honeypotLogs := honeypotLogs st; alerts := alerts st;
     systemStats := systemStats st;
     currentThreatId := currentThreatId st;
     currentPhishingId := currentPhishingId st;
     currentDeepfakeId := n;
     currentHoneypotId := currentHoneypotId st;
     currentAlertId := currentAlertId st |}.

Definition with_honeypot (m : JsMap.t HoneypotLog) (n : Z)
           (st : MemStorage) :=
  {| threats := threats st; phishingAnalyses := phishingAnalyses st;
     deepfakeAnalyses := deepfakeAnalyses st;
     honeypotLogs := m; alerts := alerts st;
     systemStats := systemStats st;
     currentThreatId := currentThreatId st;
     currentPhishingId := currentPhishingId st;
     currentDeepfakeId := currentDeepfakeId st;
     currentHoneypotId := n;
     currentAlertId := currentAlertId st |}.

Definition with_alerts (m : JsMap.t Alert) (n : Z) (st : MemStorage) :=
  {| threats := threats st; phishingAnalyses := phishingAnalyses st;
     deepfakeAnalyses := deepfakeAnalyses st;
     honeypotLogs := honeypotLogs st; alerts := m;
     systemStats := systemStats st;
     currentThreatId := currentThreatId st;
     currentPhishingId := currentPhishingId st;
     currentDeepfakeId := currentDeepfakeId st;
     currentHoneypotId := currentHoneypotId st;
     currentAlertId := n |}.

Definition with_stats (s : option SystemStats) (st : MemStorage) :=
  {| threats := threats st; phishingAnalyses := phishingAnalyses st;
     deepfakeAnalyses := deepfakeAnalyses st;
     honeypotLogs := honeypotLogs st; alerts := alerts st;
     systemStats := s;
     currentThreatId := currentThreatId st;
     currentPhishingId := currentPhishingId st;
     currentDeepfakeId := currentDeepfakeId st;
     currentHoneypotId := currentHoneypotId st;
     currentAlertId := currentAlertId st |}.

Definition or_default {A} (o : option A) (d : A) : A :=
  match o with Some a => a | None => d end.

(** [createThreat] *)
Definition createThreat (now : Z) (ins : InsertThreat) (st : MemStorage)
  : Threat * MemStorage :=
  let threat :=
    {| threat_id := currentThreatId st;
       threat_type := it_type ins;
       threat_severity := it_severity ins;
       threat_source := it_source ins;
       threat_description := it_description ins;
       threat_metadata := Js.or_null (it_metadata ins);
       threat_status := Js.str_or (or_default (it_status ins) "") "active";
       threat_detectedAt := now |} in
  (threat,
   with_threats (JsMap.set (threat_id threat) threat (threats st))
                (currentThreatId st + 1) st).

(** [createPhishingAnalysis] *)
Definition createPhishingAnalysis (now : Z) (ins : InsertPhishingAnalysis)
           (st : MemStorage) : PhishingAnalysis * MemStorage :=
  let analysis :=
    {| pa_id := currentPhishingId st;
       pa_content := ip_content ins;
       pa_score := ip_score ins;
       pa_confidence := ip_confidence ins;
       pa_suspiciousLinks := or_default (ip_suspiciousLinks ins) 0;
       pa_indicators := ip_indicators ins;
       pa_analyzedAt := now |} in
  (analysis,
   with_phishing (JsMap.set (pa_id analysis) analysis (phishingAnalyses st))
                 (currentPhishingId st + 1) st).

(** [createDeepfakeAnalysis] *)
Definition createDeepfakeAnalysis (now : Z) (ins : InsertDeepfakeAnalysis)
           (st : MemStorage) : DeepfakeAnalysis * MemStorage :=
  let analysis :=
    {| da_id := currentDeepfakeId st;
       da_fileName := id_fileName ins;
       da_fileType := id_fileType ins;
       da_fileSize := id_fileSize ins;
       da_isDeepfake := id_isDeepfake ins;
       da_confidence := id_confidence ins;
       da_processingTime := id_processingTime ins;
       da_anomalies := id_anomalies ins;
       da_analyzedAt := now |} in
  (analysis,
   with_deepfake (JsMap.set (da_id analysis) analysis (deepfakeAnalyses st))
                 (currentDeepfakeId st + 1) st).

(** [insertLog.payload || null]: the empty string is stored as [null]. *)
Definition payload_or_null (p : option string) : option string :=
  match p with
  | Some s => if String.eqb s "" then None else Some s
  | None => None
  end.

(** [createHoneypotLog] *)
Definition createHoneypotLog (now : Z) (ins : InsertHoneypotLog)
           (st : MemStorage) : HoneypotLog * MemStorage :=
  let log :=
    {| hl_id := currentHoneypotId st;
       hl_service := ih_service ins;
       hl_sourceIp := ih_sourceIp ins;
       hl_attackType := ih_attackType ins;
       hl_severity := ih_severity ins;
       hl_port := ih_port ins;
       hl_payload := payload_or_null (ih_payload ins);
       hl_location := Js.or_null (ih_location ins);
       hl_detectedAt := now |} in
  (log,
   with_honeypot (JsMap.set (hl_id log) log (honeypotLogs st))
                 (currentHoneypotId st + 1) st).

Record HoneypotStats := { hs_ssh : nat; hs_http : nat; hs_ftp : nat }.

(** [getHoneypotStats] *)
Definition getHoneypotStats (st : MemStorage) : HoneypotStats :=
  let logs := JsMap.values (honeypotLogs st) in
  {| hs_ssh := List.length (filter (fun l => String.eqb (hl_service l) "ssh") logs);
     hs_http := List.length (filter (fun l => String.eqb (hl_service l) "http") logs);
     hs_ftp := List.length (filter (fun l => String.eqb (hl_service l) "ftp") logs) |}.

(** [createAlert] *)
Definition createAlert (now : Z) (ins : InsertAlert) (st : MemStorage)
  : Alert * MemStorage :=
  let alert :=
    {| alert_id := currentAlertId st;
       alert_title := ia_title ins;
       alert_description := ia_description ins;
       alert_severity := ia_severity ins;
       alert_category := ia_category ins;
       alert_isRead := or_default (ia_isRead ins) false;
       alert_metadata := Js.or_null (ia_metadata ins);
       alert_createdAt := now |} in
  (alert,
   with_alerts (JsMap.set (alert_id alert) alert (alerts st))
               (currentAlertId st + 1) st).

(** [markAlertAsRead]: [Promise<void>], nothing is reported. *)
Definition markAlertAsRead (id : Z) (st : MemStorage) : MemStorage :=
  match JsMap.get id (alerts st) with
  | Some alert =>
      with_alerts (JsMap.set id (set_isRead true alert) (alerts st))
                  (currentAlertId st) st
  | None => st
  end.

(** [markAllAlertsAsRead] *)
Definition markAllAlertsAsRead (st : MemStorage) : MemStorage :=
  with_alerts
    (fold_left (fun m alert => JsMap.set (alert_id alert) (set_isRead true alert) m)
               (JsMap.values (alerts st)) (alerts st))
    (currentAlertId st) st.

Record AlertCounts := {
  critical : nat; high : nat; medium : nat; low : nat }.

Definition has_severity (s : string) (a : Alert) : bool :=
  String.eqb (alert_severity a) s.

(** [getAlertCounts] *)
Definition getAlertCounts (st : MemStorage) : AlertCounts :=
  let unreadAlerts :=
    filter (fun alert => negb (alert_isRead alert)) (JsMap.values (alerts st)) in
  {| critical := List.length (filter (has_severity "critical") unreadAlerts);
     high := List.length (filter (has_severity "high") unreadAlerts);
     medium := List.length (filter (has_severity "medium") unreadAlerts);
     low := List.length (filter (has_severity "low") unreadAlerts) |}.

(** [getSystemStats] *)
Definition getSystemStats (st : MemStorage) : option SystemStats :=
  systemStats st.

(** [{ ...base, ...stats, updatedAt: new Date() }] *)
Definition spread_stats (now : Z) (base : SystemStats) (p : PartialStats)
  : SystemStats :=
  {| stats_id := stats_id base;
     activeThreats := or_default (ps_activeThreats p) (activeThreats base);
     phishingBlocked := or_default (ps_phishingBlocked p) (phishingBlocked base);
     deepfakesDetected :=
       or_default (ps_deepfakesDetected p) (deepfakesDetected base);
     honeypotHits := or_default (ps_honeypotHits p) (honeypotHits base);
     updatedAt := now |}.

Definition zero_stats : SystemStats :=
  {| stats_id := 1; activeThreats := 0; phishingBlocked := 0;
     deepfakesDetected := 0; honeypotHits := 0; updatedAt := 0 |}.

(** [updateSystemStats] *)
Definition updateSystemStats (now : Z) (p : PartialStats) (st : MemStorage)
  : SystemStats * MemStorage :=
  let s :=
    match systemStats st with
    | Some cur => spread_stats now cur p
    | None => spread_stats now zero_stats p
    end in
  (s, with_stats (Some s) st).

End Storage.
Import Storage.

(* ------------------------------------------------------------------ *)
(** ** What travels: attacks, e-mail data, WebSocket messages          *)
(* ------------------------------------------------------------------ *)

Module Wire.

(** [HoneypotAttack] of [honeypot/services.ts]. *)
Record HoneypotAttack := {
  service : string;
  sourceIp : string;
  attackType : string;
  severity : string;
  port : Z;
  payload : option string }.

(** [GeoLocation] of [services/geolocation.ts]. *)
Record GeoLocation := {
  geo_ip : string;
  geo_country : string;
  geo_country_code : string;
  geo_region : string;
  geo_region_name : string;
  geo_city : string;
  geo_zip : string;
  geo_lat : Q;
  geo_lon : Q;
  geo_timezone : string;
  geo_isp : string;
  geo_org : string;
  geo_as : string }.

Definition geo_json (l : GeoLocation) : Js.Value :=
  Js.Obj [("ip", Js.Str (geo_ip l)); ("country", Js.Str (geo_country l));
          ("country_code", Js.Str (geo_country_code l));
          ("region", Js.Str (geo_region l));
          ("region_name", Js.Str (geo_region_name l));
          ("city", Js.Str (geo_city l)); ("zip", Js.Str (geo_zip l));
          ("lat", Js.Num (geo_lat l)); ("lon", Js.Num (geo_lon l));
          ("timezone", Js.Str (geo_timezone l));
          ("isp", Js.Str (geo_isp l)); ("org", Js.Str (geo_org l));
          ("as", Js.Str (geo_as l))].

(** [EmailAlertData] of [services/email-alerts.ts]. *)
Record EmailAlertData := {
  attackerIp : string;
  country : string;
  city : string;
  mail_attackType : string;
  timestamp : Z;
  attempts : Z }.

(** The objects handed to [broadcast]. *)
Inductive WsMessage : Type :=
| NewAlert (alert : Alert) (threat : Threat)
| NewAlertLog (alert : Alert) (honeypotLog : HoneypotLog)
| HoneypotAttackMsg (attack : HoneypotAttack) (alert : option Alert)
| StatsUpdate (stats : SystemStats).


Definition attack_json (a : HoneypotAttack) : Js.Value :=
  Js.Obj [("service", Js.Str (service a));
          ("sourceIp", Js.Str (sourceIp a));
          ("attackType", Js.Str (attackType a));
          ("severity", Js.Str (severity a));
          ("port", Js.of_id (port a));
          ("payload", match payload a with
                      | Some p => Js.Str p
                      | None => Js.Undefined
                      end)].

End Wire.
Import Wire.

(* ------------------------------------------------------------------ *)
(** ** The notifier: [wsClients], the connection handlers, [broadcast] *)
(* ------------------------------------------------------------------ *)

Module Notifier.

(** [WebSocket.readyState] of the [ws] package. *)
Inductive ReadyState : Type := CONNECTING | OPEN | CLOSING | CLOSED.

(** A socket object of the [ws] package as the server sees it.  The server
  reads [readyState] and calls [send]; [send] on an open socket hands the
  frame to the transport and returns.  [link_up] tells whether the transport
  still carries frames to the peer: the server code cannot observe it, the
  package reports a broken transport later through the [close] event. *)
Record WebSocket := {
  ws_id : Z;
  readyState : ReadyState;
  link_up : bool }.

(** One call of [client.send(JSON.stringify(data))]. *)
Record Delivery := {
  to : Z;
  frame : WsMessage;
  arrived : bool }.

(** [wsClients] (a [Set] in insertion order) and the frames sent so far. *)
Record t := {
  wsClients : list WebSocket;
  wire : list Delivery }.

Definition init : t := {| wsClients := []; wire := [] |}.

Definition is_open (client : WebSocket) : bool :=
  match readyState client with OPEN => true | _ => false end.

Definition has (id : Z) (l : list WebSocket) : bool :=
  existsb (fun c => Z.eqb (ws_id c) id) l.

(** [Set.prototype.add] *)
Definition add (ws : WebSocket) (l : list WebSocket) : list WebSocket :=
  if has (ws_id ws) l then l else l ++ [ws].

(** [Set.prototype.delete] *)
Definition delete (id : Z) (l : list WebSocket) : list WebSocket :=
  filter (fun c => negb (Z.eqb (ws_id c) id)) l.

(** What [client.send] does with a frame: it goes to [client], and reaches
  the peer when the transport is up. *)
Definition delivery (data : WsMessage) (client : WebSocket) : Delivery :=
  {| to := ws_id client; frame := data; arrived := link_up client |}.

Definition send (client : WebSocket) (data : WsMessage) (w : list Delivery)
  : list Delivery :=
  w ++ [delivery data client].

(** [function broadcast(data)] *)
Definition broadcast (data : WsMessage) (n : t) : t :=
  {| wsClients := wsClients n;
     wire := fold_left
               (fun w client => if is_open client then send client data w else w)
               (wsClients n) (wire n) |}.

(** [wss.on('connection', ws => ...)] *)
Definition on_connection (ws : WebSocket) (n : t) : t :=
  {| wsClients := add ws (wsClients n); wire := wire n |}.

(** [ws.on('close', ...)] *)
Definition on_close (id : Z) (n : t) : t :=
  {| wsClients := delete id (wsClients n); wire := wire n |}.

(** [ws.on('error', ...)], registered by the single-file server only. *)
Definition on_error (id : Z) (n : t) : t :=
  {| wsClients := delete id (wsClients n); wire := wire n |}.

(** The package moves a socket to another [readyState]. *)
Definition set_state (id : Z) (s : ReadyState) (n : t) : t :=
  {| wsClients :=
       map (fun c => if Z.eqb (ws_id c) id
                     then {| ws_id := ws_id c; readyState := s;
                             link_up := link_up c |}
                     else c) (wsClients n);
     wire := wire n |}.



(** The frames a run added to the wire. *)
Definition sent_since (before after : t) : list Delivery :=
  skipn (List.length (wire before)) (wire after).

End Notifier.

(* ------------------------------------------------------------------ *)
(** ** The world a handler runs in                                     *)
(* ------------------------------------------------------------------ *)

Module Run.

(** What a handler did, in the order it did it. *)
Inductive Effect : Type :=
| EPhishingStored (a : PhishingAnalysis)
| EDeepfakeStored (a : DeepfakeAnalysis)
| EHoneypotLogged (l : HoneypotLog)
| EThreatCreated (t : Threat)
| EAlertCreated (a : Alert)
| EAlertRead (id : Z)
| EStatsUpdated (s : SystemStats)
| EEmail (d : EmailAlertData) (ok : bool)
| EBroadcast (m : WsMessage).

Record World := {
  db : MemStorage;
  net : Notifier.t;
  trace : list Effect }.

(** Server start at time [now]: a fresh store, nobody connected. *)
Definition boot (now : Z) : World :=
  {| db := Storage.constructor now; net := Notifier.init; trace := [] |}.

Definition M (A : Type) : Type := World -> A * World.

Definition ret {A} (a : A) : M A := fun w => (a, w).

Definition bind {A B} (c : M A) (k : A -> M B) : M B :=
  fun w => let (a, w') := c w in k a w'.

Definition exec {A} (c : M A) (w : World) : World := snd (c w).
Definition eval {A} (c : M A) (w : World) : A := fst (c w).

(** A storage call, recorded in the trace. *)
Definition store {A} (f : MemStorage -> A * MemStorage) (e : A -> Effect)
  : M A :=
  fun w => let (a, st) := f (db w) in
           (a, {| db := st; net := net w; trace := trace w ++ [e a] |}).

(** A storage query. *)
Definition query {A} (f : MemStorage -> A) : M A := fun w => (f (db w), w).

Definition emit (e : Effect) : M unit :=
  fun w => (tt, {| db := db w; net := net w; trace := trace w ++ [e] |}).

Definition broadcast (data : WsMessage) : M unit :=
  fun w => (tt, {| db := db w; net := Notifier.broadcast data (net w);
                   trace := trace w ++ [EBroadcast data] |}).

(** The broadcasts of a trace. *)
Definition broadcasts (tr : list Effect) : list WsMessage :=
  flat_map (fun e => match e with EBroadcast m => [m] | _ => [] end) tr.

(** What a run added to the trace. *)
Definition effects_since (before after : World) : list Effect :=
  skipn (List.length (trace before)) (trace after).

(** An HTTP answer: [res.json(body)] or [res.status(code).json({message})]. *)
Inductive Response (A : Type) : Type :=
| ResJson (body : A)
| ResStatus (code : Z) (message : string).
Arguments ResJson {A} body.
Arguments ResStatus {A} code message.


End Run.
Import Run.

Declare Scope run_scope.
Delimit Scope run_scope with run.
Notation "x <- c ;; k" := (bind c (fun x => k))
  (at level 61, c at next level, right associativity) : run_scope.
Notation "c ;;; k" := (bind c (fun _ => k))
  (at level 61, right associativity) : run_scope.

(* ------------------------------------------------------------------ *)
(** ** The detectors' results ([server/ml])                            *)
(* ------------------------------------------------------------------ *)

Module Detectors.

Record PhishingDetectionResult := {
  score : Q;
  confidence : Q;
  suspiciousLinks : Z;
  indicators : list string }.

Record DeepfakeDetectionResult := {
  isDeepfake : bool;
  df_confidence : Q;
  processingTime : Q;
  anomalies : list string }.

End Detectors.
Import Detectors.

(* ------------------------------------------------------------------ *)
(** ** [server/routes.ts] and [server/honeypot/services.ts]            *)
(* ------------------------------------------------------------------ *)

Module Server.

Local Open Scope run_scope.

(** [req.file] as multer leaves it. *)
Record File := {
  originalname : string;
  mimetype : string;
  size : Z }.

Section Routes.

(** [PhishingDetector.analyzeEmail]: the classifier, a function of the text. *)
Variable analyzeEmail : string -> PhishingDetectionResult.

(** How a template literal prints a number. *)
Variable numToString : Q -> string.

Definition text_of (v : Js.Value) : string :=
  match v with Js.Str s => s | _ => "" end.

Definition phishing_severity (result : PhishingDetectionResult) : string :=
  if Qle_bool 90 (score result) then "critical" else "high".

(** The stats update both analysis routes end with. *)
Definition bump_stats (now : Z) (p : SystemStats -> PartialStats) : M unit :=
  stats <- query getSystemStats ;;
  match stats with
  | Some s => _ <- store (updateSystemStats now (p s)) EStatsUpdated ;; ret tt
  | None => ret tt
  end.

(** [app.post('/api/analyze/email')] *)
Definition analyze_email (now : Z) (content : Js.Value)
  : M (Response PhishingDetectionResult) :=
  if (negb (Js.truthy content) || negb (Js.is_string content))%bool
  then ret (ResStatus 400 "Email content is required")
  else
    let text := text_of content in
    let result := analyzeEmail text in
    analysis <- store (createPhishingAnalysis now
                  {| ip_content := text;
                     ip_score := score result;
                     ip_confidence := confidence result;
                     ip_suspiciousLinks := Some (suspiciousLinks result);
                     ip_indicators := Some (indicators result) |})
                  EPhishingStored ;;
    (if Qle_bool 70 (score result)
     then
       threat <- store (createThreat now
                   {| it_type := "phishing";
                      it_severity := phishing_severity result;
                      it_source := "email_analysis";
                      it_description :=
                        "High-risk phishing email detected with "
                        +s+ numToString (score result) +s+ "% confidence";
                      it_metadata :=
                        Some (Js.Obj [("analysisId", Js.of_id (pa_id analysis));
                                      ("indicators",
                                       Js.of_strings (indicators result))]);
                      it_status := Some "active" |})
                   EThreatCreated ;;
       alert <- store (createAlert now
                  {| ia_title := "High-Risk Phishing Email Detected";
                     ia_description :=
                       "Suspicious email content with "
                       +s+ numToString (score result)
                       +s+ "% phishing probability";
                     ia_severity := threat_severity threat;
                     ia_category := "email";
                     ia_isRead := Some false;
                     ia_metadata :=
                       Some (Js.Obj [("threatId", Js.of_id (threat_id threat));
                                     ("analysisId",
                                      Js.of_id (pa_id analysis))]) |})
                  EAlertCreated ;;
       broadcast (NewAlert alert threat) ;;;
       bump_stats now (fun stats =>
         {| ps_activeThreats := Some (activeThreats stats + 1);
            ps_phishingBlocked := Some (phishingBlocked stats + 1);
            ps_deepfakesDetected := None;
            ps_honeypotHits := None |})
     else ret tt) ;;;
    ret (ResJson result).

Definition deepfake_severity (result : DeepfakeDetectionResult) : string :=
  if Qle_bool 95 (df_confidence result) then "critical" else "high".

(** [app.post('/api/analyze/deepfake')]; [result] is what the detector chosen
  by the mimetype ([analyzeImage] or [analyzeVideo]) returns for the upload. *)
Definition analyze_deepfake (now : Z) (file : option File)
           (result : DeepfakeDetectionResult)
  : M (Response DeepfakeDetectionResult) :=
  match file with
  | None => ret (ResStatus 400 "File is required")
  | Some f =>
    if (negb (String.prefix "image/" (mimetype f))
        && negb (String.prefix "video/" (mimetype f)))%bool
    then ret (ResStatus 400 "Unsupported file type")
    else
      analysis <- store (createDeepfakeAnalysis now
                    {| id_fileName := originalname f;
                       id_fileType := mimetype f;
                       id_fileSize := size f;
                       id_isDeepfake := isDeepfake result;
                       id_confidence := df_confidence result;
                       id_processingTime := processingTime result;
                       id_anomalies := Some (anomalies result) |})
                    EDeepfakeStored ;;
      (if (isDeepfake result && Qle_bool 80 (df_confidence result))%bool
       then
         threat <- store (createThreat now
                     {| it_type := "deepfake";
                        it_severity := deepfake_severity result;
                        it_source := "media_analysis";
                        it_description :=
                          "Deepfake content detected with "
                          +s+ numToString (df_confidence result)
                          +s+ "% confidence";
                        it_metadata :=
                          Some (Js.Obj [("analysisId",
                                         Js.of_id (da_id analysis));
                                        ("anomalies",
                                         Js.of_strings (anomalies result))]);
                        it_status := Some "active" |})
                     EThreatCreated ;;
         alert <- store (createAlert now
                    {| ia_title := "Deepfake Content Detected";
                       ia_description :=
                         "AI-generated media detected with "
                         +s+ numToString (df_confidence result)
                         +s+ "% confidence level";
                       ia_severity := threat_severity threat;
                       ia_category := "media";
                       ia_isRead := Some false;
                       ia_metadata :=
                         Some (Js.Obj [("threatId", Js.of_id (threat_id threat));
                                       ("analysisId",
                                        Js.of_id (da_id analysis))]) |})
                    EAlertCreated ;;
         broadcast (NewAlert alert threat) ;;;
         bump_stats now (fun stats =>
           {| ps_activeThreats := Some (activeThreats stats + 1);
              ps_phishingBlocked := None;
              ps_deepfakesDetected := Some (deepfakesDetected stats + 1);
              ps_honeypotHits := None |})
       else ret tt) ;;;
      ret (ResJson result)
  end.

(** [app.patch('/api/alerts/:id/read')]; [id] is [parseInt(req.params.id)],
  [None] standing for [NaN], which is the key of no alert. *)
Definition alerts_read (id : option Z) : M (Response bool) :=
  match id with
  | Some n =>
      _ <- store (fun st => (tt, markAlertAsRead n st)) (fun _ => EAlertRead n) ;;
      ret (ResJson true)
  | None => ret (ResJson true)
  end.

(** [app.patch('/api/alerts/read-all')] *)
Definition alerts_read_all : M (Response bool) :=
  fun w => (ResJson true,
            {| db := markAllAlertsAsRead (db w); net := net w;
               trace := trace w |}).

(** [app.get('/api/alerts/counts')] *)
Definition alerts_counts : M (Response AlertCounts) :=
  counts <- query getAlertCounts ;; ret (ResJson counts).

(** [app.get('/api/stats')] *)
Definition get_stats : M (Response (option SystemStats)) :=
  stats <- query getSystemStats ;; ret (ResJson stats).

(** The 30 second timer: [broadcast({ type: 'stats_update', stats })]. *)
Definition stats_tick : M unit :=
  stats <- query getSystemStats ;;
  match stats with
  | Some s => broadcast (StatsUpdate s)
  | None => ret tt
  end.

(** *** [HoneypotManager] *)

Definition is_high_or_critical (sev : string) : bool :=
  (String.eqb sev "high" || String.eqb sev "critical")%bool.

Definition geo_field (f : GeoLocation -> string) (location : option GeoLocation)
  : string :=
  match location with
  | Some l => Js.str_or (f l) "Unknown"
  | None => "Unknown"
  end.

(** [HoneypotManager.logAttack].  [location] is what the geolocation service
  answers ([null] when the lookup fails) and [mailed] what
  [emailAlertService.sendAttackAlert] returns: it catches its own failures
  and answers [false]. *)
Definition logAttack (now : Z) (location : option GeoLocation) (mailed : bool)
           (attack : HoneypotAttack) : M unit :=
  _ <- store (createHoneypotLog now
         {| ih_service := service attack;
            ih_sourceIp := sourceIp attack;
            ih_attackType := attackType attack;
            ih_severity := severity attack;
            ih_port := port attack;
            ih_payload := Some (or_default (payload attack) "");
            ih_location :=
              Some (match location with
                    | Some l => geo_json l
                    | None => Js.Null
                    end) |})
       EHoneypotLogged ;;
  (if (String.eqb (service attack) "ssh"
       && is_high_or_critical (severity attack))%bool
   then
     emit (EEmail
       {| attackerIp := sourceIp attack;
          country := geo_field geo_country location;
          city := geo_field geo_city location;
          mail_attackType := attackType attack;
          timestamp := now;
          attempts := Js.first_number (or_default (payload attack) "") 1 |}
       mailed)
   else ret tt) ;;;
  bump_stats now (fun stats =>
    {| ps_activeThreats := None; ps_phishingBlocked := None;
       ps_deepfakesDetected := None;
       ps_honeypotHits := Some (honeypotHits stats + 1) |}).

(** [honeypotManager.on('attack', ...)] in [routes.ts]. *)
Definition on_attack (now : Z) (attack : HoneypotAttack) : M unit :=
  if is_high_or_critical (severity attack)
  then
    alert <- store (createAlert now
               {| ia_title :=
                    Js.toUpperCase (service attack) +s+ " Honeypot Attack";
                  ia_description :=
                    attackType attack +s+ " from IP " +s+ sourceIp attack;
                  ia_severity := severity attack;
                  ia_category := "honeypot";
                  ia_isRead := Some false;
                  ia_metadata :=
                    Some (Js.Obj [("attack", attack_json attack)]) |})
               EAlertCreated ;;
    broadcast (HoneypotAttackMsg attack (Some alert))
  else broadcast (HoneypotAttackMsg attack None).

(** [await this.logAttack(attack); this.emit('attack', attack)] *)
Definition submit_attack (now : Z) (location : option GeoLocation)
           (mailed : bool) (attack : HoneypotAttack) : M unit :=
  logAttack now location mailed attack ;;; on_attack now attack.

(** [l[Math.floor(Math.random() * l.length)]], [r] being the random draw. *)
Definition pick (l : list string) (r : nat) : string :=
  nth (Nat.modulo r (List.length l)) l "".

(** The attack [simulateSSHAttack] builds from its random draws. *)
Definition sshAttack (ip : string) (rType rSev : nat) (logins : Z)
  : HoneypotAttack :=
  {| service := "ssh";
     sourceIp := ip;
     attackType :=
       pick ["Brute Force"; "Dictionary Attack"; "Credential Stuffing"] rType;
     severity := pick ["medium"; "high"] rSev;
     port := 22;
     payload := Some ("Failed login attempts: "
                      +s+ numToString (inject_Z logins)) |}.

(** The attack [simulateHTTPAttack] builds. *)
Definition httpAttack (ip : string) (rType rSev : nat) (port80 : bool)
           (agent : string) : HoneypotAttack :=
  {| service := "http";
     sourceIp := ip;
     attackType :=
       pick ["Web Crawler"; "SQL Injection"; "XSS Attempt";
             "Directory Traversal"] rType;
     severity := pick ["low"; "medium"] rSev;
     port := if port80 then 80 else 8080;
     payload := Some ("User-Agent: " +s+ agent) |}.

(** The attack [simulateFTPAttack] builds. *)
Definition ftpAttack (ip : string) (rType rSev : nat) (tries : Z)
  : HoneypotAttack :=
  {| service := "ftp";
     sourceIp := ip;
     attackType :=
       pick ["Login Attempt"; "Anonymous Access"; "File Enumeration"] rType;
     severity := pick ["low"; "medium"] rSev;
     port := 21;
     payload := Some ("Connection attempts: "
                      +s+ numToString (inject_Z tries)) |}.

(** The attacks the three simulators can produce. *)
Inductive simulated : HoneypotAttack -> Prop :=
| sim_ssh ip rType rSev logins : simulated (sshAttack ip rType rSev logins)
| sim_http ip rType rSev port80 agent :
    simulated (httpAttack ip rType rSev port80 agent)
| sim_ftp ip rType rSev tries : simulated (ftpAttack ip rType rSev tries).

(** *** Everything that can happen to the running server *)

Inductive Event : Type :=
| PostAnalyzeEmail (now : Z) (content : Js.Value)
| PostAnalyzeDeepfake (now : Z) (file : option File)
                      (result : DeepfakeDetectionResult)
| PatchAlertRead (id : option Z)
| PatchAlertsReadAll
| Attack (now : Z) (location : option GeoLocation) (mailed : bool)
         (attack : HoneypotAttack)
| StatsTick
| WsConnect (ws : Notifier.WebSocket)
| WsState (id : Z) (s : Notifier.ReadyState)
| WsClose (id : Z).

Definition on_net (f : Notifier.t -> Notifier.t) (w : World) : World :=
  {| db := db w; net := f (net w); trace := trace w |}.

Definition handle (e : Event) (w : World) : World :=
  match e with
  | PostAnalyzeEmail now content => exec (analyze_email now content) w
  | PostAnalyzeDeepfake now file result =>
      exec (analyze_deepfake now file result) w
  | PatchAlertRead id => exec (alerts_read id) w
  | PatchAlertsReadAll => exec alerts_read_all w
  | Attack now location mailed attack =>
      exec (submit_attack now location mailed attack) w
  | StatsTick => exec stats_tick w
  | WsConnect ws => on_net (Notifier.on_connection ws) w
  | WsState id s => on_net (Notifier.set_state id s) w
  | WsClose id => on_net (Notifier.on_close id) w
  end.

Definition run (es : list Event) (w : World) : World :=
  fold_left (fun w e => handle e w) es w.


End Routes.

End Server.

(* ------------------------------------------------------------------ *)
(** ** [cybershield-complete.js]: the single-file server               *)
(* ------------------------------------------------------------------ *)

Module SingleFile.

Local Open Scope run_scope.

(** [class MemoryStorage] *)
Record MemoryStorage := {
  threats : JsMap.t Threat;
  phishingAnalyses : JsMap.t PhishingAnalysis;
  deepfakeAnalyses : JsMap.t DeepfakeAnalysis;
  honeypotLogs : JsMap.t HoneypotLog;
  alerts : JsMap.t Alert;
  systemStats : SystemStats;
  currentThreatId : Z;
  currentPhishingId : Z;
  currentDeepfakeId : Z;
  currentHoneypotId : Z;
  currentAlertId : Z }.

Definition constructor (now : Z) : MemoryStorage :=
  {| threats := JsMap.empty;
     phishingAnalyses := JsMap.empty;
     deepfakeAnalyses := JsMap.empty;
     honeypotLogs := JsMap.empty;
     alerts := JsMap.empty;
     systemStats :=
       {| stats_id := 1; activeThreats := 7; phishingBlocked := 142;
          deepfakesDetected := 23; honeypotHits := 1847; updatedAt := now |};
     currentThreatId := 1;
     currentPhishingId := 1;
     currentDeepfakeId := 1;
     currentHoneypotId := 1;
     currentAlertId := 1 |}.

(** [updateSystemStats] *)
Definition updateSystemStats (now : Z) (p : PartialStats) (st : MemoryStorage)
  : SystemStats * MemoryStorage :=
  let s := spread_stats now (systemStats st) p in
  (s, {| threats := threats st; phishingAnalyses := phishingAnalyses st;
         deepfakeAnalyses := deepfakeAnalyses st;
         honeypotLogs := honeypotLogs st; alerts := alerts st;
         systemStats := s;
         currentThreatId := currentThreatId st;
         currentPhishingId := currentPhishingId st;
         currentDeepfakeId := currentDeepfakeId st;
         currentHoneypotId := currentHoneypotId st;
         currentAlertId := currentAlertId st |}).

(** [createThreat]: [{ id: this.currentThreatId++, ...threat, detectedAt }] *)
Definition createThreat (now : Z) (typ sev src descr : string)
           (metadata : Js.Value) (status : string) (st : MemoryStorage)
  : Threat * MemoryStorage :=
  let newThreat :=
    {| threat_id := currentThreatId st; threat_type := typ;
       threat_severity := sev; threat_source := src;
       threat_description := descr; threat_metadata := metadata;
       threat_status := status; threat_detectedAt := now |} in
  (newThreat,
   {| threats := JsMap.set (threat_id newThreat) newThreat (threats st);
      phishingAnalyses := phishingAnalyses st;
      deepfakeAnalyses := deepfakeAnalyses st;
      honeypotLogs := honeypotLogs st; alerts := alerts st;
      systemStats := systemStats st;
      currentThreatId := currentThreatId st + 1;
      currentPhishingId := currentPhishingId st;
      currentDeepfakeId := currentDeepfakeId st;
      currentHoneypotId := currentHoneypotId st;
      currentAlertId := currentAlertId st |}).

(** [createPhishingAnalysis] *)
Definition createPhishingAnalysis (now : Z) (content : string)
           (result : PhishingDetectionResult) (st : MemoryStorage)
  : PhishingAnalysis * MemoryStorage :=
  let newAnalysis :=
    {| pa_id := currentPhishingId st; pa_content := content;
       pa_score := score result; pa_confidence := confidence result;
       pa_suspiciousLinks := suspiciousLinks result;
       pa_indicators := Some (indicators result);
       pa_analyzedAt := now |} in
  (newAnalysis,
   {| threats := threats st;
      phishingAnalyses :=
        JsMap.set (pa_id newAnalysis) newAnalysis (phishingAnalyses st);
      deepfakeAnalyses := deepfakeAnalyses st;
      honeypotLogs := honeypotLogs st; alerts := alerts st;
      systemStats := systemStats st;
      currentThreatId := currentThreatId st;
      currentPhishingId := currentPhishingId st + 1;
      currentDeepfakeId := currentDeepfakeId st;
      currentHoneypotId := currentHoneypotId st;
      currentAlertId := currentAlertId st |}).

(** [createDeepfakeAnalysis] *)
Definition createDeepfakeAnalysis (now : Z) (fileName fileType : string)
           (fileSize : Z) (result : DeepfakeDetectionResult)
           (st : MemoryStorage) : DeepfakeAnalysis * MemoryStorage :=
  let newAnalysis :=
    {| da_id := currentDeepfakeId st; da_fileName := fileName;
       da_fileType := fileType; da_fileSize := fileSize;
       da_isDeepfake := isDeepfake result;
       da_confidence := df_confidence result;
       da_processingTime := processingTime result;
       da_anomalies := Some (anomalies result);
       da_analyzedAt := now |} in
  (newAnalysis,
   {| threats := threats st; phishingAnalyses := phishingAnalyses st;
      deepfakeAnalyses :=
        JsMap.set (da_id newAnalysis) newAnalysis (deepfakeAnalyses st);
      honeypotLogs := honeypotLogs st; alerts := alerts st;
      systemStats := systemStats st;
      currentThreatId := currentThreatId st;
      currentPhishingId := currentPhishingId st;
      currentDeepfakeId := currentDeepfakeId st + 1;
      currentHoneypotId := currentHoneypotId st;
      currentAlertId := currentAlertId st |}).

(** The object the mock [GeolocationService.getLocation] answers. *)
Record MockLocation := {
  mock_ip : string;
  mock_country : string;
  mock_city : string;
  mock_lat : Q;
  mock_lon : Q;
  mock_timezone : string;
  mock_isp : string;
  mock_org : string }.

Definition mock_json (l : MockLocation) : Js.Value :=
  Js.Obj [("ip", Js.Str (mock_ip l)); ("country", Js.Str (mock_country l));
          ("city", Js.Str (mock_city l)); ("lat", Js.Num (mock_lat l));
          ("lon", Js.Num (mock_lon l));
          ("timezone", Js.Str (mock_timezone l));
          ("isp", Js.Str (mock_isp l)); ("org", Js.Str (mock_org l))].

(** [createHoneypotLog({ ...attack, location })] *)
Definition createHoneypotLog (now : Z) (attack : HoneypotAttack)
           (location : MockLocation) (st : MemoryStorage)
  : HoneypotLog * MemoryStorage :=
  let newLog :=
    {| hl_id := currentHoneypotId st; hl_service := service attack;
       hl_sourceIp := sourceIp attack; hl_attackType := attackType attack;
       hl_severity := severity attack; hl_port := port attack;
       hl_payload := payload attack; hl_location := mock_json location;
       hl_detectedAt := now |} in
  (newLog,
   {| threats := threats st; phishingAnalyses := phishingAnalyses st;
      deepfakeAnalyses := deepfakeAnalyses st;
      honeypotLogs := JsMap.set (hl_id newLog) newLog (honeypotLogs st);
      alerts := alerts st;
      systemStats := systemStats st;
      currentThreatId := currentThreatId st;
      currentPhishingId := currentPhishingId st;
      currentDeepfakeId := currentDeepfakeId st;
      currentHoneypotId := currentHoneypotId st + 1;
      currentAlertId := currentAlertId st |}).

Definition with_alerts (m : JsMap.t Alert) (n : Z) (st : MemoryStorage)
  : MemoryStorage :=
  {| threats := threats st; phishingAnalyses := phishingAnalyses st;
     deepfakeAnalyses := deepfakeAnalyses st;
     honeypotLogs := honeypotLogs st; alerts := m;
     systemStats := systemStats st;
     currentThreatId := currentThreatId st;
     currentPhishingId := currentPhishingId st;
     currentDeepfakeId := currentDeepfakeId st;
     currentHoneypotId := currentHoneypotId st;
     currentAlertId := n |}.

(** [createAlert] *)
Definition createAlert (now : Z) (title descr sev category : string)
           (metadata : Js.Value) (st : MemoryStorage) : Alert * MemoryStorage :=
  let newAlert :=
    {| alert_id := currentAlertId st; alert_title := title;
       alert_description := descr; alert_severity := sev;
       alert_category := category; alert_isRead := false;
       alert_metadata := metadata; alert_createdAt := now |} in
  (newAlert,
   with_alerts (JsMap.set (alert_id newAlert) newAlert (alerts st))
               (currentAlertId st + 1) st).

(** [markAlertAsRead] *)
Definition markAlertAsRead (id : Z) (st : MemoryStorage) : MemoryStorage :=
  match JsMap.get id (alerts st) with
  | Some alert =>
      with_alerts (JsMap.set id (set_isRead true alert) (alerts st))
                  (currentAlertId st) st
  | None => st
  end.

(** [getAlertCounts]: every stored alert counts, read or not. *)
Definition getAlertCounts (st : MemoryStorage) : AlertCounts :=
  let alerts := JsMap.values (alerts st) in
  {| critical := List.length (filter (has_severity "critical") alerts);
     high := List.length (filter (has_severity "high") alerts);
     medium := List.length (filter (has_severity "medium") alerts);
     low := List.length (filter (has_severity "low") alerts) |}.

(** The process: the store, the notifier and what was done so far. *)
Record World := {
  db : MemoryStorage;
  net : Notifier.t;
  trace : list Effect }.

Definition boot (now : Z) : World :=
  {| db := constructor now; net := Notifier.init; trace := [] |}.

Definition store {A} (f : MemoryStorage -> A * MemoryStorage)
           (e : A -> Effect) (w : World) : A * World :=
  let (a, st) := f (db w) in
  (a, {| db := st; net := net w; trace := trace w ++ [e a] |}).

Definition emit (e : Effect) (w : World) : World :=
  {| db := db w; net := net w; trace := trace w ++ [e] |}.

Definition broadcast (data : WsMessage) (w : World) : World :=
  {| db := db w; net := Notifier.broadcast data (net w);
     trace := trace w ++ [EBroadcast data] |}.

Definition effects_since (before after : World) : list Effect :=
  skipn (List.length (trace before)) (trace after).

Section Routes.

(** How a template literal prints a number, and [(c * 100).toFixed(1)]. *)
Variable numToString : Q -> string.
Variable percentFixed1 : Q -> string.

(** The IEEE double written [0.8] in the source: 3602879701896397 / 2^52. *)
Definition double_0_8 : Q := 3602879701896397 # 4503599627370496.

(** [app.post('/api/phishing/analyze')].  [result] is what
  [phishingDetector.analyzeEmail] answers for a string (its confidence is
  drawn at random); on any other value [content.toLowerCase()] raises a
  [TypeError], which the route turns into a 500. *)
Definition phishing_analyze (now : Z) (content : Js.Value)
           (result : PhishingDetectionResult) (w : World)
  : Response (PhishingAnalysis * PhishingDetectionResult) * World :=
  if negb (Js.truthy content)
  then (ResStatus 400 "Content is required", w)
  else
    match content with
    | Js.Str text =>
        let (analysis, w1) :=
          store (createPhishingAnalysis now text result) EPhishingStored w in
        let w2 :=
          if negb (Qle_bool (score result) 70)
          then snd (store (createThreat now "phishing"
                             (if negb (Qle_bool (score result) 90)
                              then "critical" else "high")
                             "email-analysis"
                             ("Phishing email detected with "
                              +s+ numToString (score result)
                              +s+ "% confidence")
                             (Js.Obj [("analysisId",
                                       Js.of_id (pa_id analysis))])
                             "active")
                          EThreatCreated w1)
          else w1 in
        (ResJson (analysis, result), w2)
    | _ => (ResStatus 500 "content.toLowerCase is not a function", w)
    end.

(** [app.post('/api/deepfake/analyze')] for a body whose three fields are
  strings; [size] is the length of the decoded buffer and [result] what the
  detector chosen by [fileType] answers. *)
Definition deepfake_analyze (now : Z) (fileName fileType fileData : string)
           (size : Z) (result : DeepfakeDetectionResult) (w : World)
  : Response (DeepfakeAnalysis * DeepfakeDetectionResult) * World :=
  if (String.eqb fileName "" || String.eqb fileType ""
      || String.eqb fileData "")%bool
  then (ResStatus 400 "File data is required", w)
  else
    let (analysis, w1) :=
      store (createDeepfakeAnalysis now fileName fileType size result)
            EDeepfakeStored w in
    let w2 :=
      if isDeepfake result
      then snd (store (createThreat now "deepfake"
                         (if negb (Qle_bool (df_confidence result) double_0_8)
                          then "high" else "medium")
                         "deepfake-detection"
                         ("Deepfake detected in " +s+ fileName +s+ " with "
                          +s+ percentFixed1 (df_confidence result)
                          +s+ "% confidence")
                         (Js.Obj [("analysisId", Js.of_id (da_id analysis))])
                         "active")
                      EThreatCreated w1)
      else w1 in
    (ResJson (analysis, result), w2).

(** [app.patch('/api/alerts/:id/read')] *)
Definition alerts_read (id : option Z) (w : World) : Response bool * World :=
  match id with
  | Some n =>
      (ResJson true,
       {| db := markAlertAsRead n (db w); net := net w;
          trace := trace w ++ [EAlertRead n] |})
  | None => (ResJson true, w)
  end.

(** [HoneypotManager.logAttack]; [location] is the mock geolocation drawn
  for the address and [tries] the random [attempts] of the e-mail, which the
  single-file [sendAttackAlert] always reports as sent. *)
Definition logAttack (now : Z) (location : MockLocation) (tries : Z)
           (attack : HoneypotAttack) (w : World) : World :=
  let (honeypotLog, w1) :=
    store (createHoneypotLog now attack location) EHoneypotLogged w in
  let w2 :=
    if (String.eqb (service attack) "ssh"
        && existsb (String.eqb (severity attack)) ["high"; "critical"])%bool
    then
      let (alert, wa) :=
        store (createAlert now "SSH Honeypot Attack"
                 (attackType attack +s+ " attack from " +s+ sourceIp attack
                  +s+ " (" +s+ mock_city location +s+ ", "
                  +s+ mock_country location +s+ ")")
                 (severity attack) "honeypot"
                 (Js.Obj [("honeypotLogId", Js.of_id (hl_id honeypotLog));
                          ("location", mock_json location)]))
              EAlertCreated w1 in
      let wm :=
        emit (EEmail {| attackerIp := sourceIp attack;
                        country := Js.str_or (mock_country location) "Unknown";
                        city := Js.str_or (mock_city location) "Unknown";
                        mail_attackType := attackType attack;
                        timestamp := now;
                        attempts := tries |} true) wa in
      broadcast (NewAlertLog alert honeypotLog) wm
    else w1 in
  snd (store (updateSystemStats now
                {| ps_activeThreats := None; ps_phishingBlocked := None;
                   ps_deepfakesDetected := None;
                   ps_honeypotHits :=
                     Some (honeypotHits (systemStats (db w2)) + 1) |})
             EStatsUpdated w2).

Inductive Event : Type :=
| PostPhishingAnalyze (now : Z) (content : Js.Value)
                      (result : PhishingDetectionResult)
| PostDeepfakeAnalyze (now : Z) (fileName fileType fileData : string)
                      (size : Z) (result : DeepfakeDetectionResult)
| PatchAlertRead (id : option Z)
| Attack (now : Z) (location : MockLocation) (tries : Z)
         (attack : HoneypotAttack)
| WsConnect (ws : Notifier.WebSocket)
| WsState (id : Z) (s : Notifier.ReadyState)
| WsClose (id : Z)
| WsError (id : Z).

Definition on_net (f : Notifier.t -> Notifier.t) (w : World) : World :=
  {| db := db w; net := f (net w); trace := trace w |}.

Definition handle (e : Event) (w : World) : World :=
  match e with
  | PostPhishingAnalyze now content result =>
      snd (phishing_analyze now content result w)
  | PostDeepfakeAnalyze now fileName fileType fileData size result =>
      snd (deepfake_analyze now fileName fileType fileData size result w)
  | PatchAlertRead id => snd (alerts_read id w)
  | Attack now location tries attack => logAttack now location tries attack w
  | WsConnect ws => on_net (Notifier.on_connection ws) w
  | WsState id s => on_net (Notifier.set_state id s) w
  | WsClose id => on_net (Notifier.on_close id) w
  | WsError id => on_net (Notifier.on_error id) w
  end.

Definition run (es : list Event) (w : World) : World :=
  fold_left (fun w e => handle e w) es w.

End Routes.

End SingleFile.

(* ------------------------------------------------------------------ *)
(** ** Reading a trace                                                 *)
(* ------------------------------------------------------------------ *)

Module Observe.

Definition threats_created (tr : list Effect) : list Threat :=
  flat_map (fun e => match e with EThreatCreated t => [t] | _ => [] end) tr.

Definition alerts_created (tr : list Effect) : list Alert :=
  flat_map (fun e => match e with EAlertCreated a => [a] | _ => [] end) tr.

Definition phishing_stored (tr : list Effect) : list PhishingAnalysis :=
  flat_map (fun e => match e with EPhishingStored a => [a] | _ => [] end) tr.


Definition attacks_logged (tr : list Effect) : list HoneypotLog :=
  flat_map (fun e => match e with EHoneypotLogged l => [l] | _ => [] end) tr.

Definition stats_updates (tr : list Effect) : list SystemStats :=
  flat_map (fun e => match e with EStatsUpdated s => [s] | _ => [] end) tr.

Definition emails (tr : list Effect) : list (EmailAlertData * bool) :=
  flat_map (fun e => match e with EEmail d ok => [(d, ok)] | _ => [] end) tr.

(** The order a submission is said to follow: whenever something is
  broadcast, the statistics were updated earlier in the same run. *)
Definition stats_updated_before_broadcast (tr : list Effect) : Prop :=
  forall pre m post,
    tr = pre ++ EBroadcast m :: post -> exists s, In (EStatsUpdated s) pre.

(** The number of stored alerts of severity [s] that are still unread. *)
Definition unread_with (s : string) (m : JsMap.t Alert) : nat :=
  List.length
    (filter (fun a => (String.eqb (alert_severity a) s
                       && negb (alert_isRead a))%bool)
            (JsMap.values m)).




(** What the honeypot counter is about: the stored logs, the next log id
  and the counter itself. *)
Definition honeypot_view (w : World)
  : JsMap.t HoneypotLog * Z * option Z :=
  (Storage.honeypotLogs (db w), Storage.currentHoneypotId (db w),
   option_map honeypotHits (Storage.systemStats (db w))).

Definition is_attack (e : Server.Event) : bool :=
  match e with Server.Attack _ _ _ _ => true | _ => false end.




(** The statistics after an escalating phishing submission at [now]. *)
Definition phishing_bump (now : Z) (s : SystemStats) : SystemStats :=
  spread_stats now s
    {| ps_activeThreats := Some (activeThreats s + 1);
       ps_phishingBlocked := Some (phishingBlocked s + 1);
       ps_deepfakesDetected := None;
       ps_honeypotHits := None |}.

(** The statistics after an escalating deepfake submission at [now]. *)
Definition deepfake_bump (now : Z) (s : SystemStats) : SystemStats :=
  spread_stats now s
    {| ps_activeThreats := Some (activeThreats s + 1);
       ps_phishingBlocked := None;
       ps_deepfakesDetected := Some (deepfakesDetected s + 1);
       ps_honeypotHits := None |}.

(** An upload the deepfake route accepts: an image or a video. *)
Definition supported (f : Server.File) : Prop :=
  String.prefix "image/" (Server.mimetype f) = true
  \/ String.prefix "video/" (Server.mimetype f) = true.

End Observe.
Import Observe.

(* ------------------------------------------------------------------ *)
(** ** Arrays: [slice] and [sort]                                      *)
(* ------------------------------------------------------------------ *)

Module JsArray.
Section Ops.
Context {A : Type}.

(** A relative index of [slice], brought into the range from 0 to [len]:
  a negative index counts from the end. *)
Definition clamp (len : nat) (i : Z) : nat :=
  if Z.ltb i 0 then Z.to_nat (Z.max (Z.of_nat len + i) 0)
  else Nat.min (Z.to_nat i) len.

(** [Array.prototype.slice(start, stop)] for integer arguments. *)
Definition slice (start stop : Z) (l : list A) : list A :=
  let s := clamp (List.length l) start in
  let e := clamp (List.length l) stop in
  firstn (e - s) (skipn s l).

Fixpoint insert (compare : A -> A -> Z) (x : A) (l : list A) : list A :=
  match l with
  | [] => [x]
  | y :: r =>
      if Z.leb (compare x y) 0 then x :: y :: r
      else y :: insert compare x r
  end.

(** [Array.prototype.sort(compare)]: the sort is stable, so for a comparator
  that orders by a key its result is the one of this insertion sort. *)
Fixpoint sort (compare : A -> A -> Z) (l : list A) : list A :=
  match l with
  | [] => []
  | x :: r => insert compare x (sort compare r)
  end.

End Ops.
End JsArray.

(* ------------------------------------------------------------------ *)
(** ** [server/storage.ts]: the queries and the remaining updates      *)
(* ------------------------------------------------------------------ *)

Module Queries.

(** [(a, b) => b.time - a.time] *)
Definition newest_first {V} (time : V -> Z) (a b : V) : Z := time b - time a.

(** [a] may stand before [b] in a listing: it is not older. *)
Definition not_older {V} (time : V -> Z) (a b : V) : Prop := time b <= time a.

(** [getThreats(limit = 50, offset = 0)] *)
Definition getThreats (limit offset : option Z) (st : MemStorage)
  : list Threat :=
  let limit := or_default limit 50 in
  let offset := or_default offset 0 in
  let allThreats :=
    JsArray.sort (newest_first threat_detectedAt)
                 (JsMap.values (threats st)) in
  JsArray.slice offset (offset + limit) allThreats.

(** [getThreatsByType] *)
Definition getThreatsByType (type : string) (st : MemStorage) : list Threat :=
  filter (fun threat => String.eqb (threat_type threat) type)
         (JsMap.values (threats st)).

Definition set_status (status : string) (t : Threat) : Threat :=
  {| threat_id := threat_id t; threat_type := threat_type t;
     threat_severity := threat_severity t; threat_source := threat_source t;
     threat_description := threat_description t;
     threat_metadata := threat_metadata t;
     threat_status := status;
     threat_detectedAt := threat_detectedAt t |}.

(** [updateThreatStatus] *)
Definition updateThreatStatus (id : Z) (status : string) (st : MemStorage)
  : MemStorage :=
  match JsMap.get id (threats st) with
  | Some threat =>
      with_threats (JsMap.set id (set_status status threat) (threats st))
                   (currentThreatId st) st
  | None => st
  end.

(** [getPhishingAnalyses(limit = 50)] *)
Definition getPhishingAnalyses (limit : option Z) (st : MemStorage)
  : list PhishingAnalysis :=
  JsArray.slice 0 (or_default limit 50)
    (JsArray.sort (newest_first pa_analyzedAt)
                  (JsMap.values (phishingAnalyses st))).

(** [getDeepfakeAnalyses(limit = 50)] *)
Definition getDeepfakeAnalyses (limit : option Z) (st : MemStorage)
  : list DeepfakeAnalysis :=
  JsArray.slice 0 (or_default limit 50)
    (JsArray.sort (newest_first da_analyzedAt)
                  (JsMap.values (deepfakeAnalyses st))).

(** [if (service)]: a service is given and is not the empty string. *)
Definition given (service : option string) : option string :=
  match service with
  | Some s => if String.eqb s "" then None else Some s
  | None => None
  end.

(** [getHoneypotLogs(limit = 100, service?)] *)
Definition getHoneypotLogs (limit : option Z) (service : option string)
           (st : MemStorage) : list HoneypotLog :=
  let logs := JsMap.values (honeypotLogs st) in
  let logs :=
    match given service with
    | Some s => filter (fun log => String.eqb (hl_service log) s) logs
    | None => logs
    end in
  JsArray.slice 0 (or_default limit 100)
    (JsArray.sort (newest_first hl_detectedAt) logs).

(** [getAlerts(limit = 50, unreadOnly = false)] *)
Definition getAlerts (limit : option Z) (unreadOnly : option bool)
           (st : MemStorage) : list Alert :=
  let alertList := JsMap.values (alerts st) in
  let alertList :=
    if or_default unreadOnly false
    then filter (fun alert => negb (alert_isRead alert)) alertList
    else alertList in
  JsArray.slice 0 (or_default limit 50)
    (JsArray.sort (newest_first alert_createdAt) alertList).

End Queries.

(** The users of [MemStorage]: its [users] map and [currentUserId], which
  no other operation of the storage touches. *)
Module Users.

Record User := {
  user_id : Z;
  username : string;
  password : string }.

Record InsertUser := {
  iu_username : string;
  iu_password : string }.

Record t := {
  users : JsMap.t User;
  currentUserId : Z }.

Definition init : t := {| users := JsMap.empty; currentUserId := 1 |}.

(** [getUser] *)
Definition getUser (id : Z) (st : t) : option User := JsMap.get id (users st).

(** [getUserByUsername] *)
Definition getUserByUsername (name : string) (st : t) : option User :=
  find (fun user => String.eqb (username user) name) (JsMap.values (users st)).

(** [createUser] *)
Definition createUser (insertUser : InsertUser) (st : t) : User * t :=
  let user :=
    {| user_id := currentUserId st;
       username := iu_username insertUser;
       password := iu_password insertUser |} in
  (user,
   {| users := JsMap.set (user_id user) user (users st);
      currentUserId := currentUserId st + 1 |}).

(** The store after creating the given users one after the other. *)
Definition create_all (l : list InsertUser) : t :=
  fold_left (fun st ins => snd (createUser ins st)) l init.

End Users.

(* ------------------------------------------------------------------ *)
(** ** What the running store keeps                                    *)
(* ------------------------------------------------------------------ *)

Module Invariants.

(** The ids [1, 2, ..., n]. *)
Definition first_ids (n : nat) : list Z := map Z.of_nat (seq 1 n).

(** A map holds the ids from 1 on, in insertion order, each record carries
  its key as its id, and [next] is the id the next record will get. *)
Definition in_order {V} (id_of : V -> Z) (m : JsMap.t V) (next : Z) : Prop :=
  JsMap.keys m = first_ids (JsMap.size m)
  /\ map id_of (JsMap.values m) = JsMap.keys m
  /\ next = Z.of_nat (JsMap.size m) + 1.

Definition stored_in_order (st : MemStorage) : Prop :=
  in_order threat_id (threats st) (currentThreatId st)
  /\ in_order pa_id (phishingAnalyses st) (currentPhishingId st)
  /\ in_order da_id (deepfakeAnalyses st) (currentDeepfakeId st)
  /\ in_order hl_id (honeypotLogs st) (currentHoneypotId st)
  /\ in_order alert_id (alerts st) (currentAlertId st).

(** The counters of the statistics record against the stored threats. *)
Definition stats_match_threats (st : MemStorage) : Prop :=
  exists s,
    systemStats st = Some s
    /\ activeThreats s = 7 + Z.of_nat (JsMap.size (threats st))
    /\ phishingBlocked s
       = 142 + Z.of_nat (List.length (Queries.getThreatsByType "phishing" st))
    /\ deepfakesDetected s
       = 23 + Z.of_nat (List.length (Queries.getThreatsByType "deepfake" st)).

(** An alert raised by an analysis names a Threat and an analysis by id. *)
Definition names_ids (a : Alert) (threatId analysisId : Z) : Prop :=
  alert_metadata a
  = Js.Obj [("threatId", Js.of_id threatId);
            ("analysisId", Js.of_id analysisId)].

(** An e-mail or media alert names a Threat and an analysis that are in the
  store, of the matching kind. *)
Definition resolves (st : MemStorage) (a : Alert) : Prop :=
  (alert_category a = "email" ->
   exists t p threat analysis,
     names_ids a t p
     /\ JsMap.get t (threats st) = Some threat
     /\ threat_type threat = "phishing"
     /\ JsMap.get p (phishingAnalyses st) = Some analysis)
  /\ (alert_category a = "media" ->
      exists t p threat analysis,
        names_ids a t p
        /\ JsMap.get t (threats st) = Some threat
        /\ threat_type threat = "deepfake"
        /\ JsMap.get p (deepfakeAnalyses st) = Some analysis).

Definition alerts_resolve (st : MemStorage) : Prop :=
  forall id a, JsMap.get id (alerts st) = Some a -> resolves st a.

(** An entry of the alert map with its alert marked as read. *)
Definition read_entry (e : Z * Alert) : Z * Alert :=
  (fst e, set_isRead true (snd e)).

(** Nothing stored in [st] is lost or altered in [st']: every threat,
  analysis and log is still there as it was, and every alert is still there,
  as it was or marked as read. *)
Definition kept (st st' : MemStorage) : Prop :=
  (forall k v, JsMap.get k (threats st) = Some v ->
               JsMap.get k (threats st') = Some v)
  /\ (forall k v, JsMap.get k (phishingAnalyses st) = Some v ->
                  JsMap.get k (phishingAnalyses st') = Some v)
  /\ (forall k v, JsMap.get k (deepfakeAnalyses st) = Some v ->
                  JsMap.get k (deepfakeAnalyses st') = Some v)
  /\ (forall k v, JsMap.get k (honeypotLogs st) = Some v ->
                  JsMap.get k (honeypotLogs st') = Some v)
  /\ (forall k a, JsMap.get k (alerts st) = Some a ->
                  JsMap.get k (alerts st') = Some a
                  \/ JsMap.get k (alerts st') = Some (set_isRead true a)).

(** The services of the attacks among the events of a run, in order. *)
Definition attacked_services (es : list Server.Event) : list string :=
  flat_map (fun e => match e with
                     | Server.Attack _ _ _ attack => [service attack]
                     | _ => []
                     end) es.

Definition count_service (s : string) (l : list string) : nat :=
  List.length (filter (String.eqb s) l).

End Invariants.

(* ------------------------------------------------------------------ *)
(** ** What a listing shows                                            *)
(* ------------------------------------------------------------------ *)

Module Listing.

(** [listed] is what [sort(newest first).slice(0, n)] shows of [l]: the
  first [n] records (all of them when there are fewer) of the arrangement of
  [l] by falling time in which records of the same time keep the order they
  have in [l]. *)
Definition lists_newest {V} (time : V -> Z) (n : nat) (l listed : list V)
  : Prop :=
  List.length listed = Nat.min n (List.length l)
  /\ exists rest,
      Permutation (listed ++ rest) l
      /\ StronglySorted (Queries.not_older time) (listed ++ rest)
      /\ forall k, filter (fun a => Z.eqb (time a) k) (listed ++ rest)
                   = filter (fun a => Z.eqb (time a) k) l.

Definition unread (l : list Alert) : list Alert :=
  filter (fun alert => negb (alert_isRead alert)) l.

Definition of_service (s : string) (l : list HoneypotLog) : list HoneypotLog :=
  filter (fun log => String.eqb (hl_service log) s) l.

End Listing.

(* ------------------------------------------------------------------ *)
(** ** What goes over the wire                                         *)
(* ------------------------------------------------------------------ *)

Module Wiring.

(** The sockets that connected during a run, by id. *)
Definition connected (es : list Server.Event) : list Z :=
  flat_map (fun e => match e with
                     | Server.WsConnect ws => [Notifier.ws_id ws]
                     | _ => []
                     end) es.

(** The frames that broadcasting the messages [ms] to the subscribers of [n]
  puts on the wire. *)
Definition frames_of (n : Notifier.t) (ms : list WsMessage)
  : list Notifier.Delivery :=
  flat_map (fun m => map (Notifier.delivery m)
                         (filter Notifier.is_open (Notifier.wsClients n))) ms.

(** An event of the socket server, as opposed to a request, an attack or
  the timer. *)
Definition is_socket_event (e : Server.Event) : bool :=
  match e with
  | Server.WsConnect _ | Server.WsState _ _ | Server.WsClose _ => true
  | _ => false
  end.

(** What a run keeps true of the notifier: the subscribers are distinct
  sockets that connected, and every frame went to a socket that connected. *)
Definition served (ids : list Z) (n : Notifier.t) : Prop :=
  NoDup (map Notifier.ws_id (Notifier.wsClients n))
  /\ (forall id, In id (map Notifier.ws_id (Notifier.wsClients n)) ->
                 In id ids)
  /\ (forall d, In d (Notifier.wire n) -> In (Notifier.to d) ids).

End Wiring.

(* ------------------------------------------------------------------ *)
(** ** What the single-file server keeps                               *)
(* ------------------------------------------------------------------ *)

Module SingleFileSpecs.

Definition is_attack (e : SingleFile.Event) : bool :=
  match e with SingleFile.Attack _ _ _ _ => true | _ => false end.

(** The attacks the single-file server raises an alert for. *)
Definition alerting (e : SingleFile.Event) : bool :=
  match e with
  | SingleFile.Attack _ _ _ attack =>
      (String.eqb (service attack) "ssh"
       && existsb (String.eqb (severity attack)) ["high"; "critical"])%bool
  | _ => false
  end.

Definition count {A} (p : A -> bool) (l : list A) : nat :=
  List.length (filter p l).

(** An alert as the single-file honeypot raises them. *)
Definition honeypot_alert (a : Alert) : Prop :=
  alert_category a = "honeypot"
  /\ alert_title a = "SSH Honeypot Attack"
  /\ (alert_severity a = "high" \/ alert_severity a = "critical").

(** The state of the single-file store after [k] attacks of which [j]
  raised an alert. *)
Definition tracks (k j : nat) (st : SingleFile.MemoryStorage) : Prop :=
  Invariants.in_order hl_id (SingleFile.honeypotLogs st)
                      (SingleFile.currentHoneypotId st)
  /\ Invariants.in_order alert_id (SingleFile.alerts st)
                         (SingleFile.currentAlertId st)
  /\ JsMap.size (SingleFile.honeypotLogs st) = k
  /\ JsMap.size (SingleFile.alerts st) = j
  /\ Forall honeypot_alert (JsMap.values (SingleFile.alerts st))
  /\ activeThreats (SingleFile.systemStats st) = 7
  /\ phishingBlocked (SingleFile.systemStats st) = 142
  /\ deepfakesDetected (SingleFile.systemStats st) = 23
  /\ honeypotHits (SingleFile.systemStats st) = 1847 + Z.of_nat k.

End SingleFileSpecs.

(* ------------------------------------------------------------------ *)
(** ** [HoneypotManager]: [start] and [stop]                           *)
(* ------------------------------------------------------------------ *)

Module Manager.

(** The three methods a timer can call. *)
Inductive Simulator : Type := simulateSSHAttack | simulateHTTPAttack
                              | simulateFTPAttack.

(** A timer of the runtime: [setInterval(fn, delay)] answered [handle]. *)
Record Timer := {
  handle : Z;
  fires : Simulator;
  delay : Q }.

(** The manager ([isRunning], [intervals]) and the timers of the runtime
  that were set and not cleared. *)
Record t := {
  isRunning : bool;
  intervals : list Z;
  timers : list Timer;
  nextHandle : Z }.

Definition init : t :=
  {| isRunning := false; intervals := []; timers := []; nextHandle := 1 |}.

(** [this.intervals.push(setInterval(fn, delay))] *)
Definition push_interval (fn : Simulator) (ms : Q) (m : t) : t :=
  {| isRunning := isRunning m;
     intervals := intervals m ++ [nextHandle m];
     timers := timers m ++ [{| handle := nextHandle m; fires := fn;
                               delay := ms |}];
     nextHandle := nextHandle m + 1 |}.

(** [clearInterval(interval)] *)
Definition clearInterval (h : Z) (l : list Timer) : list Timer :=
  filter (fun t => negb (Z.eqb (handle t) h)) l.

Definition set_running (b : bool) (m : t) : t :=
  {| isRunning := b; intervals := intervals m; timers := timers m;
     nextHandle := nextHandle m |}.

(** [start()] of [services.ts]; [r1], [r2], [r3] are its three draws of
  [Math.random()]. *)
Definition start (r1 r2 r3 : Q) (m : t) : t :=
  if isRunning m then m
  else
    push_interval simulateFTPAttack (15000 + r3 * 30000)
      (push_interval simulateHTTPAttack (8000 + r2 * 15000)
         (push_interval simulateSSHAttack (10000 + r1 * 20000)
            (set_running true m))).

(** [this.intervals.forEach(clearInterval); this.intervals = []] *)
Definition clear_all (m : t) : t :=
  {| isRunning := isRunning m;
     intervals := [];
     timers := fold_left (fun l h => clearInterval h l) (intervals m)
                         (timers m);
     nextHandle := nextHandle m |}.

(** [stop()] of [services.ts] *)
Definition stop (m : t) : t :=
  if negb (isRunning m) then m else clear_all (set_running false m).

(** [start()] of the single-file server: fixed periods. *)
Definition start_single (m : t) : t :=
  if isRunning m then m
  else
    push_interval simulateFTPAttack 35000
      (push_interval simulateHTTPAttack 25000
         (push_interval simulateSSHAttack 15000 (set_running true m))).

(** [stop()] of the single-file server: no test of [isRunning]. *)
Definition stop_single (m : t) : t := clear_all (set_running false m).

Inductive Call : Type :=
| Start (r1 r2 r3 : Q)
| Stop
| StartSingle
| StopSingle.

Definition call (c : Call) (m : t) : t :=
  match c with
  | Start r1 r2 r3 => start r1 r2 r3 m
  | Stop => stop m
  | StartSingle => start_single m
  | StopSingle => stop_single m
  end.

Definition calls (cs : list Call) (m : t) : t :=
  fold_left (fun m c => call c m) cs m.

(** The manager holds the handle of every live timer and of no other, no
  handle is in use twice, and the timers are the three simulators when it
  runs and none when it does not. *)
Definition tidy (m : t) : Prop :=
  map handle (timers m) = intervals m
  /\ Forall (fun h => h < nextHandle m) (intervals m)
  /\ NoDup (intervals m)
  /\ map fires (timers m)
     = if isRunning m
       then [simulateSSHAttack; simulateHTTPAttack; simulateFTPAttack]
       else [].

End Manager.

(* ------------------------------------------------------------------ *)
(** ** Text                                                            *)
(* ------------------------------------------------------------------ *)

(** Strings of the source as strings of bytes.  Case is folded on the
  letters of ASCII, which is what [toLowerCase] and the [i] flag of a regular
  expression do on ASCII text. *)
Module Text.

Definition lower_ascii (c : ascii) : ascii :=
  let n := nat_of_ascii c in
  if (Nat.leb 65 n && Nat.leb n 90)%bool then ascii_of_nat (n + 32) else c.

(** [String.prototype.toLowerCase] *)
Fixpoint toLowerCase (s : string) : string :=
  match s with
  | EmptyString => EmptyString
  | String c r => String (lower_ascii c) (toLowerCase r)
  end.

(** [s.includes(p)] *)
Fixpoint includes (p s : string) : bool :=
  (String.prefix p s
   || match s with
      | EmptyString => false
      | String _ r => includes p r
      end)%bool.

(** The pattern [p], in lower case, matches at the start of [s] whatever
  the case of [s]. *)
Definition ci_prefix (p s : string) : bool := String.prefix p (toLowerCase s).

(** The number of matches of [/(p1|p2|...)/gi] in [s]: the text is scanned
  from the left, at each place the first alternative that matches is taken,
  and the scan goes on behind the match.  [skip] counts the characters still
  covered by the last match. *)
Fixpoint count_matches (alts : list string) (skip : nat) (s : string) : nat :=
  match s with
  | EmptyString => 0
  | String c r =>
      match skip with
      | S k => count_matches alts k r
      | O =>
          match find (fun p => ci_prefix p s) alts with
          | Some p => S (count_matches alts (String.length p - 1) r)
          | None => count_matches alts 0 r
          end
      end
  end.

(** [s] without its first [n] characters. *)
Fixpoint drop (n : nat) (s : string) : string :=
  match n, s with
  | S k, String _ r => drop k r
  | _, _ => s
  end.

(** [l.join(sep)] *)
Fixpoint join (sep : string) (l : list string) : string :=
  match l with
  | [] => ""
  | [x] => x
  | x :: r => x +s+ sep +s+ join sep r
  end.

Definition is_sentence_end (c : ascii) : bool :=
  (Ascii.eqb c "." || Ascii.eqb c "!" || Ascii.eqb c "?")%bool.

Fixpoint rev_string (acc s : string) : string :=
  match s with
  | EmptyString => acc
  | String c r => rev_string (String c acc) r
  end.

(** [s.split(/[.!?]+/)]: [cur] is the piece being read, backwards, and
  [in_sep] tells that the last character was a separator. *)
Fixpoint split_sentences (cur : string) (in_sep : bool) (s : string)
  : list string :=
  match s with
  | EmptyString => [rev_string "" cur]
  | String c r =>
      if is_sentence_end c
      then if in_sep then split_sentences cur true r
           else rev_string "" cur :: split_sentences "" true r
      else split_sentences (String c cur) false r
  end.

(** [\s] on ASCII: tab, line feed, vertical tab, form feed, carriage
  return and space. *)
Definition is_space (c : ascii) : bool :=
  let n := nat_of_ascii c in
  ((Nat.leb 9 n && Nat.leb n 13) || Nat.eqb n 32)%bool.

Definition is_lower (c : ascii) : bool :=
  let n := nat_of_ascii c in (Nat.leb 97 n && Nat.leb n 122)%bool.

Definition is_upper (c : ascii) : bool :=
  let n := nat_of_ascii c in (Nat.leb 65 n && Nat.leb n 90)%bool.

(** [s.match(re)] for a pattern of two character classes in a row. *)
Fixpoint has_pair (first second : ascii -> bool) (s : string) : bool :=
  match s with
  | String c ((String d _) as r) =>
      ((first c && second d) || has_pair first second r)%bool
  | _ => false
  end.

End Text.

(* ------------------------------------------------------------------ *)
(** ** [PhishingDetector] of the typed server                          *)
(* ------------------------------------------------------------------ *)

Module PhishingDetector.
Import Text.

Definition phishingKeywords : list string :=
  ["urgent"; "verify"; "suspend"; "click here"; "act now"; "limited time";
   "confirm identity"; "update payment"; "security alert"; "account locked";
   "winner"; "congratulations"; "claim now"; "free"; "prize"].

Definition urgentPhrases : list string :=
  ["immediate action required"; "within 24 hours"; "expires today";
   "act immediately"; "time sensitive"; "last chance"].

Definition suspiciousDomains : list string :=
  ["bit.ly"; "tinyurl.com"; "shortened.link"; "temp-mail.org";
   "fake-bank.com"; "secure-verify.net"; "phishing.net"].

(** The alternatives of [urlShortenerPattern]. *)
Definition urlShorteners : list string :=
  ["bit.ly"; "tinyurl"; "t.co"; "goo.gl"; "short.link"].

(** [extractSuspiciousLinks] *)
Definition extractSuspiciousLinks (content : string) : nat :=
  List.length (filter (fun domain => includes domain (toLowerCase content))
                      suspiciousDomains)
  + count_matches urlShorteners 0 content.

(** The issues [hasPoorGrammar] finds in one sentence. *)
Definition sentence_issues (sentence : string) : nat :=
  (if (includes " i " sentence && negb (includes " I " sentence))%bool
   then 1 else 0)
  + (if has_pair is_space is_space sentence then 1 else 0)
  + (if has_pair is_lower is_upper sentence then 1 else 0).

(** [hasPoorGrammar] *)
Definition hasPoorGrammar (content : string) : bool :=
  Nat.ltb 2 (list_sum (map sentence_issues
                           (split_sentences "" false content))).

Definition senderPatterns : list string :=
  ["fake-bank"; "secure-verify"; "account-update"; "security-alert";
   "urgent-notice"; "verify-account"].

(** [hasFakeSender] *)
Definition hasFakeSender (content : string) : bool :=
  existsb (fun pattern => includes pattern (toLowerCase content))
          senderPatterns.

(** [keyword.toLowerCase()] leaves the keywords as they are: they are
  written in lower case. *)
Definition keywordMatches (lowerContent : string) : list string :=
  filter (fun keyword => includes (toLowerCase keyword) lowerContent)
         phishingKeywords.

Definition urgentMatches (lowerContent : string) : list string :=
  filter (fun phrase => includes (toLowerCase phrase) lowerContent)
         urgentPhrases.

(** [if (found) { score += points; indicators.push(indicator) }] on the
  two variables of [analyzeEmail]. *)
Definition when (found : bool) (points : Z) (indicator : string)
           (vars : Z * list string) : Z * list string :=
  if found then (fst vars + points, snd vars ++ [indicator]) else vars.

(** The variables [score] and [indicators] after the five tests. *)
Definition tests (content : string) : Z * list string :=
  let lowerContent := toLowerCase content in
  let keywords := keywordMatches lowerContent in
  let urgent := urgentMatches lowerContent in
  let suspiciousLinks := extractSuspiciousLinks content in
  when (hasFakeSender content) 30 "Suspicious sender domain detected"
    (when (hasPoorGrammar content) 10 "Poor grammar or spelling detected"
       (when (Nat.ltb 0 suspiciousLinks) (Z.of_nat suspiciousLinks * 20)
             "Suspicious URL redirects found"
          (when (Nat.ltb 0 (List.length urgent))
                (Z.of_nat (List.length urgent) * 25)
                "Urgent language patterns detected"
             (when (Nat.ltb 0 (List.length keywords))
                   (Z.of_nat (List.length keywords) * 15)
                   ("Suspicious keywords detected: " +s+ join ", " keywords)
                (0, []))))).

(** [analyzeEmail] *)
Definition analyzeEmail (content : string) : PhishingDetectionResult :=
  let (score, indicators) := tests content in
  {| score := inject_Z (Z.min score 100);
     confidence :=
       inject_Z (Z.min (70 + Z.of_nat (List.length indicators) * 8) 99);
     suspiciousLinks := Z.of_nat (extractSuspiciousLinks content);
     indicators := indicators |}.

End PhishingDetector.

(** What the tests of [analyzeEmail] keep true of [score] and [indicators]:
  the score is a sum of positive multiples of 5, one for each indicator. *)
Module Scoring.

Definition sound (n : nat) (vars : Z * list string) : Prop :=
  0 <= fst vars
  /\ (fst vars) mod 5 = 0
  /\ (List.length (snd vars) <= n)%nat
  /\ (fst vars = 0 <-> snd vars = []).

End Scoring.

(* ------------------------------------------------------------------ *)
(** ** [DeepfakeDetector] of the typed server                          *)
(* ------------------------------------------------------------------ *)

Module DeepfakeDetector.
Import Text.

(** What the detector draws with [Math.random()] for one upload: the value
  of [70 + Math.random() * 25] (of [75 + Math.random() * 20] for a video),
  whether each of the random checks fires (its draw was below the
  threshold), and the seconds the analysis took. *)
Record Draws := {
  confidence0 : Q;
  faceSwap : bool;
  temporal : bool;
  compression : bool;
  pixel : bool;
  frame : bool;
  seconds : Q }.

(** [if (hit) anomalies.push(anomaly); return hit] *)
Definition check (hit : bool) (anomaly : string) (anomalies : list string)
  : bool * list string :=
  (hit, if hit then anomalies ++ [anomaly] else anomalies).

Definition checkFaceSwapArtifacts (d : Draws) :=
  check (faceSwap d) "Face swap artifacts detected".

Definition checkTemporalInconsistency (d : Draws) :=
  check (temporal d) "Temporal inconsistency detected".

Definition checkCompressionAnomalies (d : Draws) :=
  check (compression d) "Unusual compression patterns".

Definition checkPixelInconsistencies (d : Draws) :=
  check (pixel d) "Pixel-level inconsistencies found".

Definition checkFrameAnomalies (d : Draws) :=
  check (frame d) "Frame-level anomalies detected".

Definition suspiciousPatterns : list string :=
  ["fake"; "generated"; "ai"; "synthetic"; "deepfake"].

(** [checkMetadataAnomalies]: the one check that is not random. *)
Definition checkMetadataAnomalies (fileName : string) :=
  check (existsb (fun pattern => includes pattern (toLowerCase fileName))
                 suspiciousPatterns)
        "Suspicious metadata patterns".

(** The checks of an array literal, run from left to right on the shared
  [anomalies]. *)
Fixpoint run_checks (checks : list (list string -> bool * list string))
         (anomalies : list string) : list bool * list string :=
  match checks with
  | [] => ([], anomalies)
  | c :: r =>
      let (hit, anomalies) := c anomalies in
      let (hits, anomalies) := run_checks r anomalies in
      (hit :: hits, anomalies)
  end.

(** [checks.filter(Boolean).length >= 2] *)
Definition suspicious (hits : list bool) : bool :=
  Nat.leb 2 (List.length (filter (fun b => b) hits)).

(** [simulateImageAnalysis] *)
Definition simulateImageAnalysis (d : Draws) (fileName : string)
           (anomalies : list string) : bool * list string :=
  let (checks, anomalies) :=
    run_checks [checkFaceSwapArtifacts d; checkCompressionAnomalies d;
                checkPixelInconsistencies d; checkMetadataAnomalies fileName]
               anomalies in
  (suspicious checks, anomalies).

(** [simulateVideoAnalysis] *)
Definition simulateVideoAnalysis (d : Draws) (fileName : string)
           (anomalies : list string) : bool * list string :=
  let (checks, anomalies) :=
    run_checks [checkTemporalInconsistency d; checkFaceSwapArtifacts d;
                checkCompressionAnomalies d; checkFrameAnomalies d;
                checkMetadataAnomalies fileName]
               anomalies in
  (suspicious checks, anomalies).

(** [Math.max(confidence, floor)] *)
Definition at_least (floor confidence : Q) : Q :=
  if Qle_bool floor confidence then confidence else floor.

Section Rounding.

(** [Math.round(x * 10) / 10] as the doubles compute it. *)
Variable round1 : Q -> Q.

(** [analyzeImage] *)
Definition analyzeImage (d : Draws) (fileName : string)
  : DeepfakeDetectionResult :=
  let (isDeepfake, anomalies) := simulateImageAnalysis d fileName [] in
  let confidence :=
    if isDeepfake then at_least 85 (confidence0 d) else confidence0 d in
  {| isDeepfake := isDeepfake;
     df_confidence := round1 confidence;
     processingTime := round1 (seconds d);
     anomalies := anomalies |}.

(** [analyzeVideo] *)
Definition analyzeVideo (d : Draws) (fileName : string)
  : DeepfakeDetectionResult :=
  let (isDeepfake, anomalies) := simulateVideoAnalysis d fileName [] in
  let confidence :=
    if isDeepfake then at_least 88 (confidence0 d) else confidence0 d in
  {| isDeepfake := isDeepfake;
     df_confidence := round1 confidence;
     processingTime := round1 (seconds d);
     anomalies := anomalies |}.

(** The detector the route calls for an upload it accepts: [analyzeImage]
  for [image/...], [analyzeVideo] for [video/...]. *)
Definition analyze (d : Draws) (f : Server.File) : DeepfakeDetectionResult :=
  if String.prefix "image/" (Server.mimetype f)
  then analyzeImage d (Server.originalname f)
  else analyzeVideo d (Server.originalname f).

End Rounding.

(** Rounding to one decimal on exact numbers. *)
Definition round1_exact (x : Q) : Q :=
  inject_Z (Qfloor (x * 10 + (1 # 2))) / 10.

(** The draws the expressions of the detector can yield for an upload. *)
Definition drawn (f : Server.File) (d : Draws) : Prop :=
  if String.prefix "image/" (Server.mimetype f)
  then (70 <= confidence0 d <= 95)%Q
  else (75 <= confidence0 d <= 95)%Q.

(** What is assumed of rounding to one decimal: it keeps the order and
  leaves whole numbers as they are. *)
Definition rounds (round1 : Q -> Q) : Prop :=
  (forall x y : Q, (x <= y)%Q -> (round1 x <= round1 y)%Q)
  /\ (forall n : Z, (round1 (inject_Z n) == inject_Z n)%Q).

End DeepfakeDetector.

(* ------------------------------------------------------------------ *)
(** ** [GeolocationService] of the typed server                        *)
(* ------------------------------------------------------------------ *)

Module Geolocation.

(** The body of an answer of ip-api.com.  A field that is missing reads as
  the empty string (as 0 for a number), which [||] treats alike. *)
Record ApiData := {
  api_status : string;
  api_message : string;
  api_query : string;
  api_country : string;
  api_countryCode : string;
  api_region : string;
  api_regionName : string;
  api_city : string;
  api_zip : string;
  api_lat : Q;
  api_lon : Q;
  api_timezone : string;
  api_isp : string;
  api_org : string;
  api_as : string }.

(** What [fetch] and [response.json()] come to: a body, or an exception
  (no connection, a status that is not ok, a body that is not JSON). *)
Inductive Fetched : Type :=
| Body (data : ApiData)
| Thrown.

(** The service: its [cache], a [Map] from address to location in the order
  of insertion, and the addresses it has asked the API for. *)
Record t := {
  cache : list (string * GeoLocation);
  asked : list string }.

Definition init : t := {| cache := []; asked := [] |}.

(** [Map.prototype.get] *)
Fixpoint get (ip : string) (m : list (string * GeoLocation))
  : option GeoLocation :=
  match m with
  | [] => None
  | (k, v) :: r => if String.eqb ip k then Some v else get ip r
  end.

(** [Map.prototype.set] *)
Fixpoint set (ip : string) (v : GeoLocation) (m : list (string * GeoLocation))
  : list (string * GeoLocation) :=
  match m with
  | [] => [(ip, v)]
  | (k, v') :: r =>
      if String.eqb ip k then (k, v) :: r else (k, v') :: set ip v r
  end.

(** The [location] object [getLocation] builds from a body. *)
Definition location_of (ip : string) (data : ApiData) : GeoLocation :=
  {| geo_ip := Js.str_or (api_query data) ip;
     geo_country := Js.str_or (api_country data) "Unknown";
     geo_country_code := Js.str_or (api_countryCode data) "XX";
     geo_region := Js.str_or (api_region data) "";
     geo_region_name := Js.str_or (api_regionName data) "";
     geo_city := Js.str_or (api_city data) "Unknown";
     geo_zip := Js.str_or (api_zip data) "";
     geo_lat := if Qeq_bool (api_lat data) 0 then 0 else api_lat data;
     geo_lon := if Qeq_bool (api_lon data) 0 then 0 else api_lon data;
     geo_timezone := Js.str_or (api_timezone data) "";
     geo_isp := Js.str_or (api_isp data) "Unknown ISP";
     geo_org := Js.str_or (api_org data) "Unknown Organization";
     geo_as := Js.str_or (api_as data) "Unknown AS" |}.

(** [getLocation(ip)]; [fetched] is what the request comes to, should one
  be made. *)
Definition getLocation (fetched : Fetched) (ip : string) (g : t)
  : option GeoLocation * t :=
  match get ip (cache g) with
  | Some location => (Some location, g)
  | None =>
      let g := {| cache := cache g; asked := asked g ++ [ip] |} in
      match fetched with
      | Thrown => (None, g)
      | Body data =>
          if String.eqb (api_status data) "fail" then (None, g)
          else
            let location := location_of ip data in
            (Some location,
             {| cache := set ip location (cache g); asked := asked g |})
      end
  end.

(** [getCachedLocation(ip)] *)
Definition getCachedLocation (ip : string) (g : t) : option GeoLocation :=
  get ip (cache g).

(** [clearCache()] *)
Definition clearCache (g : t) : t := {| cache := []; asked := asked g |}.

(** The calls made to the service, and a run of them without
  [clearCache]. *)
Definition lookups (calls : list (Fetched * string)) (g : t) : t :=
  fold_left (fun g c => snd (getLocation (fst c) (snd c) g)) calls g.

(** A location as [getLocation] builds them: the fields with a default are
  never empty. *)
Definition filled (l : GeoLocation) : Prop :=
  geo_country l <> "" /\ geo_country_code l <> "" /\ geo_city l <> ""
  /\ geo_isp l <> "" /\ geo_org l <> "" /\ geo_as l <> "".

End Geolocation.

(* ------------------------------------------------------------------ *)
(** ** Sample inputs                                                   *)
(* ------------------------------------------------------------------ *)

Module Samples.

(** A classifier that gives every text the score [s]. *)
Definition classifier (s : Q) (text : string) : PhishingDetectionResult :=
  {| score := s; confidence := 94; suspiciousLinks := 1;
     indicators := ["Urgent language patterns detected"] |}.

(** A stand-in for the printing of numbers. *)
Definition show (q : Q) : string := "#".

Definition verdict (fake : bool) (percent : Q) : DeepfakeDetectionResult :=
  {| isDeepfake := fake; df_confidence := percent; processingTime := 1.5;
     anomalies := ["Face swap artifacts detected";
                   "Suspicious metadata patterns"] |}.

Definition image : Server.File :=
  {| Server.originalname := "face.png"; Server.mimetype := "image/png";
     Server.size := 2048 |}.

(** An http attack of high severity, as the single-file simulator draws
  them. *)
Definition http_high : HoneypotAttack :=
  {| service := "http"; sourceIp := "198.51.100.23";
     attackType := "SQL Injection"; severity := "high"; port := 80;
     payload := Some "http-request-1700000000000" |}.

Definition ssh_critical : HoneypotAttack :=
  {| service := "ssh"; sourceIp := "203.0.113.7";
     attackType := "Brute Force"; severity := "critical"; port := 22;
     payload := Some "ssh-login-attempt-1700000000000" |}.

Definition berlin : SingleFile.MockLocation :=
  {| SingleFile.mock_ip := "203.0.113.7";
     SingleFile.mock_country := "Germany";
     SingleFile.mock_city := "Berlin";
     SingleFile.mock_lat := 52.52; SingleFile.mock_lon := 13.405;
     SingleFile.mock_timezone := "UTC";
     SingleFile.mock_isp := "Mock ISP";
     SingleFile.mock_org := "Mock Organization" |}.

End Samples.

(* ------------------------------------------------------------------ *)
(** ** Facts about [Map]                                               *)
(* ------------------------------------------------------------------ *)

Module JsMapFacts.
Section Facts.
Context {V : Type}.
Implicit Types (m : JsMap.t V) (k : Z) (v : V).

Lemma get_set_same m k v : JsMap.get k (JsMap.set k v m) = Some v.
Proof.
  induction m as [|[k' v'] m IH]; simpl.
  - now rewrite Z.eqb_refl.
  - destruct (Z.eqb k k') eqn:E; simpl; rewrite ?Z.eqb_refl, ?E; auto.
Qed.

Lemma get_set_other m k k' v :
  k <> k' -> JsMap.get k' (JsMap.set k v m) = JsMap.get k' m.
Proof.
  intros Hne. induction m as [|[k0 v0] m IH]; simpl.
  - destruct (Z.eqb_spec k' k); congruence.
  - destruct (Z.eqb_spec k k0) as [->|]; simpl.
    + destruct (Z.eqb_spec k' k0); congruence.
    + destruct (Z.eqb_spec k' k0); auto.
Qed.


Lemma set_absent m k v :
  JsMap.get k m = None -> JsMap.set k v m = m ++ [(k, v)].
Proof.
  induction m as [|[k0 v0] m IH]; simpl; auto.
  destruct (Z.eqb k k0); [discriminate|]. intros H. now rewrite IH.
Qed.

Lemma get_above m k :
  Forall (fun k' => k' < k) (JsMap.keys m) -> JsMap.get k m = None.
Proof.
  induction m as [|[k0 v0] m IH]; simpl; auto.
  intros H. inversion H; subst. simpl in *.
  destruct (Z.eqb_spec k k0); [lia|auto].
Qed.

Lemma size_set_fresh m k v :
  Forall (fun k' => k' < k) (JsMap.keys m) ->
  JsMap.size (JsMap.set k v m) = S (JsMap.size m)
  /\ Forall (fun k' => k' < k + 1) (JsMap.keys (JsMap.set k v m)).
Proof.
  intros H. rewrite (set_absent _ _ _ (get_above _ _ H)).
  unfold JsMap.size, JsMap.keys. rewrite length_app, map_app. simpl. split.
  - lia.
  - apply Forall_app. split.
    + eapply Forall_impl; [|exact H]. simpl. intros; lia.
    + constructor; [lia|constructor].
Qed.

(** Replacing the value of a present key changes exactly that entry. *)
Lemma set_present m k v0 v :
  JsMap.get k m = Some v0 ->
  exists m1 m2,
    m = m1 ++ (k, v0) :: m2 /\ JsMap.set k v m = m1 ++ (k, v) :: m2.
Proof.
  induction m as [|[k1 v1] m IH]; simpl; [discriminate|].
  destruct (Z.eqb_spec k k1) as [->|Hne].
  - intros [= ->]. now exists [], m.
  - intros H. destruct (IH H) as (m1 & m2 & -> & ->).
    now exists ((k1, v1) :: m1), m2.
Qed.

End Facts.
End JsMapFacts.

Lemma skipn_exact {A} (l l' : list A) : skipn (List.length l) (l ++ l') = l'.
Proof. induction l; simpl; auto. Qed.


(* ------------------------------------------------------------------ *)
(** ** The alert store: [markAlertAsRead] and [getAlertCounts]         *)
(* ------------------------------------------------------------------ *)

Lemma filter_filter_andb {A} (f g : A -> bool) (l : list A) :
  filter f (filter g l) = filter (fun x => (f x && g x)%bool) l.
Proof.
  induction l as [|x l IH]; simpl; auto.
  destruct (g x) eqn:Eg; simpl; destruct (f x) eqn:Ef; simpl;
    rewrite ?Ef, ?IH; auto.
Qed.

Lemma unread_with_split s (m1 m2 : JsMap.t Alert) k a :
  unread_with s (m1 ++ (k, a) :: m2)
  = (unread_with s m1
     + (if (String.eqb (alert_severity a) s && negb (alert_isRead a))%bool
        then 1 else 0)
     + unread_with s m2)%nat.
Proof.
  unfold unread_with, JsMap.values.
  rewrite map_app, filter_app, length_app. simpl.
  destruct (String.eqb (alert_severity a) s && negb (alert_isRead a))%bool;
    simpl; lia.
Qed.

Lemma markAlertAsRead_present st id a :
  JsMap.get id (alerts st) = Some a ->
  alerts (markAlertAsRead id st) = JsMap.set id (set_isRead true a) (alerts st).
Proof. unfold markAlertAsRead. now intros ->. Qed.







(** C10.  [getAlertCounts] of the typed storage returns, for each of the four
  severities, the number of stored alerts of that severity whose [isRead] is
  false.  Hence marking an unread alert as read lowers the count of its
  severity by one and leaves the count of every other severity as it was;
  marking an alert that was already read changes no count. *)
Theorem getAlertCounts_counts_unread :
  forall st : MemStorage,
    getAlertCounts st
    = {| critical := unread_with "critical" (alerts st);
         high := unread_with "high" (alerts st);
         medium := unread_with "medium" (alerts st);
         low := unread_with "low" (alerts st) |}
    /\ forall id a,
        JsMap.get id (alerts st) = Some a ->
        (alert_isRead a = false ->
         S (unread_with (alert_severity a) (alerts (markAlertAsRead id st)))
         = unread_with (alert_severity a) (alerts st)
         /\ forall s, s <> alert_severity a ->
              unread_with s (alerts (markAlertAsRead id st))
              = unread_with s (alerts st))
        /\ (alert_isRead a = true ->
            forall s, unread_with s (alerts (markAlertAsRead id st))
                      = unread_with s (alerts st)).
Proof.
  intros st. split.
  - unfold getAlertCounts, unread_with, has_severity.
    now rewrite !filter_filter_andb.
  - intros id a Hget.
    rewrite (markAlertAsRead_present _ _ _ Hget).
    destruct (JsMapFacts.set_present _ _ _ (set_isRead true a) Hget)
      as (m1 & m2 & Hm & ->).
    rewrite Hm. split.
    + intros Hunread. rewrite !unread_with_split. simpl.
      rewrite Hunread, String.eqb_refl. simpl. split; [lia|].
      intros s Hs. rewrite !unread_with_split. simpl.
      destruct (String.eqb_spec (alert_severity a) s); [congruence|].
      simpl. lia.
    + intros Hread s. rewrite !unread_with_split. simpl.
      rewrite Hread. simpl. now rewrite andb_false_r.
Qed.

Lemma getAlertCounts_counts_unread_witness :
  let st := snd (createAlert 5
                   {| ia_title := "t"; ia_description := "d";
                      ia_severity := "high"; ia_category := "email";
                      ia_isRead := Some false; ia_metadata := None |}
                   (Storage.constructor 0)) in
  high (getAlertCounts st) = 1%nat
  /\ S (unread_with "high" (alerts (markAlertAsRead 1 st)))
     = unread_with "high" (alerts st).
Proof.
  intros st. split; [reflexivity|].
  exact (proj1 (proj1 (proj2 (getAlertCounts_counts_unread st) 1
                         {| alert_id := 1; alert_title := "t";
                            alert_description := "d";
                            alert_severity := "high";
                            alert_category := "email"; alert_isRead := false;
                            alert_metadata := Js.Null; alert_createdAt := 5 |}
                         eq_refl) eq_refl)).
Defined.

(* ------------------------------------------------------------------ *)
(** ** The notifier                                                    *)
(* ------------------------------------------------------------------ *)

Module NotifierFacts.
Import Notifier.

Lemma fold_send data (l : list WebSocket) (w : list Delivery) :
  fold_left (fun w client => if is_open client then send client data w else w)
            l w
  = w ++ map (delivery data) (filter is_open l).
Proof.
  revert w. induction l as [|c l IH]; intros w; simpl.
  - now rewrite app_nil_r.
  - rewrite IH. destruct (is_open c); simpl; auto.
    unfold send. now rewrite <- app_assoc.
Qed.

Lemma sent_by_broadcast data n :
  sent_since n (broadcast data n)
  = map (delivery data) (filter is_open (wsClients n)).
Proof.
  unfold sent_since, broadcast. simpl. rewrite fold_send. apply skipn_exact.
Qed.

Lemma in_delete id c l :
  In c (delete id l) <-> In c l /\ ws_id c <> id.
Proof.
  unfold delete. rewrite filter_In.
  destruct (Z.eqb_spec (ws_id c) id); simpl; intuition congruence.
Qed.



End NotifierFacts.



(* ------------------------------------------------------------------ *)
(** ** The typed server: the analysis routes                           *)
(* ------------------------------------------------------------------ *)

Ltac trace_tail :=
  unfold effects_since; simpl;
  repeat rewrite <- app_assoc; simpl;
  rewrite ?skipn_exact, ?app_nil_r.

Lemma nonempty_text_accepted text :
  text <> "" ->
  (negb (Js.truthy (Js.Str text)) || negb (Js.is_string (Js.Str text)))%bool
  = false.
Proof. intros H. simpl. now destruct (String.eqb_spec text ""). Qed.

Lemma Qle_bool_false (a b : Q) : Qle_bool a b = false <-> (b < a)%Q.
Proof.
  split; intros H.
  - apply Qnot_le_lt. intros Hle. apply Qle_bool_iff in Hle. congruence.
  - destruct (Qle_bool a b) eqn:E; auto.
    apply Qle_bool_iff in E. apply Qlt_not_le in H. tauto.
Qed.


Section ServerFacts.

Variable analyzeEmail : string -> PhishingDetectionResult.
Variable numToString : Q -> string.

Local Arguments String.append : simpl never.

Abbreviation analyze_email := (Server.analyze_email analyzeEmail numToString).
Abbreviation analyze_deepfake := (Server.analyze_deepfake numToString).

(** What a phishing submission of high score does, step by step. *)
Lemma analyze_email_high now text w :
  text <> "" ->
  Qle_bool 70 (score (analyzeEmail text)) = true ->
  exists a t al,
    effects_since w (exec (analyze_email now (Js.Str text)) w)
    = [EPhishingStored a; EThreatCreated t; EAlertCreated al;
       EBroadcast (NewAlert al t)]
      ++ match systemStats (db w) with
         | Some s => [EStatsUpdated (phishing_bump now s)]
         | None => []
         end
    /\ pa_content a = text
    /\ pa_score a = score (analyzeEmail text)
    /\ threat_severity t = Server.phishing_severity (analyzeEmail text)
    /\ alert_severity al = threat_severity t
    /\ JsMap.get (pa_id a)
         (phishingAnalyses (db (exec (analyze_email now (Js.Str text)) w)))
       = Some a
    /\ JsMap.get (threat_id t)
         (threats (db (exec (analyze_email now (Js.Str text)) w)))
       = Some t
    /\ JsMap.get (alert_id al)
         (alerts (db (exec (analyze_email now (Js.Str text)) w)))
       = Some al
    /\ systemStats (db (exec (analyze_email now (Js.Str text)) w))
       = option_map (phishing_bump now) (systemStats (db w)).
Proof.
  intros Ht Hs. unfold Server.analyze_email.
  rewrite (nonempty_text_accepted _ Ht).
  unfold Server.bump_stats, exec, eval, bind, store, query, emit, ret,
    Run.broadcast, getSystemStats, phishing_bump.
  simpl. rewrite Hs. simpl.
  destruct (systemStats (db w)) as [s|] eqn:Hst; simpl;
    rewrite ?Hst, ?JsMapFacts.get_set_same;
    do 3 eexists;
    (split; [trace_tail; reflexivity|]);
    repeat split; apply JsMapFacts.get_set_same.
Qed.

(** What a phishing submission of low score does. *)
Lemma analyze_email_low now text w :
  text <> "" ->
  Qle_bool 70 (score (analyzeEmail text)) = false ->
  exists a,
    effects_since w (exec (analyze_email now (Js.Str text)) w)
    = [EPhishingStored a]
    /\ pa_content a = text
    /\ pa_score a = score (analyzeEmail text)
    /\ JsMap.get (pa_id a)
         (phishingAnalyses (db (exec (analyze_email now (Js.Str text)) w)))
       = Some a
    /\ threats (db (exec (analyze_email now (Js.Str text)) w)) = threats (db w)
    /\ alerts (db (exec (analyze_email now (Js.Str text)) w)) = alerts (db w)
    /\ systemStats (db (exec (analyze_email now (Js.Str text)) w))
       = systemStats (db w)
    /\ net (exec (analyze_email now (Js.Str text)) w) = net w.
Proof.
  intros Ht Hs. unfold Server.analyze_email.
  rewrite (nonempty_text_accepted _ Ht).
  unfold exec, eval, bind, store, query, emit, ret.
  simpl. rewrite Hs. simpl.
  eexists. (split; [trace_tail; reflexivity|]).
  repeat split. apply JsMapFacts.get_set_same.
Qed.





End ServerFacts.

Section DeepfakeFacts.

Variable numToString : Q -> string.

Local Arguments String.append : simpl never.

Abbreviation analyze_deepfake := (Server.analyze_deepfake numToString).

Lemma supported_accepted f :
  supported f ->
  (negb (String.prefix "image/" (Server.mimetype f))
   && negb (String.prefix "video/" (Server.mimetype f)))%bool = false.
Proof. intros [->| ->]; simpl; auto using andb_false_r. Qed.

(** What an escalating deepfake submission does, step by step. *)
Lemma analyze_deepfake_high now f result w :
  supported f ->
  (isDeepfake result && Qle_bool 80 (df_confidence result))%bool = true ->
  exists a t al,
    effects_since w (exec (analyze_deepfake now (Some f) result) w)
    = [EDeepfakeStored a; EThreatCreated t; EAlertCreated al;
       EBroadcast (NewAlert al t)]
      ++ match systemStats (db w) with
         | Some s => [EStatsUpdated (deepfake_bump now s)]
         | None => []
         end
    /\ da_isDeepfake a = isDeepfake result
    /\ da_confidence a = df_confidence result
    /\ threat_severity t = Server.deepfake_severity result
    /\ alert_severity al = threat_severity t
    /\ JsMap.get (da_id a)
         (deepfakeAnalyses (db (exec (analyze_deepfake now (Some f) result) w)))
       = Some a
    /\ JsMap.get (threat_id t)
         (threats (db (exec (analyze_deepfake now (Some f) result) w)))
       = Some t
    /\ JsMap.get (alert_id al)
         (alerts (db (exec (analyze_deepfake now (Some f) result) w)))
       = Some al
    /\ systemStats (db (exec (analyze_deepfake now (Some f) result) w))
       = option_map (deepfake_bump now) (systemStats (db w)).
Proof.
  intros Hf Hs. unfold Server.analyze_deepfake.
  rewrite (supported_accepted _ Hf).
  unfold Server.bump_stats, exec, eval, bind, store, query, emit, ret,
    Run.broadcast, getSystemStats, deepfake_bump.
  simpl. rewrite Hs. simpl.
  destruct (systemStats (db w)) as [s|] eqn:Hst; simpl;
    rewrite ?Hst, ?JsMapFacts.get_set_same;
    do 3 eexists;
    (split; [trace_tail; reflexivity|]);
    repeat split; apply JsMapFacts.get_set_same.
Qed.





End DeepfakeFacts.

(* ------------------------------------------------------------------ *)
(** ** The typed server: what the analysis routes guarantee            *)
(* ------------------------------------------------------------------ *)

Lemma broadcast_fourth_not_after_stats e1 e2 e3 m rest :
  (forall s, e1 <> EStatsUpdated s) ->
  (forall s, e2 <> EStatsUpdated s) ->
  (forall s, e3 <> EStatsUpdated s) ->
  ~ stats_updated_before_broadcast (e1 :: e2 :: e3 :: EBroadcast m :: rest).
Proof.
  intros H1 H2 H3 H.
  destruct (H [e1; e2; e3] m rest eq_refl) as (s & [E|[E|[E|[]]]]);
    [apply (H1 s E)|apply (H2 s E)|apply (H3 s E)].
Qed.

Section AnalysisClaims.

Variable analyzeEmail : string -> PhishingDetectionResult.
Variable numToString : Q -> string.

Abbreviation email := (Server.analyze_email analyzeEmail numToString).
Abbreviation deepfake := (Server.analyze_deepfake numToString).

(** C1, as the code has it.  An escalating phishing or deepfake submission
  stores the analysis, creates the Threat, creates the Alert, broadcasts the
  [new_alert] message and only then updates the statistics: nothing but these
  five effects happens, in this order, so the broadcast is not preceded by a
  statistics update; the counters are one higher when the handler is done. *)
Theorem analysis_broadcasts_then_updates_stats :
  (forall now text w s,
      text <> "" ->
      (70 <= score (analyzeEmail text))%Q ->
      systemStats (db w) = Some s ->
      let w' := exec (email now (Js.Str text)) w in
      (exists a t al,
          effects_since w w'
          = [EPhishingStored a; EThreatCreated t; EAlertCreated al;
             EBroadcast (NewAlert al t);
             EStatsUpdated (phishing_bump now s)])
      /\ ~ stats_updated_before_broadcast (effects_since w w')
      /\ systemStats (db w') = Some (phishing_bump now s)
      /\ phishingBlocked (phishing_bump now s) = phishingBlocked s + 1
      /\ activeThreats (phishing_bump now s) = activeThreats s + 1)
  /\ (forall now f result w s,
         supported f ->
         isDeepfake result = true ->
         (80 <= df_confidence result)%Q ->
         systemStats (db w) = Some s ->
         let w' := exec (deepfake now (Some f) result) w in
         (exists a t al,
             effects_since w w'
             = [EDeepfakeStored a; EThreatCreated t; EAlertCreated al;
                EBroadcast (NewAlert al t);
                EStatsUpdated (deepfake_bump now s)])
         /\ ~ stats_updated_before_broadcast (effects_since w w')
         /\ systemStats (db w') = Some (deepfake_bump now s)
         /\ deepfakesDetected (deepfake_bump now s) = deepfakesDetected s + 1
         /\ activeThreats (deepfake_bump now s) = activeThreats s + 1).
Proof.
  split.
  - intros now text w s Ht Hs Hst w'. subst w'.
    apply Qle_bool_iff in Hs.
    destruct (analyze_email_high analyzeEmail numToString now text w Ht Hs)
      as (a & t & al & He & _ & _ & _ & _ & _ & _ & _ & Hstats).
    rewrite Hst in He, Hstats. cbn [app option_map] in He, Hstats.
    split; [now exists a, t, al|]. split; [|now repeat split].
    rewrite He. apply broadcast_fourth_not_after_stats; discriminate.
  - intros now f result w s Hf Hd Hs Hst w'. subst w'.
    apply Qle_bool_iff in Hs.
    assert (Hg : (isDeepfake result && Qle_bool 80 (df_confidence result))%bool
                 = true) by now rewrite Hd, Hs.
    destruct (analyze_deepfake_high numToString now f result w Hf Hg)
      as (a & t & al & He & _ & _ & _ & _ & _ & _ & _ & Hstats).
    rewrite Hst in He, Hstats. cbn [app option_map] in He, Hstats.
    split; [now exists a, t, al|]. split; [|now repeat split].
    rewrite He. apply broadcast_fourth_not_after_stats; discriminate.
Qed.


(** C6.  On the typed server a phishing submission whose score is below 70
  stores its PhishingAnalysis and does nothing else: no Threat and no Alert
  is created, nothing is broadcast, no subscriber is sent anything, and the
  statistics record is the one from before, field by field. *)
Theorem low_score_only_stores_the_analysis :
  forall now text w,
    text <> "" ->
    (score (analyzeEmail text) < 70)%Q ->
    let w' := exec (email now (Js.Str text)) w in
    (exists a,
        effects_since w w' = [EPhishingStored a]
        /\ pa_content a = text
        /\ pa_score a = score (analyzeEmail text)
        /\ JsMap.get (pa_id a) (phishingAnalyses (db w')) = Some a)
    /\ threats (db w') = threats (db w)
    /\ alerts (db w') = alerts (db w)
    /\ threats_created (effects_since w w') = []
    /\ alerts_created (effects_since w w') = []
    /\ broadcasts (effects_since w w') = []
    /\ net w' = net w
    /\ stats_updates (effects_since w w') = []
    /\ systemStats (db w') = systemStats (db w).
Proof.
  intros now text w Ht Hs w'. subst w'. apply Qle_bool_false in Hs.
  destruct (analyze_email_low analyzeEmail numToString now text w Ht Hs)
    as (a & He & Hc & Hsc & Hget & H1 & H2 & H3 & H4).
  split; [now exists a|]. rewrite He. simpl. repeat split; auto.
Qed.



End AnalysisClaims.

(** C1 as stated fails: for a submission of score 95 on a freshly booted
  server the statistics are updated after the broadcast, not before it; the
  run is store, Threat, Alert, broadcast, statistics. *)
Lemma stats_update_comes_after_broadcast :
  let w := boot 0 in
  let w' := exec (Server.analyze_email (Samples.classifier 95) Samples.show 1
                    (Js.Str "urgent")) w in
  ~ stats_updated_before_broadcast (effects_since w w')
  /\ exists a t al s',
      effects_since w w'
      = [EPhishingStored a; EThreatCreated t; EAlertCreated al;
         EBroadcast (NewAlert al t); EStatsUpdated s']
      /\ phishingBlocked s' = 143.
Proof.
  intros w w'.
  assert (E : exists a t al s',
             effects_since w w'
             = [EPhishingStored a; EThreatCreated t; EAlertCreated al;
                EBroadcast (NewAlert al t); EStatsUpdated s']
             /\ phishingBlocked s' = 143)
    by (do 4 eexists; split; reflexivity).
  split; [|exact E].
  destruct E as (a & t & al & s' & E & _). rewrite E.
  apply broadcast_fourth_not_after_stats; discriminate.
Qed.

Lemma analysis_broadcasts_then_updates_stats_witness :
  let w := boot 0 in
  let w' := exec (Server.analyze_email (Samples.classifier 95) Samples.show 1
                    (Js.Str "urgent")) w in
  "urgent" <> ""
  /\ (70 <= score (Samples.classifier 95 "urgent"))%Q
  /\ ~ stats_updated_before_broadcast (effects_since w w').
Proof.
  intros w w'.
  assert (H1 : "urgent" <> "") by discriminate.
  assert (H2 : (70 <= score (Samples.classifier 95 "urgent"))%Q)
    by (simpl; lra).
  split; [exact H1|]. split; [exact H2|].
  destruct (Storage.systemStats (db w)) as [s|] eqn:Hs; [|discriminate].
  exact (proj1 (proj2
           (proj1 (analysis_broadcasts_then_updates_stats
                     (Samples.classifier 95) Samples.show)
                  1 "urgent" w s H1 H2 Hs))).
Defined.


Lemma low_score_only_stores_the_analysis_witness :
  let w := boot 0 in
  let w' := exec (Server.analyze_email (Samples.classifier 69) Samples.show 1
                    (Js.Str "hello")) w in
  "hello" <> ""
  /\ (score (Samples.classifier 69 "hello") < 70)%Q
  /\ Storage.systemStats (db w') = Storage.systemStats (db w)
  /\ broadcasts (effects_since w w') = [].
Proof.
  intros w w'.
  assert (H1 : "hello" <> "") by discriminate.
  assert (H2 : (score (Samples.classifier 69 "hello") < 70)%Q)
    by (simpl; lra).
  split; [exact H1|]. split; [exact H2|].
  pose proof (low_score_only_stores_the_analysis
                (Samples.classifier 69) Samples.show 1 "hello" w H1 H2) as H.
  split; [apply H|apply H].
Defined.



(* ------------------------------------------------------------------ *)
(** ** The honeypot: logging, alerting and the hit counter             *)
(* ------------------------------------------------------------------ *)

Lemma high_or_critical_iff sev :
  Server.is_high_or_critical sev = true <-> sev = "high" \/ sev = "critical".
Proof.
  unfold Server.is_high_or_critical.
  rewrite orb_true_iff, !String.eqb_eq. tauto.
Qed.

Lemma pick_in l r : l <> [] -> In (Server.pick l r) l.
Proof.
  intros Hl. unfold Server.pick. apply nth_In.
  apply Nat.mod_upper_bound. destruct l; simpl; congruence.
Qed.

Section HoneypotFacts.

Variable analyzeEmail : string -> PhishingDetectionResult.
Variable numToString : Q -> string.

Local Arguments String.append : simpl never.

Abbreviation handle := (Server.handle analyzeEmail numToString).
Abbreviation run := (Server.run analyzeEmail numToString).

Lemma email_keeps_honeypot now content w :
  honeypot_view (exec (Server.analyze_email analyzeEmail numToString now content) w)
  = honeypot_view w.
Proof.
  unfold Server.analyze_email.
  destruct (negb (Js.truthy content) || negb (Js.is_string content))%bool;
    [reflexivity|].
  unfold Server.bump_stats, exec, eval, bind, store, query, emit, ret,
    Run.broadcast, getSystemStats, honeypot_view.
  simpl.
  destruct (Qle_bool 70 (score (analyzeEmail (Server.text_of content))));
    simpl; [|reflexivity].
  destruct (systemStats (db w)) as [s|] eqn:E; simpl; rewrite ?E; reflexivity.
Qed.

Lemma deepfake_keeps_honeypot now file result w :
  honeypot_view (exec (Server.analyze_deepfake numToString now file result) w)
  = honeypot_view w.
Proof.
  unfold Server.analyze_deepfake. destruct file as [f|]; [|reflexivity].
  destruct (negb (String.prefix "image/" (Server.mimetype f))
            && negb (String.prefix "video/" (Server.mimetype f)))%bool;
    [reflexivity|].
  unfold Server.bump_stats, exec, eval, bind, store, query, emit, ret,
    Run.broadcast, getSystemStats, honeypot_view.
  simpl.
  destruct (isDeepfake result && Qle_bool 80 (df_confidence result))%bool;
    simpl; [|reflexivity].
  destruct (systemStats (db w)) as [s|] eqn:E; simpl; rewrite ?E; reflexivity.
Qed.

Lemma alerts_read_keeps_honeypot id w :
  honeypot_view (exec (Server.alerts_read id) w) = honeypot_view w.
Proof.
  destruct id as [n|]; [|reflexivity].
  unfold Server.alerts_read, exec, bind, store, ret, honeypot_view,
    markAlertAsRead.
  simpl. destruct (JsMap.get n (alerts (db w))); reflexivity.
Qed.






End HoneypotFacts.

Section HoneypotClaims.

Variable analyzeEmail : string -> PhishingDetectionResult.
Variable numToString : Q -> string.

Local Arguments String.append : simpl never.


End HoneypotClaims.

Section AlertGate.

Variable numToString : Q -> string.

Local Arguments String.append : simpl never.

(** C4, as the code has it.  Both servers log every attack.  On the typed
  server the attack listener creates an Alert exactly when the severity is
  high or critical, whatever the service, while the e-mail goes out exactly
  for ssh attacks of high or critical severity; the attacks its own simulators
  build have high severity only on ssh, so for them an Alert is created exactly
  for ssh attacks of high severity.  On the single-file server an Alert is
  created exactly for ssh attacks of high or critical severity. *)
Theorem honeypot_alert_gates :
  (forall now location mailed attack w,
      let w' := exec (Server.submit_attack now location mailed attack) w in
      (exists l,
          attacks_logged (effects_since w w') = [l]
          /\ hl_service l = service attack
          /\ hl_severity l = severity attack)
      /\ (alerts_created (effects_since w w') <> []
          <-> severity attack = "high" \/ severity attack = "critical")
      /\ (emails (effects_since w w') <> []
          <-> service attack = "ssh"
              /\ (severity attack = "high" \/ severity attack = "critical"))
      /\ (Server.simulated numToString attack ->
          (alerts_created (effects_since w w') <> []
           <-> service attack = "ssh" /\ severity attack = "high")))
  /\ (forall now location tries attack w,
         let w' := SingleFile.logAttack now location tries attack w in
         (exists l,
             attacks_logged (SingleFile.effects_since w w') = [l]
             /\ hl_service l = service attack
             /\ hl_severity l = severity attack)
         /\ (alerts_created (SingleFile.effects_since w w') <> []
             <-> service attack = "ssh"
                 /\ (severity attack = "high"
                     \/ severity attack = "critical"))).
Proof.
  split.
  - intros now location mailed attack w w'. subst w'.
    assert (Halert :
              alerts_created
                (effects_since w
                   (exec (Server.submit_attack now location mailed attack) w))
              <> []
              <-> severity attack = "high" \/ severity attack = "critical").
    { rewrite <- high_or_critical_iff.
      unfold Server.submit_attack, Server.logAttack, Server.on_attack,
        Server.bump_stats, exec, eval, bind, store, query, emit, ret,
        Run.broadcast, getSystemStats.
      simpl.
      destruct (String.eqb (service attack) "ssh"
                && Server.is_high_or_critical (severity attack))%bool;
        destruct (Server.is_high_or_critical (severity attack));
        destruct (systemStats (db w)) as [s|] eqn:E; simpl; rewrite ?E; simpl;
        trace_tail; simpl; split; congruence. }
    split; [|split; [exact Halert|split]].
    + unfold Server.submit_attack, Server.logAttack, Server.on_attack,
        Server.bump_stats, exec, eval, bind, store, query, emit, ret,
        Run.broadcast, getSystemStats.
      simpl. eexists.
      destruct (String.eqb (service attack) "ssh"
                && Server.is_high_or_critical (severity attack))%bool;
        destruct (Server.is_high_or_critical (severity attack));
        destruct (systemStats (db w)) as [s|] eqn:E; simpl; rewrite ?E; simpl;
        trace_tail; simpl; repeat split; reflexivity.
    + rewrite <- high_or_critical_iff, <- (String.eqb_eq (service attack)),
        <- andb_true_iff.
      unfold Server.submit_attack, Server.logAttack, Server.on_attack,
        Server.bump_stats, exec, eval, bind, store, query, emit, ret,
        Run.broadcast, getSystemStats.
      simpl.
      destruct (String.eqb (service attack) "ssh"
                && Server.is_high_or_critical (severity attack))%bool;
        destruct (Server.is_high_or_critical (severity attack));
        destruct (systemStats (db w)) as [s|] eqn:E; simpl; rewrite ?E; simpl;
        trace_tail; simpl; split; congruence.
    + intros Hsim. rewrite Halert.
      destruct Hsim as [ip rType rSev logins | ip rType rSev port80 agent
                        | ip rType rSev tries]; simpl.
      * destruct (pick_in ["medium"; "high"] rSev ltac:(discriminate))
          as [<- | [<- | []]]; intuition congruence.
      * destruct (pick_in ["low"; "medium"] rSev ltac:(discriminate))
          as [<- | [<- | []]]; intuition congruence.
      * destruct (pick_in ["low"; "medium"] rSev ltac:(discriminate))
          as [<- | [<- | []]]; intuition congruence.
  - intros now location tries attack w w'. subst w'.
    unfold SingleFile.logAttack, SingleFile.store, SingleFile.emit,
      SingleFile.broadcast, SingleFile.effects_since.
    simpl. split.
    + eexists.
      destruct (String.eqb (service attack) "ssh"
                && (String.eqb (severity attack) "high"
                    || (String.eqb (severity attack) "critical" || false)))%bool;
        simpl; repeat rewrite <- app_assoc; simpl; rewrite skipn_exact;
        simpl; repeat split; reflexivity.
    + rewrite <- !String.eqb_eq, <- orb_true_iff, <- andb_true_iff.
      rewrite orb_false_r.
      destruct (String.eqb (service attack) "ssh"
                && (String.eqb (severity attack) "high"
                    || String.eqb (severity attack) "critical"))%bool;
        simpl; repeat rewrite <- app_assoc; simpl; rewrite skipn_exact;
        simpl; split; congruence.
Qed.

End AlertGate.


(** C4 as stated fails on the typed server: an http attack of high severity
  is answered with an Alert, titled for its service. *)
Lemma http_attack_of_high_severity_raises_alert :
  let w := boot 0 in
  let w' := exec (Server.submit_attack 1 None true
                    Samples.http_high) w in
  exists al,
    alerts_created (effects_since w w') = [al]
    /\ alert_title al = "HTTP Honeypot Attack"
    /\ alert_category al = "honeypot"
    /\ alert_severity al = "high"
    /\ JsMap.get 1 (alerts (db w')) = Some al
    /\ emails (effects_since w w') = [].
Proof. intros w w'. eexists. repeat split. Qed.

Lemma honeypot_alert_gates_witness :
  let attack := Server.sshAttack Samples.show "203.0.113.7" 0 1 17 in
  let w := boot 0 in
  Server.simulated Samples.show attack
  /\ service attack = "ssh" /\ severity attack = "high"
  /\ alerts_created
       (effects_since w (exec (Server.submit_attack 1 None false attack) w))
     <> [].
Proof.
  intros attack w.
  assert (H : Server.simulated Samples.show attack) by constructor.
  split; [exact H|]. split; [reflexivity|]. split; [reflexivity|].
  apply (proj2 (proj2 (proj2 (proj2
           (proj1 (honeypot_alert_gates Samples.show) 1 None false attack w)))
           H)).
  split; reflexivity.
Defined.

(* ------------------------------------------------------------------ *)
(** ** The single-file server: where it departs from the typed one     *)
(* ------------------------------------------------------------------ *)

Section SingleFileRemarks.

Variable numToString : Q -> string.
Variable percentFixed1 : Q -> string.

Local Arguments String.append : simpl never.

Abbreviation phishing := (SingleFile.phishing_analyze numToString).
Abbreviation deepfake1 := (SingleFile.deepfake_analyze percentFixed1).

(** The single-file phishing route stores the analysis and, for a score
  above 70, a Threat; it never creates an Alert, broadcasts or touches the
  statistics. *)
Remark single_file_phishing now text result w :
  text <> "" ->
  let w' := snd (phishing now (Js.Str text) result w) in
  (exists a, phishing_stored (SingleFile.effects_since w w') = [a]
             /\ pa_score a = score result)
  /\ (threats_created (SingleFile.effects_since w w') <> []
      <-> (70 < score result)%Q)
  /\ alerts_created (SingleFile.effects_since w w') = []
  /\ broadcasts (SingleFile.effects_since w w') = []
  /\ SingleFile.alerts (SingleFile.db w') = SingleFile.alerts (SingleFile.db w)
  /\ SingleFile.systemStats (SingleFile.db w')
     = SingleFile.systemStats (SingleFile.db w)
  /\ SingleFile.net w' = SingleFile.net w.
Proof.
  intros Ht w'. subst w'. unfold SingleFile.phishing_analyze. simpl.
  destruct (String.eqb_spec text ""); [congruence|]. simpl.
  unfold SingleFile.store, SingleFile.effects_since. simpl.
  rewrite <- Qle_bool_false.
  destruct (Qle_bool (score result) 70); simpl;
    repeat rewrite <- app_assoc; simpl; rewrite skipn_exact; simpl;
    (split; [eexists; split; reflexivity|]);
    repeat split; congruence.
Qed.

(** A non-string, truthy content passes the single-file guard and fails in
  the classifier: the answer is a 500, and nothing was written. *)
Remark single_file_non_string_content now v result w :
  Js.truthy v = true -> Js.is_string v = false ->
  phishing now v result w
  = (ResStatus 500 "content.toLowerCase is not a function", w).
Proof.
  intros Ht Hs. unfold SingleFile.phishing_analyze. rewrite Ht. simpl.
  destruct v; simpl in *; congruence.
Qed.

(** The single-file deepfake route creates a Threat whenever [isDeepfake]
  holds, of severity high above 0.8 and medium otherwise, and no Alert. *)
Remark single_file_deepfake now name type data size result w :
  name <> "" -> type <> "" -> data <> "" ->
  let w' := snd (deepfake1 now name type data size result w) in
  (threats_created (SingleFile.effects_since w w') <> []
   <-> isDeepfake result = true)
  /\ (forall t, In t (threats_created (SingleFile.effects_since w w')) ->
        threat_severity t
        = if Qle_bool (df_confidence result) SingleFile.double_0_8
          then "medium" else "high")
  /\ alerts_created (SingleFile.effects_since w w') = []
  /\ broadcasts (SingleFile.effects_since w w') = [].
Proof.
  intros Hn Ht Hd w'. subst w'. unfold SingleFile.deepfake_analyze.
  destruct (String.eqb_spec name ""); [congruence|].
  destruct (String.eqb_spec type ""); [congruence|].
  destruct (String.eqb_spec data ""); [congruence|]. simpl.
  unfold SingleFile.store, SingleFile.effects_since. simpl.
  destruct (isDeepfake result); simpl;
    repeat rewrite <- app_assoc; simpl; rewrite skipn_exact; simpl;
    repeat split; try congruence; try tauto.
  intros t [<- | []]. simpl.
  now destruct (Qle_bool (df_confidence result) SingleFile.double_0_8).
Qed.

End SingleFileRemarks.

(** On the single-file server a score of exactly 70 creates no Threat and a
  score of 95 creates a critical Threat but no Alert and no broadcast. *)
Remark single_file_phishing_at_70_and_95 :
  let w := SingleFile.boot 0 in
  let run s := snd (SingleFile.phishing_analyze Samples.show 1
                      (Js.Str "urgent") (Samples.classifier s "urgent") w) in
  threats_created (SingleFile.effects_since w (run 70%Q)) = []
  /\ map threat_severity
         (threats_created (SingleFile.effects_since w (run 95%Q)))
     = ["critical"]
  /\ alerts_created (SingleFile.effects_since w (run 95%Q)) = []
  /\ broadcasts (SingleFile.effects_since w (run 95%Q)) = [].
Proof. repeat split. Qed.

(** The single-file store starts its hit counter at 1847, and its
  [getAlertCounts] also counts alerts that were read. *)
Remark single_file_seed_and_counts :
  honeypotHits (SingleFile.systemStats (SingleFile.db (SingleFile.boot 0)))
  = 1847
  /\ let w := SingleFile.logAttack 1 Samples.berlin 3
                Samples.ssh_critical (SingleFile.boot 0) in
     honeypotHits (SingleFile.systemStats (SingleFile.db w)) = 1848
     /\ critical (SingleFile.getAlertCounts
                    (SingleFile.markAlertAsRead 1 (SingleFile.db w))) = 1%nat.
Proof. repeat split. Qed.

(* ------------------------------------------------------------------ *)
(** ** Identifiers: fresh, increasing, never reused                    *)
(* ------------------------------------------------------------------ *)

Module OrderFacts.
Import Invariants.

Lemma first_ids_snoc n : first_ids (S n) = first_ids n ++ [Z.of_nat n + 1].
Proof.
  unfold first_ids. rewrite seq_S, map_app. simpl.
  f_equal. f_equal. lia.
Qed.

Lemma first_ids_bound n k : In k (first_ids n) <-> 1 <= k <= Z.of_nat n.
Proof.
  unfold first_ids. rewrite in_map_iff. split.
  - intros (i & <- & Hi). apply in_seq in Hi. lia.
  - intros H. exists (Z.to_nat k). split; [lia|]. apply in_seq. lia.
Qed.

Lemma first_ids_NoDup n : NoDup (first_ids n).
Proof.
  unfold first_ids. apply NoDup_map_NoDup_ForallPairs.
  - intros a b _ _. lia.
  - apply seq_NoDup.
Qed.

Section Map.
Context {V : Type} (id_of : V -> Z).
Implicit Types (m : JsMap.t V) (k next : Z) (v : V).

Lemma get_in m k v : JsMap.get k m = Some v -> In (k, v) m.
Proof.
  induction m as [|[k0 v0] m IH]; simpl; [discriminate|].
  destruct (Z.eqb_spec k k0) as [->|]; [intros [= ->]; auto|auto].
Qed.

Lemma get_none_iff m k : JsMap.get k m = None <-> ~ In k (JsMap.keys m).
Proof.
  induction m as [|[k0 v0] m IH]; simpl; [tauto|].
  destruct (Z.eqb_spec k k0) as [->|]; [split; [discriminate|tauto]|].
  rewrite IH. intuition congruence.
Qed.

Lemma in_order_fresh m next :
  in_order id_of m next -> Forall (fun k => k < next) (JsMap.keys m).
Proof.
  intros (Hk & _ & ->). rewrite Hk. apply Forall_forall.
  intros k Hin. apply first_ids_bound in Hin. lia.
Qed.

Lemma in_order_get m next k :
  in_order id_of m next ->
  (JsMap.get k m <> None <-> 1 <= k < next).
Proof.
  intros (Hk & _ & ->). rewrite get_none_iff, Hk. split.
  - intros H.
    destruct (in_dec Z.eq_dec k (first_ids (JsMap.size m))) as [Hin|Hn];
      [apply first_ids_bound in Hin; lia | tauto].
  - intros H Hn. apply Hn. apply first_ids_bound. lia.
Qed.

Lemma in_order_id m next k v :
  in_order id_of m next -> JsMap.get k m = Some v -> id_of v = k.
Proof.
  intros (_ & Hid & _). unfold JsMap.values, JsMap.keys in Hid.
  induction m as [|[k0 v0] m IH]; simpl in *; [discriminate|].
  injection Hid as H0 Hid.
  destruct (Z.eqb_spec k k0) as [->|]; [intros [= <-]; auto|auto].
Qed.

Lemma in_order_insert m next v :
  in_order id_of m next -> id_of v = next ->
  in_order id_of (JsMap.set next v m) (next + 1).
Proof.
  intros H Hv. pose proof (in_order_fresh _ _ H) as Hf.
  rewrite (JsMapFacts.set_absent _ _ _ (JsMapFacts.get_above _ _ Hf)).
  destruct H as (Hk & Hid & Hn).
  unfold in_order, JsMap.keys, JsMap.values, JsMap.size in *.
  rewrite !map_app, length_app, Hid, Hk. simpl.
  rewrite Nat.add_1_r, first_ids_snoc. repeat split.
  - f_equal. f_equal. lia.
  - f_equal. subst. f_equal. lia.
  - lia.
Qed.

Lemma in_order_replace m next k v0 v :
  in_order id_of m next -> JsMap.get k m = Some v0 -> id_of v = k ->
  in_order id_of (JsMap.set k v m) next.
Proof.
  intros H Hget Hv. pose proof (in_order_id _ _ _ _ H Hget) as Hv0.
  destruct (JsMapFacts.set_present _ _ _ v Hget) as (m1 & m2 & -> & ->).
  destruct H as (Hk & Hid & Hn).
  unfold in_order, JsMap.keys, JsMap.values, JsMap.size in *.
  rewrite !map_app, !length_app in *. simpl in *.
  rewrite Hv. rewrite Hv0 in Hid. auto.
Qed.

Lemma in_order_empty : in_order id_of JsMap.empty 1.
Proof. repeat split. Qed.

End Map.
End OrderFacts.

Section StoreOrder.

Import Invariants OrderFacts.

Variable analyzeEmail : string -> PhishingDetectionResult.
Variable numToString : Q -> string.

Local Arguments String.append : simpl never.

Ltac order_step :=
  unfold stored_in_order in *; simpl;
  repeat match goal with H : _ /\ _ |- _ => destruct H end;
  (split; [|split; [|split; [|split]]]); try assumption;
  try (apply in_order_insert; [assumption|reflexivity]).

Lemma mark_read_keeps_order n st :
  stored_in_order st -> stored_in_order (markAlertAsRead n st).
Proof.
  intros H. unfold markAlertAsRead.
  destruct (JsMap.get n (alerts st)) as [a|] eqn:E; [|exact H].
  order_step.
  eapply in_order_replace; eauto. simpl.
  eapply in_order_id; eauto.
Qed.

Lemma set_past (m1 m2 : JsMap.t Alert) k v0 v :
  ~ In k (JsMap.keys m1) ->
  JsMap.set k v (m1 ++ (k, v0) :: m2) = m1 ++ (k, v) :: m2.
Proof.
  induction m1 as [|[k1 v1] m1 IH]; simpl; intros Hn.
  - now rewrite Z.eqb_refl.
  - destruct (Z.eqb_spec k k1) as [->|];
      [exfalso; apply Hn; now left|].
    rewrite IH; auto.
Qed.

Lemma mark_all_from (done rest : JsMap.t Alert) :
  NoDup (JsMap.keys (done ++ rest)) ->
  map alert_id (JsMap.values rest) = JsMap.keys rest ->
  fold_left (fun m alert =>
               JsMap.set (alert_id alert) (set_isRead true alert) m)
            (JsMap.values rest) (map read_entry done ++ rest)
  = map read_entry (done ++ rest).
Proof.
  revert done. induction rest as [|[k a] rest IH]; intros done Hnd Hid; simpl.
  - now rewrite !app_nil_r.
  - simpl in Hid. injection Hid as Hk Hid. rewrite Hk.
    rewrite set_past.
    + replace (map read_entry done ++ (k, set_isRead true a) :: rest)
        with (map read_entry (done ++ [(k, a)]) ++ rest)
        by (rewrite map_app, <- app_assoc; reflexivity).
      rewrite IH; [now rewrite <- app_assoc| |exact Hid].
      now rewrite <- app_assoc.
    + unfold JsMap.keys in *. rewrite map_map. simpl.
      rewrite map_app in Hnd. simpl in Hnd.
      apply NoDup_remove_2 in Hnd. intros Hin. apply Hnd.
      apply in_app_iff. now left.
Qed.

Lemma mark_all_alerts st :
  in_order alert_id (alerts st) (currentAlertId st) ->
  alerts (markAllAlertsAsRead st) = map read_entry (alerts st).
Proof.
  intros H. unfold markAllAlertsAsRead. simpl.
  apply (mark_all_from [] (alerts st)); simpl.
  - destruct H as (Hk & _). rewrite Hk. apply first_ids_NoDup.
  - apply H.
Qed.

Lemma mark_all_keeps_order st :
  stored_in_order st -> stored_in_order (markAllAlertsAsRead st).
Proof.
  intros H. pose proof H as (_ & _ & _ & _ & Ha).
  pose proof (mark_all_alerts st Ha) as E.
  unfold stored_in_order in *.
  destruct H as (H1 & H2 & H3 & H4 & H5).
  (split; [|split; [|split; [|split]]]); try assumption.
  rewrite E. destruct Ha as (Hk & Hid & Hn).
  unfold in_order, JsMap.keys, JsMap.values, JsMap.size in *.
  rewrite !map_map, length_map. simpl.
  rewrite map_map in Hid. auto.
Qed.

Lemma handle_keeps_order e w :
  stored_in_order (db w) ->
  stored_in_order (db (Server.handle analyzeEmail numToString e w)).
Proof.
  intros H. destruct e; simpl.
  - unfold Server.analyze_email.
    destruct (negb (Js.truthy content) || negb (Js.is_string content))%bool;
      [exact H|].
    unfold Server.bump_stats, exec, eval, bind, store, query, emit, ret,
      Run.broadcast, getSystemStats.
    simpl.
    destruct (Qle_bool 70 (score (analyzeEmail (Server.text_of content))));
      simpl; [destruct (systemStats (db w)) eqn:E; simpl; rewrite ?E; simpl|];
      order_step.
  - unfold Server.analyze_deepfake. destruct file as [f|]; [|exact H].
    destruct (negb (String.prefix "image/" (Server.mimetype f))
              && negb (String.prefix "video/" (Server.mimetype f)))%bool;
      [exact H|].
    unfold Server.bump_stats, exec, eval, bind, store, query, emit, ret,
      Run.broadcast, getSystemStats.
    simpl.
    destruct (isDeepfake result && Qle_bool 80 (df_confidence result))%bool;
      simpl; [destruct (systemStats (db w)) eqn:E; simpl; rewrite ?E; simpl|];
      order_step.
  - destruct id as [n|]; [|exact H].
    apply (mark_read_keeps_order n) in H. exact H.
  - now apply mark_all_keeps_order.
  - unfold Server.submit_attack, Server.logAttack, Server.on_attack,
      Server.bump_stats, exec, eval, bind, store, query, emit, ret,
      Run.broadcast, getSystemStats.
    simpl.
    destruct (String.eqb (service attack) "ssh"
              && Server.is_high_or_critical (severity attack))%bool;
      destruct (Server.is_high_or_critical (severity attack));
      destruct (systemStats (db w)) as [s|] eqn:E; simpl; rewrite ?E; simpl;
      rewrite ?E; simpl; order_step.
  - unfold Server.stats_tick, exec, bind, query, ret, Run.broadcast,
      getSystemStats.
    simpl. destruct (systemStats (db w)); exact H.
  - exact H.
  - exact H.
  - exact H.
Qed.

Lemma run_keeps_order es : forall w,
  stored_in_order (db w) ->
  stored_in_order (db (Server.run analyzeEmail numToString es w)).
Proof.
  induction es as [|e es IH]; intros w H; simpl; auto.
  apply IH. now apply handle_keeps_order.
Qed.

Lemma boot_in_order t0 : stored_in_order (db (boot t0)).
Proof. repeat split. Qed.

End StoreOrder.

(* ------------------------------------------------------------------ *)
(** ** Nothing stored is lost                                          *)
(* ------------------------------------------------------------------ *)

Section Kept.

Import Invariants OrderFacts.

Variable analyzeEmail : string -> PhishingDetectionResult.
Variable numToString : Q -> string.

Local Arguments String.append : simpl never.

Lemma get_insert_old {V} (id_of : V -> Z) (m : JsMap.t V) next k v x :
  in_order id_of m next -> JsMap.get k m = Some v ->
  JsMap.get k (JsMap.set next x m) = Some v.
Proof.
  intros H Hget. rewrite JsMapFacts.get_set_other; auto.
  intros <-.
  rewrite (JsMapFacts.get_above _ _ (in_order_fresh _ _ _ H)) in Hget.
  discriminate.
Qed.

Lemma get_read_entries (m : JsMap.t Alert) k :
  JsMap.get k (map read_entry m)
  = option_map (set_isRead true) (JsMap.get k m).
Proof.
  induction m as [|[k0 a0] m IH]; simpl; auto.
  destruct (Z.eqb k k0); auto.
Qed.

Lemma kept_refl st : kept st st.
Proof. unfold kept. repeat split; auto. Qed.

Lemma kept_trans st1 st2 st3 : kept st1 st2 -> kept st2 st3 -> kept st1 st3.
Proof.
  intros (A1 & A2 & A3 & A4 & A5) (B1 & B2 & B3 & B4 & B5).
  unfold kept. repeat split; auto.
  intros k a Ha. destruct (A5 k a Ha) as [H|H].
  - auto.
  - right. destruct (B5 _ _ H) as [H'|H']; exact H'.
Qed.

Ltac kept_step :=
  match goal with
  | H : stored_in_order _ |- _ =>
      destruct H as (?Ht & ?Hp & ?Hd & ?Hl & ?Ha)
  end;
  unfold kept; simpl;
  (split; [|split; [|split; [|split]]]);
  intros k v Hget; try left;
  repeat first
    [ exact Hget
    | eapply get_insert_old; [eassumption|] ].

Lemma mark_read_kept n st : kept st (markAlertAsRead n st).
Proof.
  unfold markAlertAsRead.
  destruct (JsMap.get n (alerts st)) as [a|] eqn:E; [|apply kept_refl].
  unfold kept. simpl. repeat split; auto.
  intros k a' Hget. destruct (Z.eq_dec n k) as [<-|Hne].
  - right. rewrite JsMapFacts.get_set_same. congruence.
  - left. now rewrite JsMapFacts.get_set_other.
Qed.

Lemma mark_all_kept st :
  stored_in_order st -> kept st (markAllAlertsAsRead st).
Proof.
  intros H. pose proof H as (_ & _ & _ & _ & Ha).
  pose proof (mark_all_alerts st Ha) as E.
  unfold kept. rewrite E. repeat split; auto.
  intros k a Hget. right. now rewrite get_read_entries, Hget.
Qed.

Lemma handle_kept e w :
  stored_in_order (db w) ->
  kept (db w) (db (Server.handle analyzeEmail numToString e w)).
Proof.
  intros H. destruct e; simpl; try apply kept_refl.
  - unfold Server.analyze_email.
    destruct (negb (Js.truthy content) || negb (Js.is_string content))%bool;
      [apply kept_refl|].
    unfold Server.bump_stats, exec, eval, bind, store, query, emit, ret,
      Run.broadcast, getSystemStats.
    simpl.
    destruct (Qle_bool 70 (score (analyzeEmail (Server.text_of content))));
      simpl; [destruct (systemStats (db w)) eqn:E; simpl; rewrite ?E; simpl|];
      kept_step.
  - unfold Server.analyze_deepfake. destruct file as [f|]; [|apply kept_refl].
    destruct (negb (String.prefix "image/" (Server.mimetype f))
              && negb (String.prefix "video/" (Server.mimetype f)))%bool;
      [apply kept_refl|].
    unfold Server.bump_stats, exec, eval, bind, store, query, emit, ret,
      Run.broadcast, getSystemStats.
    simpl.
    destruct (isDeepfake result && Qle_bool 80 (df_confidence result))%bool;
      simpl; [destruct (systemStats (db w)) eqn:E; simpl; rewrite ?E; simpl|];
      kept_step.
  - destruct id as [n|]; [|apply kept_refl]. apply mark_read_kept.
  - now apply mark_all_kept.
  - unfold Server.submit_attack, Server.logAttack, Server.on_attack,
      Server.bump_stats, exec, eval, bind, store, query, emit, ret,
      Run.broadcast, getSystemStats.
    simpl.
    destruct (String.eqb (service attack) "ssh"
              && Server.is_high_or_critical (severity attack))%bool;
      destruct (Server.is_high_or_critical (severity attack));
      destruct (systemStats (db w)) as [s|] eqn:E; simpl; rewrite ?E; simpl;
      rewrite ?E; simpl; kept_step.
  - unfold Server.stats_tick, exec, bind, query, ret, Run.broadcast,
      getSystemStats.
    simpl. destruct (systemStats (db w)); apply kept_refl.
Qed.

Lemma run_kept es : forall w,
  stored_in_order (db w) ->
  kept (db w) (db (Server.run analyzeEmail numToString es w)).
Proof.
  induction es as [|e es IH]; intros w H; simpl; [apply kept_refl|].
  eapply kept_trans; [apply handle_kept; exact H|].
  apply IH. now apply handle_keeps_order.
Qed.

End Kept.

(* ------------------------------------------------------------------ *)
(** ** The statistics against the stored threats                       *)
(* ------------------------------------------------------------------ *)

Section StatsAndThreats.

Import Invariants OrderFacts.

Variable analyzeEmail : string -> PhishingDetectionResult.
Variable numToString : Q -> string.

Local Arguments String.append : simpl never.
Local Arguments Z.add : simpl never.
Local Arguments Z.of_nat : simpl never.

Lemma threats_after_insert st T ty :
  in_order threat_id (threats st) (currentThreatId st) ->
  JsMap.size (JsMap.set (currentThreatId st) T (threats st))
  = S (JsMap.size (threats st))
  /\ List.length
       (filter (fun t => String.eqb (threat_type t) ty)
               (JsMap.values (JsMap.set (currentThreatId st) T (threats st))))
     = (List.length
          (filter (fun t => String.eqb (threat_type t) ty)
                  (JsMap.values (threats st)))
        + if String.eqb (threat_type T) ty then 1 else 0)%nat.
Proof.
  intros H. pose proof (in_order_fresh _ _ _ H) as Hf.
  rewrite (JsMapFacts.set_absent _ _ _ (JsMapFacts.get_above _ _ Hf)).
  unfold JsMap.size, JsMap.values.
  rewrite map_app, filter_app, !length_app. simpl.
  destruct (String.eqb (threat_type T) ty); simpl; lia.
Qed.

Lemma handle_keeps_stats e w :
  stored_in_order (db w) ->
  stats_match_threats (db w) ->
  stats_match_threats (db (Server.handle analyzeEmail numToString e w)).
Proof.
  intros Ho (s & Hs & Ha & Hp & Hd).
  pose proof Ho as (Ht & _).
  assert (Hsame : forall st',
             systemStats st' = systemStats (db w) ->
             threats st' = threats (db w) ->
             stats_match_threats st').
  { intros st' E1 E2. exists s. unfold Queries.getThreatsByType in *.
    rewrite E1, E2. auto. }
  destruct e; simpl; try (apply Hsame; reflexivity).
  - unfold Server.analyze_email.
    destruct (negb (Js.truthy content) || negb (Js.is_string content))%bool;
      [apply Hsame; reflexivity|].
    unfold Server.bump_stats, exec, eval, bind, store, query, emit, ret,
      Run.broadcast, getSystemStats.
    simpl.
    destruct (Qle_bool 70 (score (analyzeEmail (Server.text_of content))));
      simpl; [|apply Hsame; reflexivity].
    rewrite Hs. simpl. rewrite Hs. simpl.
    eexists. split; [reflexivity|]. unfold Queries.getThreatsByType in *.
    simpl.
    match goal with
    | |- context [JsMap.set _ ?T (threats (db w))] =>
        destruct (threats_after_insert (db w) T "phishing" Ht) as (E1 & E2);
        destruct (threats_after_insert (db w) T "deepfake" Ht) as (_ & E3)
    end.
    simpl in E2, E3. rewrite E1, E2, E3. repeat split; lia.
  - unfold Server.analyze_deepfake.
    destruct file as [f|]; [|apply Hsame; reflexivity].
    destruct (negb (String.prefix "image/" (Server.mimetype f))
              && negb (String.prefix "video/" (Server.mimetype f)))%bool;
      [apply Hsame; reflexivity|].
    unfold Server.bump_stats, exec, eval, bind, store, query, emit, ret,
      Run.broadcast, getSystemStats.
    simpl.
    destruct (isDeepfake result && Qle_bool 80 (df_confidence result))%bool;
      simpl; [|apply Hsame; reflexivity].
    rewrite Hs. simpl. rewrite Hs. simpl.
    eexists. split; [reflexivity|]. unfold Queries.getThreatsByType in *.
    simpl.
    match goal with
    | |- context [JsMap.set _ ?T (threats (db w))] =>
        destruct (threats_after_insert (db w) T "phishing" Ht) as (E1 & E2);
        destruct (threats_after_insert (db w) T "deepfake" Ht) as (_ & E3)
    end.
    simpl in E2, E3. rewrite E1, E2, E3. repeat split; lia.
  - destruct id as [n|]; [|apply Hsame; reflexivity].
    unfold Server.alerts_read, exec, bind, store, ret, markAlertAsRead.
    simpl. destruct (JsMap.get n (alerts (db w))); apply Hsame; reflexivity.
  - unfold Server.submit_attack, Server.logAttack, Server.on_attack,
      Server.bump_stats, exec, eval, bind, store, query, emit, ret,
      Run.broadcast, getSystemStats.
    simpl.
    destruct (String.eqb (service attack) "ssh"
              && Server.is_high_or_critical (severity attack))%bool;
      destruct (Server.is_high_or_critical (severity attack));
      simpl; rewrite Hs; simpl; rewrite ?Hs; simpl;
      (eexists; split; [reflexivity|]);
      unfold Queries.getThreatsByType in *; simpl; auto.
  - unfold Server.stats_tick, exec, bind, query, ret, Run.broadcast,
      getSystemStats.
    simpl. rewrite Hs. apply Hsame; reflexivity.
Qed.

Lemma run_keeps_stats es : forall w,
  stored_in_order (db w) ->
  stats_match_threats (db w) ->
  stats_match_threats (db (Server.run analyzeEmail numToString es w)).
Proof.
  induction es as [|e es IH]; intros w Ho Hs; simpl; auto.
  apply IH; [now apply handle_keeps_order|now apply handle_keeps_stats].
Qed.

Lemma boot_stats_match t0 : stats_match_threats (db (boot t0)).
Proof. eexists. repeat split. Qed.

End StatsAndThreats.

(* ------------------------------------------------------------------ *)
(** ** Alerts name records that exist                                  *)
(* ------------------------------------------------------------------ *)

Section AlertsResolve.

Import Invariants OrderFacts.

Variable analyzeEmail : string -> PhishingDetectionResult.
Variable numToString : Q -> string.

Local Arguments String.append : simpl never.

Lemma resolves_kept st st' a :
  kept st st' -> resolves st a -> resolves st' a.
Proof.
  intros (K1 & K2 & K3 & _) (He & Hm). split.
  - intros Hc. destruct (He Hc) as (t & p & th & an & Hn & Ht & Hty & Hp).
    exists t, p, th, an. auto.
  - intros Hc. destruct (Hm Hc) as (t & p & th & an & Hn & Ht & Hty & Hp).
    exists t, p, th, an. auto.
Qed.

Lemma resolves_read st a : resolves st a -> resolves st (set_isRead true a).
Proof. intros H. exact H. Qed.

(** Where the alerts of the state after an event come from. *)
Lemma handle_alert_origin e w id a' :
  stored_in_order (db w) ->
  JsMap.get id (alerts (db (Server.handle analyzeEmail numToString e w)))
  = Some a' ->
  (exists a, JsMap.get id (alerts (db w)) = Some a
             /\ (a' = a \/ a' = set_isRead true a))
  \/ resolves (db (Server.handle analyzeEmail numToString e w)) a'.
Proof.
  intros Ho. pose proof Ho as (_ & _ & _ & _ & Ha).
  assert (Hold : JsMap.get id (alerts (db w)) = Some a' ->
                 (exists a, JsMap.get id (alerts (db w)) = Some a
                            /\ (a' = a \/ a' = set_isRead true a))
                 \/ resolves (db (Server.handle analyzeEmail numToString e w))
                             a')
    by (intros H; left; exists a'; auto).
  destruct e; cbn [Server.handle] in *; try exact Hold.
  - revert Hold. unfold Server.analyze_email.
    destruct (negb (Js.truthy content) || negb (Js.is_string content))%bool;
      [auto|].
    unfold Server.bump_stats, exec, eval, bind, store, query, emit, ret,
      Run.broadcast, getSystemStats.
    simpl.
    destruct (Qle_bool 70 (score (analyzeEmail (Server.text_of content))));
      simpl; [|auto].
    intros Hold.
    destruct (systemStats (db w)) eqn:E; simpl; rewrite ?E; simpl;
      (destruct (Z.eq_dec (currentAlertId (db w)) id) as [<-|Hne];
       [rewrite JsMapFacts.get_set_same; intros [= <-]; right;
        (split; simpl; [intros _|discriminate]);
        do 4 eexists;
        (split; [reflexivity|]);
        rewrite !JsMapFacts.get_set_same; repeat split
       |rewrite JsMapFacts.get_set_other by exact Hne;
        intros H; left; exists a'; auto]).
  - revert Hold. unfold Server.analyze_deepfake.
    destruct file as [f|]; [|auto].
    destruct (negb (String.prefix "image/" (Server.mimetype f))
              && negb (String.prefix "video/" (Server.mimetype f)))%bool;
      [auto|].
    unfold Server.bump_stats, exec, eval, bind, store, query, emit, ret,
      Run.broadcast, getSystemStats.
    simpl.
    destruct (isDeepfake result && Qle_bool 80 (df_confidence result))%bool;
      simpl; [|auto].
    intros Hold.
    destruct (systemStats (db w)) eqn:E; simpl; rewrite ?E; simpl;
      (destruct (Z.eq_dec (currentAlertId (db w)) id) as [<-|Hne];
       [rewrite JsMapFacts.get_set_same; intros [= <-]; right;
        (split; simpl; [discriminate|intros _]);
        do 4 eexists;
        (split; [reflexivity|]);
        rewrite !JsMapFacts.get_set_same; repeat split
       |rewrite JsMapFacts.get_set_other by exact Hne;
        intros H; left; exists a'; auto]).
  - destruct id0 as [n|]; [|exact Hold].
    revert Hold.
    unfold Server.alerts_read, exec, bind, store, ret, markAlertAsRead.
    simpl. destruct (JsMap.get n (alerts (db w))) as [a|] eqn:E; simpl;
      [|auto].
    intros _.
    destruct (Z.eq_dec n id) as [<-|Hne].
    + rewrite JsMapFacts.get_set_same. intros [= <-]. left. exists a. auto.
    + rewrite JsMapFacts.get_set_other by exact Hne. intros H. left.
      exists a'. auto.
  - unfold Server.alerts_read_all, exec. cbn [snd db].
    rewrite (mark_all_alerts _ Ha), get_read_entries.
    destruct (JsMap.get id (alerts (db w))) as [a|]; [|discriminate].
    intros [= <-]. left. exists a. auto.
  - revert Hold.
    unfold Server.submit_attack, Server.logAttack, Server.on_attack,
      Server.bump_stats, exec, eval, bind, store, query, emit, ret,
      Run.broadcast, getSystemStats.
    simpl.
    destruct (String.eqb (service attack) "ssh"
              && Server.is_high_or_critical (severity attack))%bool;
      destruct (Server.is_high_or_critical (severity attack));
      destruct (systemStats (db w)) as [s|] eqn:E; simpl; rewrite ?E; simpl;
      rewrite ?E; simpl; auto;
      intros Hold;
      (destruct (Z.eq_dec (currentAlertId (db w)) id) as [<-|Hne];
       [rewrite JsMapFacts.get_set_same; intros [= <-]; right;
        split; simpl; discriminate
       |rewrite JsMapFacts.get_set_other by exact Hne;
        intros H; left; exists a'; auto]).
  - revert Hold. unfold Server.stats_tick, exec, bind, query, ret,
      Run.broadcast, getSystemStats.
    simpl. destruct (systemStats (db w)); auto.
Qed.

Lemma handle_keeps_resolving e w :
  stored_in_order (db w) ->
  alerts_resolve (db w) ->
  alerts_resolve (db (Server.handle analyzeEmail numToString e w)).
Proof.
  intros Ho Hr id a' Hget.
  destruct (handle_alert_origin e w id a' Ho Hget)
    as [(a & Ha & [-> | ->]) | H]; auto;
    apply (resolves_kept (db w)); auto using handle_kept;
    apply (Hr id a Ha).
Qed.

Lemma run_keeps_resolving es : forall w,
  stored_in_order (db w) ->
  alerts_resolve (db w) ->
  alerts_resolve (db (Server.run analyzeEmail numToString es w)).
Proof.
  induction es as [|e es IH]; intros w Ho Hr; simpl; auto.
  apply IH; [now apply handle_keeps_order|now apply handle_keeps_resolving].
Qed.

End AlertsResolve.

(* ------------------------------------------------------------------ *)
(** ** Arrays                                                          *)
(* ------------------------------------------------------------------ *)

Module ArrayFacts.
Import JsArray Queries.

Section Sorting.
Context {V : Type} (time : V -> Z).

Abbreviation newest := (newest_first time).

Lemma insert_perm x l : Permutation (insert newest x l) (x :: l).
Proof.
  induction l as [|y l IH]; simpl; auto.
  destruct (Z.leb (newest x y) 0); auto.
  rewrite IH. apply perm_swap.
Qed.

Lemma sort_perm l : Permutation (sort newest l) l.
Proof.
  induction l as [|x l IH]; simpl; auto.
  rewrite insert_perm. now constructor.
Qed.

Lemma insert_sorted x l :
  StronglySorted (not_older time) l ->
  StronglySorted (not_older time) (insert newest x l).
Proof.
  induction l as [|y l IH]; simpl; intros H.
  - repeat constructor.
  - unfold newest_first at 1.
    destruct (Z.leb_spec (time y - time x) 0) as [Hle|Hgt].
    + constructor; auto. inversion H; subst.
      constructor; [unfold not_older; lia|].
      eapply Forall_impl; [|eassumption].
      unfold not_older. intros; lia.
    + inversion H; subst. constructor; auto.
      rewrite insert_perm. constructor; auto. unfold not_older. lia.
Qed.

Lemma sort_sorted l : StronglySorted (not_older time) (sort newest l).
Proof.
  induction l as [|x l IH]; simpl; [constructor|]. now apply insert_sorted.
Qed.

(** Stability: records of equal time keep the order they had. *)
Lemma insert_stable k x l :
  StronglySorted (not_older time) l ->
  filter (fun a => Z.eqb (time a) k) (insert newest x l)
  = filter (fun a => Z.eqb (time a) k) (x :: l).
Proof.
  induction l as [|y l IH]; simpl; intros H; auto.
  unfold newest_first at 1.
  destruct (Z.leb_spec (time y - time x) 0) as [Hle|Hgt]; auto.
  inversion H; subst. simpl. rewrite IH by assumption. simpl.
  destruct (Z.eqb_spec (time x) k), (Z.eqb_spec (time y) k); auto; lia.
Qed.

Lemma sort_stable k l :
  filter (fun a => Z.eqb (time a) k) (sort newest l)
  = filter (fun a => Z.eqb (time a) k) l.
Proof.
  induction l as [|x l IH]; simpl; auto.
  rewrite insert_stable by apply sort_sorted. simpl. now rewrite IH.
Qed.

Lemma sort_length l : List.length (sort newest l) = List.length l.
Proof. apply Permutation_length, sort_perm. Qed.

End Sorting.

Section Slicing.
Context {A : Type}.
Implicit Types (l : list A).

Lemma slice_from_0 l n :
  0 <= n -> slice 0 n l = firstn (Z.to_nat n) l.
Proof.
  intros Hn. unfold slice, clamp. simpl.
  destruct (Z.ltb_spec n 0); [lia|].
  rewrite Nat.sub_0_r. simpl.
  destruct (Nat.min_spec (Z.to_nat n) (List.length l)) as [[H1 ->]|[H1 ->]];
    auto.
  rewrite !firstn_all2; auto; lia.
Qed.

Lemma slice_window l o n :
  0 <= o -> 0 <= n ->
  slice o (o + n) l = firstn (Z.to_nat n) (skipn (Z.to_nat o) l).
Proof.
  intros Ho Hn. unfold slice, clamp.
  destruct (Z.ltb_spec o 0); [lia|].
  destruct (Z.ltb_spec (o + n) 0); [lia|].
  destruct (Nat.le_gt_cases (List.length l) (Z.to_nat o)) as [Hl|Hl].
  - rewrite Nat.min_r by lia. rewrite !skipn_all2 by lia.
    now rewrite !firstn_nil.
  - rewrite (Nat.min_l (Z.to_nat o)) by lia.
    destruct (Nat.min_spec (Z.to_nat (o + n)) (List.length l))
      as [[H1 ->]|[H1 ->]].
    + f_equal. lia.
    + rewrite !firstn_all2; auto; rewrite length_skipn; lia.
Qed.

(** A negative end counts from the end: [slice 0 (-k)] drops the last [k]. *)
Lemma slice_negative l k :
  0 < k ->
  slice 0 (- k) l = firstn (List.length l - Z.to_nat k) l.
Proof.
  intros Hk. unfold slice, clamp. simpl.
  destruct (Z.ltb_spec (- k) 0); [|lia].
  rewrite Nat.sub_0_r. simpl. f_equal. lia.
Qed.

Lemma slice_incl l s e a : In a (slice s e l) -> In a l.
Proof.
  unfold slice. intros H.
  rewrite <- (firstn_skipn (clamp (List.length l) s) l).
  apply in_or_app. right.
  rewrite <- (firstn_skipn (clamp (List.length l) e - clamp (List.length l) s)
                           (skipn _ l)).
  apply in_or_app. now left.
Qed.

End Slicing.
End ArrayFacts.
(* ------------------------------------------------------------------ *)
(** ** The store of the running server                                 *)
(* ------------------------------------------------------------------ *)

Section ReachableStore.

Import Invariants OrderFacts.

Variable analyzeEmail : string -> PhishingDetectionResult.
Variable numToString : Q -> string.

Local Arguments String.append : simpl never.

(** X1.  Whatever has happened since the server started, each of the five
  maps of the store holds exactly the ids 1, 2, ... up to the number of its
  records, in the order of creation, every record is filed under its own id,
  and the id counter is one past the last id: ids are never reused, skipped
  or overwritten by a later create. *)
Theorem ids_count_up_without_gaps :
  forall (t0 : Z) (es : list Server.Event),
    let st := db (Server.run analyzeEmail numToString es (boot t0)) in
    stored_in_order st
    /\ (forall id, JsMap.get id (threats st) <> None
                   <-> 1 <= id < currentThreatId st)
    /\ (forall id, JsMap.get id (alerts st) <> None
                   <-> 1 <= id < currentAlertId st)
    /\ (forall id t, JsMap.get id (threats st) = Some t -> threat_id t = id)
    /\ (forall id a, JsMap.get id (alerts st) = Some a -> alert_id a = id).
Proof.
  intros t0 es st.
  assert (H : stored_in_order st)
    by (apply run_keeps_order, boot_in_order).
  pose proof H as (Ht & _ & _ & _ & Ha).
  split; [exact H|]. split; [|split; [|split]].
  - intros id. eapply in_order_get; eauto.
  - intros id. eapply in_order_get; eauto.
  - intros id t. eapply in_order_id; eauto.
  - intros id a. eapply in_order_id; eauto.
Qed.

(** X2.  The running server never deletes or rewrites what it stored: after
  any further events every threat, analysis and honeypot log is still in the
  store, unchanged, and every alert is still there, unchanged or with
  [isRead] turned to true (never back to false). *)
Theorem stored_records_are_never_lost :
  forall (t0 : Z) (es1 es2 : list Server.Event),
    kept (db (Server.run analyzeEmail numToString es1 (boot t0)))
         (db (Server.run analyzeEmail numToString (es1 ++ es2) (boot t0))).
Proof.
  intros t0 es1 es2. unfold Server.run. rewrite fold_left_app.
  apply run_kept. apply run_keeps_order, boot_in_order.
Qed.

(** X3.  The statistics record follows the stored threats: in every state
  of the running server [activeThreats] is its start value 7 plus the number
  of stored threats (whatever their status), [phishingBlocked] is 142 plus
  the number of threats of type phishing and [deepfakesDetected] is 23 plus
  the number of threats of type deepfake. *)
Theorem statistics_count_the_threats :
  forall (t0 : Z) (es : list Server.Event),
    stats_match_threats
      (db (Server.run analyzeEmail numToString es (boot t0))).
Proof.
  intros t0 es. apply run_keeps_stats.
  - apply boot_in_order.
  - apply boot_stats_match.
Qed.

(** X4.  Referential integrity of alerts: in every state of the running
  server the metadata of each alert of category email names, by id, a stored
  threat of type phishing and a stored phishing analysis, and the metadata
  of each alert of category media names a stored threat of type deepfake and
  a stored deepfake analysis. *)
Theorem alerts_name_stored_records :
  forall (t0 : Z) (es : list Server.Event),
    alerts_resolve (db (Server.run analyzeEmail numToString es (boot t0))).
Proof.
  intros t0 es. apply run_keeps_resolving.
  - apply boot_in_order.
  - intros id a H. discriminate H.
Qed.

End ReachableStore.
(* ------------------------------------------------------------------ *)
(** ** The queries of the storage                                      *)
(* ------------------------------------------------------------------ *)

Module QueryFacts.
Import JsArray Queries ArrayFacts Listing.

Section Newest.
Context {V : Type} (time : V -> Z).

Lemma slice_nil s e : slice s e (@nil V) = [].
Proof. unfold slice. now rewrite skipn_nil, firstn_nil. Qed.

Lemma newest_listing l n :
  0 <= n ->
  lists_newest time (Z.to_nat n) l (slice 0 n (sort (newest_first time) l)).
Proof.
  intros Hn. rewrite slice_from_0 by assumption. split.
  - now rewrite length_firstn, sort_length.
  - exists (skipn (Z.to_nat n) (sort (newest_first time) l)).
    rewrite firstn_skipn. split; [apply sort_perm|].
    split; [apply sort_sorted|]. intros k. apply sort_stable.
Qed.

Lemma newest_listing_in l n a :
  In a (slice 0 n (sort (newest_first time) l)) -> In a l.
Proof.
  intros H. apply slice_incl in H.
  eapply Permutation_in; [apply sort_perm|exact H].
Qed.

Lemma firstn_more (l : list V) n m :
  firstn n l ++ firstn m (skipn n l) = firstn (n + m) l.
Proof.
  revert l. induction n as [|n IH]; intros l; simpl; auto.
  destruct l as [|x l]; simpl; [now rewrite firstn_nil|].
  now rewrite IH.
Qed.

End Newest.

Lemma unread_of_read_entries (m : JsMap.t Alert) :
  unread (JsMap.values (map Invariants.read_entry m)) = [].
Proof.
  induction m as [|[k a] m IH]; simpl; auto.
Qed.

Lemma read_entry_twice (m : JsMap.t Alert) :
  map Invariants.read_entry (map Invariants.read_entry m)
  = map Invariants.read_entry m.
Proof.
  rewrite map_map. apply map_ext. intros [k a]. reflexivity.
Qed.

End QueryFacts.

Section StorageQueries.

Import JsArray Queries ArrayFacts Listing QueryFacts Invariants OrderFacts.

Variable analyzeEmail : string -> PhishingDetectionResult.
Variable numToString : Q -> string.

(** X5.  In every state of the running server [markAllAlertsAsRead] turns
  [isRead] of each stored alert to true and changes nothing else of it, so
  afterwards all four unread counts are 0 and the unread-only listing is
  empty; the other maps and the statistics stay as they were, and a second
  call changes nothing. *)
Theorem markAllAlertsAsRead_leaves_nothing_unread :
  forall (t0 : Z) (es : list Server.Event),
    let st := db (Server.run analyzeEmail numToString es (boot t0)) in
    let st' := markAllAlertsAsRead st in
    (forall id, JsMap.get id (alerts st')
                = option_map (set_isRead true) (JsMap.get id (alerts st)))
    /\ getAlertCounts st'
       = {| critical := 0; high := 0; medium := 0; low := 0 |}
    /\ (forall limit, getAlerts limit (Some true) st' = [])
    /\ markAllAlertsAsRead st' = st'
    /\ threats st' = threats st
    /\ honeypotLogs st' = honeypotLogs st
    /\ systemStats st' = systemStats st
    /\ currentAlertId st' = currentAlertId st.
Proof.
  intros t0 es st st'.
  assert (H : stored_in_order st) by (apply run_keeps_order, boot_in_order).
  assert (Ha : alerts st' = map read_entry (alerts st))
    by (apply mark_all_alerts, H).
  assert (H' : stored_in_order st') by now apply mark_all_keeps_order.
  split; [|split; [|split; [|split; [|repeat split]]]].
  - intros id. rewrite Ha. apply get_read_entries.
  - unfold getAlertCounts. rewrite Ha.
    fold (unread (JsMap.values (map read_entry (alerts st)))).
    now rewrite unread_of_read_entries.
  - intros limit. unfold getAlerts. rewrite Ha. simpl.
    fold (unread (JsMap.values (map read_entry (alerts st)))).
    rewrite unread_of_read_entries. simpl. apply slice_nil.
  - assert (E : alerts (markAllAlertsAsRead st') = alerts st').
    { rewrite (mark_all_alerts st') by apply H'.
      rewrite Ha. apply read_entry_twice. }
    change (markAllAlertsAsRead st')
      with (with_alerts (alerts (markAllAlertsAsRead st'))
                        (currentAlertId st) st).
    rewrite E. reflexivity.
Qed.

End StorageQueries.
Section Listings.

Import JsArray Queries ArrayFacts Listing QueryFacts.

(** X6.  [getAlerts(limit, unreadOnly)] with a limit that is not negative
  lists the [limit] newest alerts (all of them when there are fewer), the
  newest first and alerts of the same creation time in the order of their
  creation; with [unreadOnly] only alerts with [isRead] false are listed.
  Without arguments the limit is 50 and read alerts are included. *)
Theorem getAlerts_lists_the_newest_first :
  forall (st : MemStorage) (limit : Z) (unreadOnly : bool),
    0 <= limit ->
    let stored := JsMap.values (alerts st) in
    let listed := getAlerts (Some limit) (Some unreadOnly) st in
    lists_newest alert_createdAt (Z.to_nat limit)
                 (if unreadOnly then unread stored else stored) listed
    /\ (forall a, In a listed ->
                  In a stored /\ (unreadOnly = true -> alert_isRead a = false))
    /\ getAlerts None None st = getAlerts (Some 50) (Some false) st.
Proof.
  intros st limit unreadOnly Hl stored listed.
  split; [|split; [|reflexivity]].
  - unfold listed, getAlerts. simpl. fold stored.
    fold (unread stored). now apply newest_listing.
  - intros a Ha. unfold listed, getAlerts in Ha. simpl in Ha.
    apply newest_listing_in in Ha. fold stored in Ha.
    destruct unreadOnly.
    + apply filter_In in Ha. destruct Ha as (Hin & Hr).
      split; [exact Hin|]. intros _. now destruct (alert_isRead a).
    + split; [exact Ha|discriminate].
Qed.

Lemma getAlerts_lists_the_newest_first_witness :
  let st := snd (createAlert 9
                   {| ia_title := "b"; ia_description := "d";
                      ia_severity := "high"; ia_category := "email";
                      ia_isRead := Some false; ia_metadata := None |}
              (snd (createAlert 5
                      {| ia_title := "a"; ia_description := "d";
                         ia_severity := "low"; ia_category := "email";
                         ia_isRead := Some true; ia_metadata := None |}
                      (Storage.constructor 0)))) in
  0 <= 1
  /\ map alert_title (getAlerts (Some 1) (Some false) st) = ["b"]
  /\ lists_newest alert_createdAt 1 (JsMap.values (alerts st))
                  (getAlerts (Some 1) (Some false) st).
Proof.
  intros st. assert (H : 0 <= 1) by lia.
  split; [exact H|]. split; [reflexivity|].
  exact (proj1 (getAlerts_lists_the_newest_first st 1 false H)).
Defined.

(** X7.  A negative limit is not refused and does not give an empty list:
  [getAlerts(-k)] lists all alerts but the [k] oldest ones ([slice] counts a
  negative end from the end of the array). *)
Theorem getAlerts_negative_limit_drops_the_oldest :
  forall (st : MemStorage) (k : Z) (unreadOnly : bool),
    0 < k ->
    let all :=
      getAlerts (Some (Z.of_nat (JsMap.size (alerts st)))) (Some unreadOnly)
                st in
    getAlerts (Some (- k)) (Some unreadOnly) st
    = firstn (List.length all - Z.to_nat k) all.
Proof.
  intros st k unreadOnly Hk all. unfold all, getAlerts. simpl.
  set (l := if unreadOnly then _ else _).
  rewrite slice_negative by assumption.
  rewrite slice_from_0 by lia. rewrite Nat2Z.id.
  assert (Hlen : (List.length (sort (newest_first alert_createdAt) l)
                  <= JsMap.size (alerts st))%nat).
  { rewrite sort_length. unfold l, JsMap.size, JsMap.values.
    destruct unreadOnly.
    - etransitivity; [apply filter_length_le|]. now rewrite length_map.
    - now rewrite length_map. }
  rewrite (firstn_all2 _ Hlen). reflexivity.
Qed.

Lemma getAlerts_negative_limit_drops_the_oldest_witness :
  let st := snd (createAlert 9
                   {| ia_title := "b"; ia_description := "d";
                      ia_severity := "high"; ia_category := "email";
                      ia_isRead := Some false; ia_metadata := None |}
              (snd (createAlert 5
                      {| ia_title := "a"; ia_description := "d";
                         ia_severity := "low"; ia_category := "email";
                         ia_isRead := Some false; ia_metadata := None |}
                      (Storage.constructor 0)))) in
  0 < 1
  /\ map alert_title (getAlerts (Some (-1)) (Some false) st) = ["b"]
  /\ getAlerts (Some (- 1)) (Some false) st
     = firstn (List.length (getAlerts (Some 2) (Some false) st) - 1)
              (getAlerts (Some 2) (Some false) st).
Proof.
  intros st. assert (H : 0 < 1) by lia.
  split; [exact H|]. split; [reflexivity|].
  exact (getAlerts_negative_limit_drops_the_oldest st 1 false H).
Defined.

(** X8.  [getThreats(limit, offset)] pages through the threats, newest
  first: the page at [offset] followed by the page at [offset + limit] is
  the page of twice the size at [offset], a page holds [limit] threats until
  the threats run out, and only stored threats are listed.  Without
  arguments the page is the first 50. *)
Theorem getThreats_pages_tile :
  forall (st : MemStorage) (limit offset : Z),
    0 <= limit -> 0 <= offset ->
    getThreats (Some limit) (Some offset) st
    ++ getThreats (Some limit) (Some (offset + limit)) st
    = getThreats (Some (2 * limit)) (Some offset) st
    /\ List.length (getThreats (Some limit) (Some offset) st)
       = Nat.min (Z.to_nat limit) (JsMap.size (threats st) - Z.to_nat offset)
    /\ lists_newest threat_detectedAt (Z.to_nat limit)
                    (JsMap.values (threats st))
                    (getThreats (Some limit) (Some 0) st)
    /\ (forall t, In t (getThreats (Some limit) (Some offset) st) ->
                  In t (JsMap.values (threats st)))
    /\ getThreats None None st = getThreats (Some 50) (Some 0) st.
Proof.
  intros st limit offset Hl Ho. unfold getThreats, or_default.
  set (l := sort (newest_first threat_detectedAt) (JsMap.values (threats st))).
  split; [|split; [|split; [|split; [|reflexivity]]]].
  - rewrite !slice_window by lia.
    replace (Z.to_nat (offset + limit))
      with (Z.to_nat limit + Z.to_nat offset)%nat by lia.
    rewrite <- skipn_skipn.
    rewrite firstn_more. f_equal. lia.
  - rewrite slice_window by lia.
    rewrite length_firstn, length_skipn. unfold l.
    rewrite sort_length. unfold JsMap.size, JsMap.values.
    now rewrite length_map.
  - now apply newest_listing.
  - intros t Ht. apply slice_incl in Ht.
    eapply Permutation_in; [apply sort_perm|exact Ht].
Qed.


Lemma getThreats_pages_tile_witness :
  let threat := {| it_type := "phishing"; it_severity := "high";
                   it_source := "email_analysis"; it_description := "d";
                   it_metadata := None; it_status := None |} in
  let st := snd (createThreat 7 threat
              (snd (createThreat 5 threat
                 (snd (createThreat 3 threat (Storage.constructor 0)))))) in
  0 <= 1 /\ 0 <= 1
  /\ map threat_id (getThreats (Some 1) (Some 1) st) = [2]
  /\ getThreats (Some 1) (Some 1) st ++ getThreats (Some 1) (Some (1 + 1)) st
     = getThreats (Some (2 * 1)) (Some 1) st.
Proof.
  intros threat st. assert (H : 0 <= 1) by lia.
  split; [exact H|]. split; [exact H|]. split; [reflexivity|].
  exact (proj1 (getThreats_pages_tile st 1 1 H H)).
Defined.

End Listings.

Section HoneypotQueries.

Import JsArray Queries ArrayFacts Listing QueryFacts Invariants OrderFacts.

Variable analyzeEmail : string -> PhishingDetectionResult.
Variable numToString : Q -> string.

Local Arguments String.append : simpl never.

Lemma count_by_service s (logs : list HoneypotLog) :
  List.length (of_service s logs) = count_service s (map hl_service logs).
Proof.
  unfold of_service, count_service.
  induction logs as [|l logs IH]; simpl; auto.
  rewrite (String.eqb_sym s). destruct (String.eqb (hl_service l) s); simpl;
    now rewrite IH.
Qed.

Lemma count_three_services (l : list string) :
  (count_service "ssh" l + count_service "http" l + count_service "ftp" l
   <= List.length l)%nat.
Proof.
  unfold count_service.
  induction l as [|s l IH]; cbn [filter List.length]; auto.
  destruct (String.eqb_spec "ssh" s) as [E1|E1];
    destruct (String.eqb_spec "http" s) as [E2|E2];
    destruct (String.eqb_spec "ftp" s) as [E3|E3];
    try (rewrite <- E1 in *; discriminate);
    try (rewrite <- E2 in *; discriminate);
    cbn [List.length]; lia.
Qed.

Lemma values_set_fresh {V} (id_of : V -> Z) (m : JsMap.t V) next v :
  in_order id_of m next ->
  JsMap.values (JsMap.set next v m) = JsMap.values m ++ [v].
Proof.
  intros H. rewrite JsMapFacts.set_absent.
  - unfold JsMap.values. now rewrite map_app.
  - destruct (JsMap.get next m) eqn:E; auto.
    assert (Hn : JsMap.get next m <> None) by congruence.
    apply (in_order_get id_of m next next H) in Hn. lia.
Qed.

Lemma handle_logs_services e w :
  stored_in_order (db w) ->
  map hl_service
      (JsMap.values
         (honeypotLogs (db (Server.handle analyzeEmail numToString e w))))
  = map hl_service (JsMap.values (honeypotLogs (db w)))
    ++ attacked_services [e].
Proof.
  intros H.
  assert (Hview : forall w',
             honeypot_view w' = honeypot_view w ->
             map hl_service (JsMap.values (honeypotLogs (db w')))
             = map hl_service (JsMap.values (honeypotLogs (db w))) ++ []).
  { intros w' E. rewrite app_nil_r.
    apply (f_equal (fun v => fst (fst v))) in E. simpl in E. now rewrite E. }
  destruct e; cbn [Server.handle attacked_services flat_map app].
  - apply Hview, email_keeps_honeypot.
  - apply Hview, deepfake_keeps_honeypot.
  - apply Hview, alerts_read_keeps_honeypot.
  - apply Hview. reflexivity.
  - destruct H as (_ & _ & _ & Hh & _).
    unfold Server.submit_attack, Server.logAttack, Server.on_attack,
      Server.bump_stats, exec, eval, bind, store, query, emit, ret,
      Run.broadcast, getSystemStats.
    simpl.
    destruct (String.eqb (service attack) "ssh"
              && Server.is_high_or_critical (severity attack))%bool;
      destruct (Server.is_high_or_critical (severity attack));
      destruct (systemStats (db w)) as [s|] eqn:E; simpl; rewrite ?E; simpl;
      rewrite ?E; simpl;
      rewrite (values_set_fresh hl_id _ _ _ Hh), map_app; reflexivity.
  - apply Hview. unfold Server.stats_tick, exec, bind, query, ret,
      Run.broadcast, getSystemStats. simpl.
    destruct (systemStats (db w)); reflexivity.
  - apply Hview. reflexivity.
  - apply Hview. reflexivity.
  - apply Hview. reflexivity.
Qed.

Lemma run_logs_services es : forall w,
  stored_in_order (db w) ->
  map hl_service
      (JsMap.values
         (honeypotLogs (db (Server.run analyzeEmail numToString es w))))
  = map hl_service (JsMap.values (honeypotLogs (db w)))
    ++ attacked_services es.
Proof.
  induction es as [|e es IH]; intros w H; simpl.
  - now rewrite app_nil_r.
  - change (Server.run analyzeEmail numToString (e :: es) w)
      with (Server.run analyzeEmail numToString es
              (Server.handle analyzeEmail numToString e w)).
    rewrite IH by now apply handle_keeps_order.
    rewrite handle_logs_services by assumption.
    rewrite <- app_assoc. unfold attacked_services. simpl.
    now rewrite app_nil_r.
Qed.

(** X9.  In every state of the running server the stored honeypot logs are
  the attacks submitted so far, one log for each in the order of submission,
  and [getHoneypotStats] answers, for ssh, http and ftp, the number of
  submitted attacks on that service; attacks on any other service are logged
  but counted under none of the three. *)
Theorem getHoneypotStats_counts_attacks_by_service :
  forall (t0 : Z) (es : list Server.Event),
    let st := db (Server.run analyzeEmail numToString es (boot t0)) in
    map hl_service (JsMap.values (honeypotLogs st)) = attacked_services es
    /\ getHoneypotStats st
       = {| hs_ssh := count_service "ssh" (attacked_services es);
            hs_http := count_service "http" (attacked_services es);
            hs_ftp := count_service "ftp" (attacked_services es) |}
    /\ (hs_ssh (getHoneypotStats st) + hs_http (getHoneypotStats st)
        + hs_ftp (getHoneypotStats st)
        <= JsMap.size (honeypotLogs st))%nat.
Proof.
  intros t0 es st.
  assert (E : map hl_service (JsMap.values (honeypotLogs st))
              = attacked_services es).
  { unfold st. rewrite run_logs_services by apply boot_in_order.
    reflexivity. }
  assert (Hs : getHoneypotStats st
       = {| hs_ssh := count_service "ssh" (attacked_services es);
            hs_http := count_service "http" (attacked_services es);
            hs_ftp := count_service "ftp" (attacked_services es) |}).
  { unfold getHoneypotStats. rewrite <- E.
    rewrite <- !count_by_service. reflexivity. }
  split; [exact E|]. split; [exact Hs|].
  rewrite Hs. simpl. unfold JsMap.size.
  replace (List.length (honeypotLogs st))
    with (List.length (attacked_services es))
    by (rewrite <- E; unfold JsMap.values; now rewrite !length_map).
  apply count_three_services.
Qed.

End HoneypotQueries.

Section LogListings.

Import JsArray Queries ArrayFacts Listing QueryFacts Invariants.

(** X10.  [getHoneypotLogs(limit, service)] with a limit that is not
  negative lists the newest logs first; with a service it lists only logs of
  that service, as many as [getHoneypotStats] counts for it when the limit
  allows; the empty string as service filters nothing, like no service at
  all.  Without arguments the limit is 100. *)
Theorem getHoneypotLogs_filters_by_service :
  forall (st : MemStorage) (limit : Z) (service : string),
    0 <= limit ->
    let stored := JsMap.values (honeypotLogs st) in
    (service <> "" ->
     lists_newest hl_detectedAt (Z.to_nat limit) (of_service service stored)
                  (getHoneypotLogs (Some limit) (Some service) st)
     /\ forall log, In log (getHoneypotLogs (Some limit) (Some service) st) ->
                    In log stored /\ hl_service log = service)
    /\ getHoneypotLogs (Some limit) (Some "") st
       = getHoneypotLogs (Some limit) None st
    /\ lists_newest hl_detectedAt (Z.to_nat limit) stored
                    (getHoneypotLogs (Some limit) None st)
    /\ List.length (getHoneypotLogs (Some limit) (Some "ssh") st)
       = Nat.min (Z.to_nat limit) (hs_ssh (getHoneypotStats st))
    /\ getHoneypotLogs None None st = getHoneypotLogs (Some 100) None st.
Proof.
  intros st limit service Hl stored.
  split; [|split; [reflexivity|split; [|split; [|reflexivity]]]].
  - intros Hs. unfold getHoneypotLogs, given.
    destruct (String.eqb_spec service "") as [->|_]; [congruence|].
    fold stored. fold (of_service service stored). simpl. split.
    + now apply newest_listing.
    + intros log Hin. apply newest_listing_in in Hin.
      apply filter_In in Hin. destruct Hin as (Hin & E).
      split; [exact Hin|]. now apply String.eqb_eq.
  - unfold getHoneypotLogs. simpl. now apply newest_listing.
  - unfold getHoneypotLogs. simpl. fold stored.
    fold (of_service "ssh" stored).
    apply (newest_listing hl_detectedAt (of_service "ssh" stored) limit Hl).
Qed.

Lemma getHoneypotLogs_filters_by_service_witness :
  let log s := {| ih_service := s; ih_sourceIp := "203.0.113.7";
                  ih_attackType := "Brute Force"; ih_severity := "high";
                  ih_port := 22; ih_payload := None; ih_location := None |} in
  let st := snd (createHoneypotLog 7 (log "http")
              (snd (createHoneypotLog 5 (log "ssh")
                 (snd (createHoneypotLog 3 (log "ssh")
                         (Storage.constructor 0)))))) in
  0 <= 5 /\ "ssh" <> ""
  /\ map hl_id (getHoneypotLogs (Some 5) (Some "ssh") st) = [2; 1]
  /\ forall l, In l (getHoneypotLogs (Some 5) (Some "ssh") st) ->
               In l (JsMap.values (honeypotLogs st)) /\ hl_service l = "ssh".
Proof.
  intros log st. assert (H : 0 <= 5) by lia.
  assert (Hs : "ssh" <> "") by discriminate.
  split; [exact H|]. split; [exact Hs|]. split; [reflexivity|].
  exact (proj2 (proj1 (getHoneypotLogs_filters_by_service st 5 "ssh" H) Hs)).
Defined.

(** X11.  The two analysis histories, [getPhishingAnalyses(limit)] and
  [getDeepfakeAnalyses(limit)], list the [limit] newest analyses, newest
  first and analyses of the same time in the order they were stored; without
  an argument the limit is 50. *)
Theorem analysis_histories_list_the_newest_first :
  forall (st : MemStorage) (limit : Z),
    0 <= limit ->
    lists_newest pa_analyzedAt (Z.to_nat limit)
                 (JsMap.values (phishingAnalyses st))
                 (getPhishingAnalyses (Some limit) st)
    /\ lists_newest da_analyzedAt (Z.to_nat limit)
                    (JsMap.values (deepfakeAnalyses st))
                    (getDeepfakeAnalyses (Some limit) st)
    /\ getPhishingAnalyses None st = getPhishingAnalyses (Some 50) st
    /\ getDeepfakeAnalyses None st = getDeepfakeAnalyses (Some 50) st.
Proof.
  intros st limit Hl. unfold getPhishingAnalyses, getDeepfakeAnalyses.
  cbn [or_default].
  split; [now apply newest_listing|].
  split; [now apply newest_listing|]. split; reflexivity.
Qed.

Lemma analysis_histories_list_the_newest_first_witness :
  let analysis s := {| ip_content := "text"; ip_score := s;
                       ip_confidence := 78; ip_suspiciousLinks := None;
                       ip_indicators := None |} in
  let st := snd (createPhishingAnalysis 7 (analysis 15%Q)
              (snd (createPhishingAnalysis 7 (analysis 30%Q)
                 (snd (createPhishingAnalysis 3 (analysis 45%Q)
                         (Storage.constructor 0)))))) in
  0 <= 2
  /\ map pa_id (getPhishingAnalyses (Some 2) st) = [2; 3]
  /\ lists_newest pa_analyzedAt 2 (JsMap.values (phishingAnalyses st))
                  (getPhishingAnalyses (Some 2) st).
Proof.
  intros analysis st. assert (H : 0 <= 2) by lia.
  split; [exact H|]. split; [reflexivity|].
  exact (proj1 (analysis_histories_list_the_newest_first st 2 H)).
Defined.

End LogListings.
Section ThreatStatus.

Import Queries Invariants OrderFacts.

Lemma values_set_same_image {V B} (f : V -> B) (m : JsMap.t V) k v0 v :
  JsMap.get k m = Some v0 -> f v = f v0 ->
  map f (JsMap.values (JsMap.set k v m)) = map f (JsMap.values m).
Proof.
  intros Hg Hf.
  destruct (JsMapFacts.set_present m k v0 v Hg) as (m1 & m2 & -> & ->).
  unfold JsMap.values. rewrite !map_app. simpl. now rewrite Hf.
Qed.

Lemma filter_set_same_image {V} (p : V -> bool) (m : JsMap.t V) k v0 v :
  JsMap.get k m = Some v0 -> p v = p v0 ->
  List.length (filter p (JsMap.values (JsMap.set k v m)))
  = List.length (filter p (JsMap.values m)).
Proof.
  intros Hg Hp.
  destruct (JsMapFacts.set_present m k v0 v Hg) as (m1 & m2 & -> & ->).
  unfold JsMap.values. rewrite !map_app, !filter_app, !length_app.
  cbn [map filter snd]. rewrite Hp. now destruct (p v0).
Qed.

(** X12.  [updateThreatStatus(id, status)] changes the status of the threat
  with that id and nothing else: the other fields of the threat, the other
  threats, the order of the map, the id counter, the alerts and the
  statistics stay as they were, so [activeThreats] is not lowered when a
  threat is resolved or dismissed.  For an id that names no threat the call
  changes nothing and reports nothing. *)
Theorem updateThreatStatus_changes_only_the_status :
  forall (st : MemStorage) (id : Z) (status : string),
    let st' := updateThreatStatus id status st in
    (JsMap.get id (threats st) = None -> st' = st)
    /\ (forall t, JsMap.get id (threats st) = Some t ->
          JsMap.get id (threats st') = Some (set_status status t)
          /\ JsMap.keys (threats st') = JsMap.keys (threats st)
          /\ (forall ty, List.length (getThreatsByType ty st')
                         = List.length (getThreatsByType ty st)))
    /\ (forall id', id' <> id ->
                    JsMap.get id' (threats st') = JsMap.get id' (threats st))
    /\ systemStats st' = systemStats st
    /\ alerts st' = alerts st
    /\ currentThreatId st' = currentThreatId st
    /\ (stored_in_order st -> stored_in_order st').
Proof.
  intros st id status st'. unfold st', updateThreatStatus.
  destruct (JsMap.get id (threats st)) as [t|] eqn:E.
  - split; [discriminate|].
    split; [|split; [|split; [|split; [|split]]]]; try reflexivity.
    + intros t' [= <-]. simpl. split; [apply JsMapFacts.get_set_same|].
      split.
      * destruct (JsMapFacts.set_present _ _ _ (set_status status t) E)
          as (m1 & m2 & E1 & E2).
        rewrite E2, E1. unfold JsMap.keys. now rewrite !map_app.
      * intros ty. unfold getThreatsByType. simpl.
        now apply filter_set_same_image with (v0 := t).
    + intros id' Hne. simpl. apply JsMapFacts.get_set_other. congruence.
    + intros (Ht & Hrest). split; [|exact Hrest]. simpl.
      eapply in_order_replace; eauto. simpl.
      eapply in_order_id; eauto.
  - split; [reflexivity|]. split; [discriminate|].
    split; [|split; [|split; [|split]]]; auto.
Qed.

Lemma updateThreatStatus_changes_only_the_status_witness :
  let st := snd (createThreat 3
                   {| it_type := "phishing"; it_severity := "high";
                      it_source := "email_analysis"; it_description := "d";
                      it_metadata := None; it_status := None |}
                   (Storage.constructor 0)) in
  option_map threat_status (JsMap.get 1 (threats st)) = Some "active"
  /\ option_map threat_status
       (JsMap.get 1 (threats (updateThreatStatus 1 "resolved" st)))
     = Some "resolved"
  /\ updateThreatStatus 2 "resolved" st = st.
Proof.
  intros st. split; [reflexivity|]. split.
  - destruct (JsMap.get 1 (threats st)) as [t|] eqn:E; [|discriminate].
    rewrite (proj1 (proj1 (proj2
               (updateThreatStatus_changes_only_the_status st 1 "resolved"))
               t E)).
    reflexivity.
  - exact (proj1 (updateThreatStatus_changes_only_the_status st 2 "resolved")
                 eq_refl).
Defined.

End ThreatStatus.

(* ------------------------------------------------------------------ *)
(** ** Users                                                           *)
(* ------------------------------------------------------------------ *)

Section UserFacts.

Import Users Invariants OrderFacts.

Lemma createUser_keeps_order ins st :
  in_order user_id (users st) (currentUserId st) ->
  in_order user_id (users (snd (createUser ins st)))
           (currentUserId (snd (createUser ins st))).
Proof.
  intros H. simpl. now apply in_order_insert.
Qed.

Lemma fold_keeps_order l : forall st,
  in_order user_id (users st) (currentUserId st) ->
  in_order user_id
    (users (fold_left (fun st ins => snd (createUser ins st)) l st))
    (currentUserId (fold_left (fun st ins => snd (createUser ins st)) l st)).
Proof.
  induction l as [|ins l IH]; intros st H; simpl; auto.
  apply IH. now apply createUser_keeps_order.
Qed.

Lemma create_all_in_order l :
  in_order user_id (users (create_all l)) (currentUserId (create_all l)).
Proof.
  apply fold_keeps_order. apply in_order_empty.
Qed.

Lemma create_all_snoc l ins :
  create_all (l ++ [ins]) = snd (createUser ins (create_all l)).
Proof.
  unfold create_all. now rewrite fold_left_app.
Qed.

Lemma create_all_size l : JsMap.size (users (create_all l)) = List.length l.
Proof.
  induction l as [|x l IH] using rev_ind; [reflexivity|].
  rewrite create_all_snoc. simpl.
  pose proof (create_all_in_order l) as Hl.
  rewrite (JsMapFacts.set_absent (users (create_all l))).
  - unfold JsMap.size in *. rewrite !length_app, IH. simpl. lia.
  - apply JsMapFacts.get_above. eapply in_order_fresh; eauto.
Qed.

Lemma find_app_some {A} (p : A -> bool) l1 l2 x :
  find p l1 = Some x -> find p (l1 ++ l2) = Some x.
Proof.
  induction l1 as [|y l1 IH]; simpl; [discriminate|].
  destruct (p y); auto.
Qed.

Lemma find_app_none {A} (p : A -> bool) l1 l2 :
  find p l1 = None -> find p (l1 ++ l2) = find p l2.
Proof.
  induction l1 as [|y l1 IH]; simpl; auto.
  destruct (p y); [discriminate|auto].
Qed.

(** X13.  Users get the ids 1, 2, ... in the order of creation and
  [getUser] finds each by its id.  [createUser] does not check the user
  name: a second user with a taken name is stored under a new id and can be
  read by id, but [getUserByUsername] keeps answering the user who had the
  name first; for a name that is new it answers the created user. *)
Theorem createUser_accepts_taken_names :
  forall (l : list InsertUser) (ins : InsertUser),
    let st := create_all l in
    let user := fst (createUser ins st) in
    let st' := snd (createUser ins st) in
    user_id user = Z.of_nat (List.length l) + 1
    /\ username user = iu_username ins
    /\ password user = iu_password ins
    /\ getUser (user_id user) st' = Some user
    /\ JsMap.size (users st') = S (List.length l)
    /\ (forall id u, getUser id st = Some u -> getUser id st' = Some u)
    /\ (forall first,
           getUserByUsername (iu_username ins) st = Some first ->
           getUserByUsername (iu_username ins) st' = Some first
           /\ user_id first < user_id user)
    /\ (getUserByUsername (iu_username ins) st = None ->
        getUserByUsername (iu_username ins) st' = Some user)
    /\ (forall name, name <> iu_username ins ->
                     getUserByUsername name st' = getUserByUsername name st).
Proof.
  intros l ins st user st'.
  assert (H : in_order user_id (users st) (currentUserId st))
    by apply create_all_in_order.
  assert (Hsize : JsMap.size (users st) = List.length l)
    by apply create_all_size.
  assert (Hnext : currentUserId st = Z.of_nat (List.length l) + 1).
  { destruct H as (_ & _ & Hn). now rewrite Hn, Hsize. }
  assert (Hvals : JsMap.values (users st')
                  = JsMap.values (users st) ++ [user]).
  { unfold st'. simpl. now apply (values_set_fresh user_id). }
  split; [exact Hnext|]. split; [reflexivity|]. split; [reflexivity|].
  split; [apply JsMapFacts.get_set_same|].
  split.
  { unfold JsMap.size in *. unfold JsMap.values in Hvals.
    rewrite <- (length_map snd), Hvals, length_app, length_map, Hsize.
    simpl. lia. }
  split.
  { intros id u Hu. unfold getUser, st'. simpl.
    eapply get_insert_old; eauto. }
  split.
  { intros first Hf. unfold getUserByUsername in *. rewrite Hvals. split.
    - now apply find_app_some.
    - apply find_some in Hf. destruct Hf as (Hin & _).
      unfold JsMap.values in Hin. apply in_map_iff in Hin.
      destruct Hin as ([k u] & Hu & Hin). simpl in Hu. subst u.
      pose proof (in_order_fresh user_id _ _ H) as Hfresh.
      rewrite Forall_forall in Hfresh.
      assert (Hk : k < currentUserId st)
        by (apply Hfresh; unfold JsMap.keys; apply in_map_iff;
            exists (k, first); auto).
      assert (Hid : map user_id (JsMap.values (users st))
                    = JsMap.keys (users st)) by apply H.
      assert (Hkid : In (k, first) (users st) -> user_id first = k).
      { clear - Hid. unfold JsMap.values, JsMap.keys in Hid.
        revert Hid. induction (users st) as [|[k0 u0] m IH]; simpl;
          [tauto|].
        intros [= E1 E2] [[= -> ->]|Hin']; auto. }
      rewrite (Hkid Hin). exact Hk. }
  split.
  { intros Hn. unfold getUserByUsername in *. rewrite Hvals.
    rewrite find_app_none by assumption. simpl.
    now rewrite String.eqb_refl. }
  intros name Hne. unfold getUserByUsername. rewrite Hvals.
  destruct (find _ (JsMap.values (users st))) as [u|] eqn:E.
  - now apply find_app_some.
  - rewrite find_app_none by assumption. simpl.
    destruct (String.eqb_spec (iu_username ins) name); [congruence|].
    reflexivity.
Qed.

End UserFacts.
(* ------------------------------------------------------------------ *)
(** ** The wire of the running server                                  *)
(* ------------------------------------------------------------------ *)

Section WireFacts.

Import Notifier NotifierFacts Wiring.

Variable analyzeEmail : string -> PhishingDetectionResult.
Variable numToString : Q -> string.

Local Arguments String.append : simpl never.

Ltac wire_step :=
  eexists; split;
  [ simpl; repeat rewrite <- app_assoc; simpl; reflexivity
  | split;
    [ simpl; rewrite ?fold_send; unfold frames_of; simpl;
      rewrite ?app_nil_r; reflexivity
    | split; [reflexivity | simpl; lia] ] ].

Lemma handle_wire e w :
  is_socket_event e = false ->
  exists tr,
    trace (Server.handle analyzeEmail numToString e w) = trace w ++ tr
    /\ wire (net (Server.handle analyzeEmail numToString e w))
       = wire (net w) ++ frames_of (net w) (broadcasts tr)
    /\ wsClients (net (Server.handle analyzeEmail numToString e w))
       = wsClients (net w)
    /\ (List.length (broadcasts tr) <= 1)%nat.
Proof.
  intros He. destruct e; try discriminate He; cbn [Server.handle].
  - unfold Server.analyze_email.
    destruct (negb (Js.truthy content) || negb (Js.is_string content))%bool;
      [exists []; simpl; rewrite !app_nil_r; auto|].
    unfold Server.bump_stats, exec, eval, bind, store, query, emit, ret,
      Run.broadcast, getSystemStats.
    simpl.
    destruct (Qle_bool 70 (score (analyzeEmail (Server.text_of content))));
      simpl; [destruct (systemStats (db w)) eqn:E; simpl; rewrite ?E; simpl|];
      wire_step.
  - unfold Server.analyze_deepfake. destruct file as [f|];
      [|exists []; simpl; rewrite !app_nil_r; auto].
    destruct (negb (String.prefix "image/" (Server.mimetype f))
              && negb (String.prefix "video/" (Server.mimetype f)))%bool;
      [exists []; simpl; rewrite !app_nil_r; auto|].
    unfold Server.bump_stats, exec, eval, bind, store, query, emit, ret,
      Run.broadcast, getSystemStats.
    simpl.
    destruct (isDeepfake result && Qle_bool 80 (df_confidence result))%bool;
      simpl; [destruct (systemStats (db w)) eqn:E; simpl; rewrite ?E; simpl|];
      wire_step.
  - destruct id as [n|]; [|exists []; simpl; rewrite !app_nil_r; auto].
    unfold Server.alerts_read, exec, bind, store, ret. wire_step.
  - exists []. simpl. rewrite !app_nil_r. auto.
  - unfold Server.submit_attack, Server.logAttack, Server.on_attack,
      Server.bump_stats, exec, eval, bind, store, query, emit, ret,
      Run.broadcast, getSystemStats.
    simpl.
    destruct (String.eqb (service attack) "ssh"
              && Server.is_high_or_critical (severity attack))%bool;
      destruct (Server.is_high_or_critical (severity attack));
      destruct (systemStats (db w)) as [s|] eqn:E; simpl; rewrite ?E; simpl;
      rewrite ?E; simpl; wire_step.
  - unfold Server.stats_tick, exec, bind, query, ret, Run.broadcast,
      getSystemStats.
    simpl. destruct (systemStats (db w)); [wire_step|].
    exists []. simpl. rewrite !app_nil_r. auto.
Qed.


Lemma ids_of_add ws l id :
  In id (map ws_id (add ws l)) -> In id (map ws_id l) \/ id = ws_id ws.
Proof.
  unfold add. destruct (has (ws_id ws) l); auto.
  rewrite map_app, in_app_iff. simpl. intuition.
Qed.

Lemma has_spec id l : has id l = true <-> In id (map ws_id l).
Proof.
  unfold has. rewrite existsb_exists, in_map_iff. split.
  - intros (c & Hin & E). exists c. split; auto. now apply Z.eqb_eq.
  - intros (c & E & Hin). exists c. split; auto. now apply Z.eqb_eq.
Qed.

Lemma add_NoDup ws l :
  NoDup (map ws_id l) -> NoDup (map ws_id (add ws l)).
Proof.
  intros H. unfold add. destruct (has (ws_id ws) l) eqn:E; auto.
  rewrite map_app. simpl.
  apply NoDup_app; [assumption|repeat constructor; simpl; tauto|].
  intros id Hin [<-|[]]. apply has_spec in Hin. congruence.
Qed.

Lemma ids_of_set_state id s n :
  map ws_id (wsClients (set_state id s n)) = map ws_id (wsClients n).
Proof.
  unfold set_state. simpl. rewrite map_map. apply map_ext.
  intros c. now destruct (Z.eqb (ws_id c) id).
Qed.

Lemma delete_NoDup id l :
  NoDup (map ws_id l) -> NoDup (map ws_id (delete id l)).
Proof.
  unfold delete. induction l as [|c l IH]; simpl; auto.
  intros H. inversion H as [|? ? Hn Hl]; subst.
  destruct (negb (Z.eqb (ws_id c) id)); simpl; auto.
  constructor; auto. intros Hin. apply Hn.
  apply in_map_iff in Hin. destruct Hin as (c' & E & Hin).
  apply filter_In in Hin. apply in_map_iff. exists c'. tauto.
Qed.

Lemma ids_of_delete id l x :
  In x (map ws_id (delete id l)) -> In x (map ws_id l).
Proof.
  intros Hin. apply in_map_iff in Hin. destruct Hin as (c & E & Hin).
  apply in_delete in Hin. apply in_map_iff. exists c. tauto.
Qed.

Lemma frames_to_subscribers n ms d :
  In d (frames_of n ms) -> In (to d) (map ws_id (wsClients n)).
Proof.
  unfold frames_of. rewrite in_flat_map. intros (m & _ & Hin).
  apply in_map_iff in Hin. destruct Hin as (c & <- & Hc).
  apply filter_In in Hc. simpl. apply in_map. tauto.
Qed.

Lemma handle_served e w ids :
  served ids (net w) ->
  served (ids ++ connected [e])
         (net (Server.handle analyzeEmail numToString e w)).
Proof.
  intros (Hnd & Hc & Hw).
  destruct (is_socket_event e) eqn:He.
  - destruct e; try discriminate He; cbn [Server.handle connected flat_map];
      unfold Server.on_net, served; cbn [net].
    + unfold on_connection; cbn [wsClients wire].
      split; [now apply add_NoDup|]. split.
      * intros id Hin. apply in_app_iff.
        apply ids_of_add in Hin. destruct Hin as [Hin| ->]; simpl; auto.
      * intros d Hd. apply in_app_iff. auto.
    + rewrite app_nil_r, ids_of_set_state. split; [assumption|].
      split; [assumption|exact Hw].
    + rewrite app_nil_r. unfold on_close; cbn [wsClients wire].
      split; [now apply delete_NoDup|]. split; auto.
      intros x Hx. apply Hc. eapply ids_of_delete; eauto.
  - destruct (handle_wire e w He) as (tr & _ & Hwire & Hcl & _).
    assert (E : connected [e] = []) by (destruct e; auto; discriminate He).
    rewrite E, app_nil_r. split; [now rewrite Hcl|].
    split; [now rewrite Hcl|].
    intros d Hd. rewrite Hwire in Hd. apply in_app_iff in Hd.
    destruct Hd as [Hd|Hd]; auto.
    apply Hc. eapply frames_to_subscribers; eauto.
Qed.

Lemma run_served es : forall w ids,
  served ids (net w) ->
  served (ids ++ connected es)
         (net (Server.run analyzeEmail numToString es w)).
Proof.
  induction es as [|e es IH]; intros w ids H.
  - simpl. now rewrite app_nil_r.
  - change (Server.run analyzeEmail numToString (e :: es) w)
      with (Server.run analyzeEmail numToString es
              (Server.handle analyzeEmail numToString e w)).
    replace (ids ++ connected (e :: es))
      with ((ids ++ connected [e]) ++ connected es).
    + apply IH. now apply handle_served.
    + rewrite <- app_assoc. f_equal. unfold connected. simpl.
      now rewrite app_nil_r.
Qed.

(** X14.  A request, an attack or the timer sends nothing but its
  broadcasts: what its handler puts on the wire is, for each message it
  broadcasts, one frame for each subscriber that is open when the handler
  starts, in the order of the set; it broadcasts at most once and leaves the
  set of subscribers as it is.  A socket event (connection, state change,
  close) sends nothing and touches neither the store nor the trace. *)
Theorem handlers_send_only_their_broadcasts :
  forall (e : Server.Event) (w : World),
    let w' := Server.handle analyzeEmail numToString e w in
    (is_socket_event e = false ->
     sent_since (net w) (net w')
     = frames_of (net w) (broadcasts (effects_since w w'))
     /\ (List.length (broadcasts (effects_since w w')) <= 1)%nat
     /\ wsClients (net w') = wsClients (net w))
    /\ (is_socket_event e = true ->
        wire (net w') = wire (net w) /\ db w' = db w /\ trace w' = trace w).
Proof.
  intros e w w'. split; intros He.
  - destruct (handle_wire e w He) as (tr & Ht & Hwire & Hcl & Hone).
    unfold sent_since, effects_since, w'.
    rewrite Ht, Hwire, !skipn_exact. auto.
  - destruct e; try discriminate He; repeat split.
Qed.

(** X15.  In every state of the running server the subscribers are
  distinct sockets, each of which connected at some time, and every frame
  sent so far went to a socket that had connected: nothing is ever sent to
  a socket the server was not told of, and one broadcast sends a subscriber
  at most one frame. *)
Theorem frames_go_to_connected_sockets :
  forall (t0 : Z) (es : list Server.Event),
    let n := net (Server.run analyzeEmail numToString es (boot t0)) in
    NoDup (map ws_id (wsClients n))
    /\ (forall c, In c (wsClients n) -> In (ws_id c) (connected es))
    /\ (forall d, In d (wire n) -> In (to d) (connected es))
    /\ (forall data, NoDup (map to (sent_since n (broadcast data n)))).
Proof.
  intros t0 es n.
  assert (H : served ([] ++ connected es) n).
  { apply run_served. repeat split; simpl; try tauto. constructor. }
  simpl in H. destruct H as (Hnd & Hc & Hw).
  split; [exact Hnd|]. split; [|split; [exact Hw|]].
  - intros c Hin. apply Hc. now apply in_map.
  - intros data. rewrite sent_by_broadcast, map_map. simpl.
    clear - Hnd. induction (wsClients n) as [|c l IH]; simpl; [constructor|].
    simpl in Hnd. inversion Hnd as [|? ? Hn Hl]; subst.
    destruct (is_open c); simpl; auto.
    constructor; auto. intros Hin. apply Hn.
    apply in_map_iff in Hin. destruct Hin as (c' & E & Hin).
    apply filter_In in Hin. apply in_map_iff. exists c'. tauto.
Qed.

End WireFacts.

Lemma handlers_send_only_their_broadcasts_witness :
  let ws := {| Notifier.ws_id := 1; Notifier.readyState := Notifier.OPEN;
               Notifier.link_up := true |} in
  let w := Server.handle (Samples.classifier 95) Samples.show
             (Server.WsConnect ws) (boot 0) in
  let w' := Server.handle (Samples.classifier 95) Samples.show
              Server.StatsTick w in
  Wiring.is_socket_event Server.StatsTick = false
  /\ map Notifier.to (Notifier.sent_since (net w) (net w')) = [1]
  /\ Notifier.sent_since (net w) (net w')
     = Wiring.frames_of (net w) (broadcasts (effects_since w w')).
Proof.
  intros ws w w'. split; [reflexivity|]. split; [reflexivity|].
  exact (proj1 (proj1 (handlers_send_only_their_broadcasts
                         (Samples.classifier 95) Samples.show
                         Server.StatsTick w) eq_refl)).
Defined.
(* ------------------------------------------------------------------ *)
(** ** The honeypot path                                               *)
(* ------------------------------------------------------------------ *)

Section AttackPath.

Import Invariants.

Variable analyzeEmail : string -> PhishingDetectionResult.
Variable numToString : Q -> string.

Local Arguments String.append : simpl never.

Ltac attack_cases w attack :=
  unfold Server.submit_attack, Server.logAttack, Server.on_attack,
    Server.bump_stats, exec, eval, bind, store, query, emit, ret,
    Run.broadcast, getSystemStats;
  simpl;
  destruct (String.eqb (service attack) "ssh");
  destruct (Server.is_high_or_critical (severity attack));
  destruct (systemStats (db w)) as [?s|] eqn:?E; simpl; rewrite ?E; simpl;
  rewrite ?E; simpl.


Ltac before_broadcast :=
  let pre := fresh "pre" in
  let H := fresh "H" in
  intros pre ? ? H;
  repeat (destruct pre as [|? pre]; simpl in H;
          [ try discriminate H
          | injection H as ? H; subst ]);
  try (destruct pre; discriminate H);
  eexists; simpl; eauto 6.

(** X17.  On the honeypot path the order is the one the analysis routes do
  not keep: in every state of the running server an attack first stores its
  log, then updates the statistics, and only then broadcasts, so the one
  frame of the attack is never sent before [honeypotHits] was raised. *)
Theorem attack_updates_statistics_before_it_broadcasts :
  forall (t0 : Z) (es : list Server.Event) (now : Z)
         (location : option GeoLocation) (mailed : bool)
         (attack : HoneypotAttack),
    let w := Server.run analyzeEmail numToString es (boot t0) in
    let w' := exec (Server.submit_attack now location mailed attack) w in
    stats_updated_before_broadcast (effects_since w w')
    /\ List.length (broadcasts (effects_since w w')) = 1%nat
    /\ List.length (stats_updates (effects_since w w')) = 1%nat
    /\ List.length (attacks_logged (effects_since w w')) = 1%nat.
Proof.
  intros t0 es now location mailed attack w w'.
  assert (Hs : stats_match_threats (db w)).
  { apply run_keeps_stats; [apply boot_in_order|apply boot_stats_match]. }
  destruct Hs as (s0 & Hs0 & _).
  unfold w'. revert Hs0. generalize w. clear. intros w Hs0.
  attack_cases w attack; try discriminate Hs0; trace_tail;
    (split; [before_broadcast|repeat split]).
Qed.

End AttackPath.
(* ------------------------------------------------------------------ *)
(** ** The single-file server                                          *)
(* ------------------------------------------------------------------ *)

Section SingleFileRuns.

Import Invariants OrderFacts SingleFileSpecs.

Variable numToString : Q -> string.
Variable percentFixed1 : Q -> string.

Local Arguments String.append : simpl never.
Local Arguments Z.add : simpl never.
Local Arguments Z.of_nat : simpl never.
Local Arguments JsMap.size : simpl never.
Local Arguments JsMap.set : simpl never.
Local Arguments JsMap.values : simpl never.

Lemma size_set_next {V} (id_of : V -> Z) (m : JsMap.t V) next v :
  in_order id_of m next -> JsMap.size (JsMap.set next v m) = S (JsMap.size m).
Proof.
  intros H. apply (JsMapFacts.size_set_fresh m next v).
  eapply in_order_fresh; eauto.
Qed.

Lemma single_mark_read_tracks k j n st :
  tracks k j st -> tracks k j (SingleFile.markAlertAsRead n st).
Proof.
  intros H. unfold SingleFile.markAlertAsRead.
  destruct (JsMap.get n (SingleFile.alerts st)) as [a|] eqn:E; [|exact H].
  destruct H as (Hl & Ha & Hk & Hj & Hall & Hrest).
  destruct (JsMapFacts.set_present _ _ _ (set_isRead true a) E)
    as (m1 & m2 & E1 & E2).
  split; [exact Hl|]. split; [|split; [exact Hk|split; [|split]]].
  - simpl. eapply in_order_replace; eauto. simpl.
    eapply in_order_id; eauto.
  - simpl. rewrite E2. rewrite E1 in Hj. unfold JsMap.size in *.
    rewrite length_app in *. exact Hj.
  - simpl. rewrite E2. rewrite E1 in Hall. unfold JsMap.values in *.
    rewrite map_app in *. simpl in *.
    apply Forall_app in Hall. destruct Hall as (H1 & H2).
    apply Forall_app. split; [exact H1|].
    inversion H2; subst. constructor; auto.
  - exact Hrest.
Qed.

Lemma single_handle_tracks e k j w :
  tracks k j (SingleFile.db w) ->
  tracks (k + (if is_attack e then 1 else 0))
         (j + (if alerting e then 1 else 0))
         (SingleFile.db (SingleFile.handle numToString percentFixed1 e w)).
Proof.
  intros H. destruct e; cbn [SingleFile.handle is_attack alerting];
    rewrite ?Nat.add_0_r; try exact H.
  - unfold SingleFile.phishing_analyze.
    destruct (negb (Js.truthy content)); [exact H|].
    destruct content; try exact H.
    unfold SingleFile.store. simpl.
    destruct (negb (Qle_bool (score result) 70)); simpl; exact H.
  - unfold SingleFile.deepfake_analyze.
    destruct (String.eqb fileName "" || String.eqb fileType ""
              || String.eqb fileData "")%bool; [exact H|].
    unfold SingleFile.store. simpl.
    destruct (isDeepfake result); simpl; exact H.
  - destruct id as [n|]; [|exact H]. simpl.
    now apply single_mark_read_tracks.
  - destruct H as (Hl & Ha & Hk & Hj & Hall & H1 & H2 & H3 & H4).
    unfold SingleFile.logAttack, SingleFile.store, SingleFile.emit,
      SingleFile.broadcast.
    cbn [SingleFile.createHoneypotLog SingleFile.db fst snd].
    destruct (String.eqb (service attack) "ssh"
              && existsb (String.eqb (severity attack))
                         ["high"; "critical"])%bool eqn:G.
    + cbn. unfold tracks. cbn.
      split; [now apply in_order_insert|].
      split; [now apply in_order_insert|].
      split; [rewrite (size_set_next hl_id) by assumption; lia|].
      split; [rewrite (size_set_next alert_id) by assumption; lia|].
      split.
      { rewrite (values_set_fresh alert_id) by assumption.
        apply Forall_app. split; [exact Hall|]. constructor; [|constructor].
        split; [reflexivity|]. split; [reflexivity|]. simpl.
        apply andb_true_iff in G. destruct G as (_ & G). simpl in G.
        rewrite orb_false_r in G. apply orb_true_iff in G.
        destruct G as [G|G]; apply String.eqb_eq in G; auto. }
      repeat split; auto. rewrite H4. lia.
    + cbn. unfold tracks. cbn.
      split; [now apply in_order_insert|].
      split; [assumption|].
      split; [rewrite (size_set_next hl_id) by assumption; lia|].
      split; [lia|]. split; [assumption|].
      repeat split; auto. rewrite H4. lia.
Qed.

Lemma single_run_tracks es : forall k j w,
  tracks k j (SingleFile.db w) ->
  tracks (k + count is_attack es) (j + count alerting es)
         (SingleFile.db (SingleFile.run numToString percentFixed1 es w)).
Proof.
  unfold count.
  induction es as [|e es IH]; intros k j w H.
  - simpl. now rewrite !Nat.add_0_r.
  - change (SingleFile.run numToString percentFixed1 (e :: es) w)
      with (SingleFile.run numToString percentFixed1 es
              (SingleFile.handle numToString percentFixed1 e w)).
    apply (single_handle_tracks e) in H. apply IH in H.
    cbn [filter].
    destruct (is_attack e); destruct (alerting e); cbn [List.length];
      match goal with
      | |- tracks ?a ?b _ =>
          match type of H with
          | tracks ?a' ?b' _ =>
              replace a with a' by lia; replace b with b' by lia
          end
      end; exact H.
Qed.

(** X18.  On the single-file server only the honeypot moves the store's
  counters and alerts.  In every state [activeThreats], [phishingBlocked]
  and [deepfakesDetected] still have their start values 7, 142 and 23,
  however many threats the analysis routes created, and [honeypotHits] is
  1847 plus the number of attacks, each of which left one log.  The alerts
  are exactly those of the ssh attacks of high or critical severity: one
  for each, all of category honeypot. *)
Theorem single_file_counters_follow_the_honeypot_only :
  forall (t0 : Z) (es : list SingleFile.Event),
    let st := SingleFile.db
                (SingleFile.run numToString percentFixed1 es
                                (SingleFile.boot t0)) in
    activeThreats (SingleFile.systemStats st) = 7
    /\ phishingBlocked (SingleFile.systemStats st) = 142
    /\ deepfakesDetected (SingleFile.systemStats st) = 23
    /\ honeypotHits (SingleFile.systemStats st)
       = 1847 + Z.of_nat (count is_attack es)
    /\ JsMap.size (SingleFile.honeypotLogs st) = count is_attack es
    /\ JsMap.size (SingleFile.alerts st) = count alerting es
    /\ Forall honeypot_alert (JsMap.values (SingleFile.alerts st)).
Proof.
  intros t0 es st.
  assert (H : tracks (0 + count is_attack es) (0 + count alerting es) st).
  { apply single_run_tracks. repeat split; constructor. }
  simpl in H. destruct H as (_ & _ & Hk & Hj & Hall & H1 & H2 & H3 & H4).
  repeat split; assumption.
Qed.

(** X19.  The single-file [getAlertCounts] counts alerts by severity
  whether they were read or not, so [markAlertAsRead] never changes a
  count; and since the server only ever raises alerts of high or critical
  severity, in every state the critical and high counts add up to the
  number of stored alerts and the medium and low counts are 0. *)
Theorem single_file_alert_counts_ignore_reading :
  (forall (st : SingleFile.MemoryStorage) (id : Z),
      SingleFile.getAlertCounts (SingleFile.markAlertAsRead id st)
      = SingleFile.getAlertCounts st)
  /\ forall (t0 : Z) (es : list SingleFile.Event),
      let st := SingleFile.db
                  (SingleFile.run numToString percentFixed1 es
                                  (SingleFile.boot t0)) in
      (critical (SingleFile.getAlertCounts st)
       + high (SingleFile.getAlertCounts st))%nat
      = JsMap.size (SingleFile.alerts st)
      /\ medium (SingleFile.getAlertCounts st) = 0%nat
      /\ low (SingleFile.getAlertCounts st) = 0%nat.
Proof.
  split.
  - intros st id. unfold SingleFile.markAlertAsRead.
    destruct (JsMap.get id (SingleFile.alerts st)) as [a|] eqn:E;
      [|reflexivity].
    unfold SingleFile.getAlertCounts. simpl.
    rewrite !(filter_set_same_image _ _ _ a (set_isRead true a) E)
      by reflexivity.
    reflexivity.
  - intros t0 es st.
    assert (H : tracks (0 + count is_attack es) (0 + count alerting es) st).
    { apply single_run_tracks. repeat split; constructor. }
    destruct H as (_ & _ & _ & _ & Hall & _).
    unfold SingleFile.getAlertCounts, JsMap.size. simpl.
    rewrite <- (length_map snd). fold (JsMap.values (SingleFile.alerts st)).
    induction Hall as [|a l (_ & _ & Hs) _ IH]; [repeat split|].
    unfold has_severity in *. cbn [filter List.length].
    destruct IH as (IH1 & IH2 & IH3).
    destruct Hs as [-> | ->]; cbn; repeat split; auto; lia.
Qed.

End SingleFileRuns.
(* ------------------------------------------------------------------ *)
(** ** The single-file routes at sample submissions                    *)
(* ------------------------------------------------------------------ *)

(** X20, at a submission of score 95 on a fresh single-file server: no
  Alert and no broadcast. *)
Lemma single_file_phishing_witness :
  let w := SingleFile.boot 0 in
  let w' := snd (SingleFile.phishing_analyze Samples.show 1 (Js.Str "urgent")
                   (Samples.classifier 95 "urgent") w) in
  "urgent" <> ""
  /\ alerts_created (SingleFile.effects_since w w') = []
  /\ broadcasts (SingleFile.effects_since w w') = [].
Proof.
  intros w w'. assert (H : "urgent" <> "") by discriminate.
  split; [exact H|].
  pose proof (single_file_phishing Samples.show 1 "urgent"
                (Samples.classifier 95 "urgent") w H) as P.
  split; [exact (proj1 (proj2 (proj2 P)))
         |exact (proj1 (proj2 (proj2 (proj2 P))))].
Defined.

(** X21, at the number 7 as content. *)
Lemma single_file_non_string_content_witness :
  Js.truthy (Js.Num 7) = true
  /\ Js.is_string (Js.Num 7) = false
  /\ SingleFile.phishing_analyze Samples.show 1 (Js.Num 7)
       (Samples.classifier 95 "") (SingleFile.boot 0)
     = (ResStatus 500 "content.toLowerCase is not a function",
        SingleFile.boot 0).
Proof.
  split; [reflexivity|]. split; [reflexivity|].
  exact (single_file_non_string_content Samples.show 1 (Js.Num 7)
           (Samples.classifier 95 "") (SingleFile.boot 0) eq_refl eq_refl).
Defined.

(** X22, at a deepfake of confidence 0.75: a Threat of severity medium and
  no Alert. *)
Lemma single_file_deepfake_witness :
  let w := SingleFile.boot 0 in
  let w' := snd (SingleFile.deepfake_analyze Samples.show 1 "face.png"
                   "image/png" "aGVsbG8=" 5 (Samples.verdict true 0.75) w) in
  "face.png" <> "" /\ "image/png" <> "" /\ "aGVsbG8=" <> ""
  /\ map threat_severity (threats_created (SingleFile.effects_since w w'))
     = ["medium"]
  /\ alerts_created (SingleFile.effects_since w w') = [].
Proof.
  intros w w'.
  assert (H1 : "face.png" <> "") by discriminate.
  assert (H2 : "image/png" <> "") by discriminate.
  assert (H3 : "aGVsbG8=" <> "") by discriminate.
  split; [exact H1|]. split; [exact H2|]. split; [exact H3|].
  split; [reflexivity|].
  exact (proj1 (proj2 (proj2
           (single_file_deepfake Samples.show 1 "face.png" "image/png"
              "aGVsbG8=" 5 (Samples.verdict true 0.75) w H1 H2 H3)))).
Defined.
(* ------------------------------------------------------------------ *)
(** ** [HoneypotManager]: the timers                                   *)
(* ------------------------------------------------------------------ *)

Section ManagerFacts.

Import Manager.

Lemma clear_fresh h (l : list Timer) :
  ~ In h (map handle l) -> clearInterval h l = l.
Proof.
  unfold clearInterval. induction l as [|t l IH]; simpl; auto.
  intros Hn. destruct (Z.eqb_spec (handle t) h) as [E|_]; simpl.
  - exfalso. apply Hn. now left.
  - rewrite IH; auto.
Qed.

Lemma clear_each (l : list Timer) :
  NoDup (map handle l) ->
  fold_left (fun l h => clearInterval h l) (map handle l) l = [].
Proof.
  induction l as [|t l IH]; simpl; auto.
  intros H. inversion H as [|? ? Hn Hl]; subst.
  rewrite Z.eqb_refl. simpl. rewrite clear_fresh by assumption. auto.
Qed.

Lemma start_tidy_from m fn1 fn2 fn3 q1 q2 q3 :
  tidy m -> isRunning m = false ->
  let m' := push_interval fn3 q3
              (push_interval fn2 q2
                 (push_interval fn1 q1 (set_running true m))) in
  map handle (timers m') = intervals m'
  /\ Forall (fun h => h < nextHandle m') (intervals m')
  /\ NoDup (intervals m')
  /\ map fires (timers m') = [fn1; fn2; fn3]
  /\ isRunning m' = true.
Proof.
  intros (Hh & Hb & Hnd & Hf) Hr m'. rewrite Hr in Hf.
  destruct (timers m) as [|t l] eqn:Et; [|discriminate Hf].
  simpl in Hh. unfold m'. simpl. rewrite Et, <- Hh. simpl.
  split; [reflexivity|]. split.
  - repeat constructor; lia.
  - split; [|split; reflexivity].
    repeat constructor; simpl; intuition lia.
Qed.

Lemma call_tidy c m : tidy m -> tidy (call c m).
Proof.
  intros H. destruct c; simpl.
  - unfold start. destruct (isRunning m) eqn:Hr; [exact H|].
    destruct (start_tidy_from m simulateSSHAttack simulateHTTPAttack
                simulateFTPAttack (10000 + r1 * 20000) (8000 + r2 * 15000)
                (15000 + r3 * 30000) H Hr) as (H1 & H2 & H3 & H4 & H5).
    unfold tidy. rewrite H5. auto.
  - unfold stop. destruct (isRunning m) eqn:Hr; simpl; [|exact H].
    destruct H as (Hh & Hb & Hnd & Hf).
    unfold tidy. simpl. rewrite <- Hh.
    rewrite clear_each by (rewrite Hh; exact Hnd).
    repeat split; constructor.
  - unfold start_single. destruct (isRunning m) eqn:Hr; [exact H|].
    destruct (start_tidy_from m simulateSSHAttack simulateHTTPAttack
                simulateFTPAttack 15000 25000 35000 H Hr)
      as (H1 & H2 & H3 & H4 & H5).
    unfold tidy. rewrite H5. auto.
  - destruct H as (Hh & Hb & Hnd & Hf).
    unfold stop_single, tidy. simpl. rewrite <- Hh.
    rewrite clear_each by (rewrite Hh; exact Hnd).
    repeat split; constructor.
Qed.

Lemma calls_tidy cs : forall m, tidy m -> tidy (calls cs m).
Proof.
  induction cs as [|c cs IH]; intros m H; simpl; auto.
  apply IH. now apply call_tidy.
Qed.

(** X23.  However [start] and [stop] are called, the manager never leaks a
  timer and never runs a simulator twice: after any sequence of calls the
  live timers are exactly those whose handles the manager holds, three (one
  for each of the ssh, http and ftp simulators) when it is running and none
  when it is not.  Hence a second [start] changes nothing, [stop] clears
  every timer, and the test of [isRunning] in [stop] of [services.ts] makes
  no difference: it acts like the [stop] of the single-file server, which
  has none. *)
Theorem manager_runs_three_timers_or_none :
  forall cs : list Call,
    let m := calls cs init in
    tidy m
    /\ List.length (timers m) = (if isRunning m then 3 else 0)%nat
    /\ (forall r1 r2 r3 r1' r2' r3',
           start r1' r2' r3' (start r1 r2 r3 m) = start r1 r2 r3 m)
    /\ timers (stop m) = [] /\ isRunning (stop m) = false
    /\ timers (stop m) = timers (stop_single m)
    /\ isRunning (stop m) = isRunning (stop_single m)
    /\ intervals (stop m) = intervals (stop_single m).
Proof.
  intros cs m.
  assert (H : tidy m).
  { apply calls_tidy. repeat split; constructor. }
  split; [exact H|]. split.
  { destruct H as (_ & _ & _ & Hf).
    rewrite <- (length_map fires), Hf. now destruct (isRunning m). }
  split.
  { intros r1 r2 r3 r1' r2' r3'. unfold start at 1.
    replace (isRunning (start r1 r2 r3 m)) with true; [reflexivity|].
    unfold start. destruct (isRunning m) eqn:Hr; auto. }
  pose proof (call_tidy Stop m H) as Hs. cbn [call] in Hs.
  pose proof (call_tidy StopSingle m H) as Hs'. cbn [call] in Hs'.
  assert (R : isRunning (stop m) = false).
  { unfold stop. destruct (isRunning m) eqn:Hr; simpl; auto. }
  assert (T : timers (stop m) = []).
  { destruct Hs as (_ & _ & _ & Hf). rewrite R in Hf.
    now destruct (timers (stop m)). }
  assert (T' : timers (stop_single m) = []).
  { destruct Hs' as (_ & _ & _ & Hf).
    change (isRunning (stop_single m)) with false in Hf.
    now destruct (timers (stop_single m)). }
  split; [exact T|]. split; [exact R|]. split; [congruence|].
  split; [now rewrite R|].
  destruct Hs as (Hh & _). destruct Hs' as (Hh' & _).
  rewrite <- Hh, <- Hh', T, T'. reflexivity.
Qed.

End ManagerFacts.
(* ------------------------------------------------------------------ *)
(** ** The phishing detector                                           *)
(* ------------------------------------------------------------------ *)

Module TextFacts.
Import Text.

Lemma prefix_empty p : String.prefix p "" = true -> p = "".
Proof. destruct p; simpl; [reflexivity|discriminate]. Qed.

Lemma prefix_of_longer p q s :
  String.prefix (p +s+ q) s = true -> String.prefix p s = true.
Proof.
  revert s. induction p as [|c p IH]; intros s; simpl.
  - now destruct s.
  - destruct s as [|d s]; simpl; [discriminate|].
    destruct (Ascii.ascii_dec c d); [apply IH|discriminate].
Qed.

Lemma includes_of_longer p q s :
  includes (p +s+ q) s = true -> includes p s = true.
Proof.
  induction s as [|c s IH]; cbn [includes]; rewrite !orb_true_iff.
  - intros [H|H]; [|discriminate]. left. eapply prefix_of_longer; eauto.
  - intros [H|H]; [left; eapply prefix_of_longer; eauto|right; auto].
Qed.

Lemma drop_empty k : drop k "" = "".
Proof. now destruct k. Qed.

(** A text that holds one of the alternatives behind the place where the
  scan stands holds a match. *)
Lemma count_matches_found alts p : forall s skip,
  In p alts -> p <> "" ->
  includes p (toLowerCase (drop skip s)) = true ->
  (1 <= count_matches alts skip s)%nat.
Proof.
  intros s. induction s as [|c r IH]; intros skip Hin Hne.
  - rewrite drop_empty. cbn [toLowerCase includes]. rewrite orb_false_r.
    intros H. apply prefix_empty in H. contradiction.
  - destruct skip as [|k]; cbn [drop count_matches]; intros H.
    + destruct (find (fun p0 => ci_prefix p0 (String c r)) alts) as [q|] eqn:F;
        [lia|].
      apply (IH 0%nat Hin Hne).
      replace (drop 0 r) with r by now destruct r.
      cbn [toLowerCase includes] in H. apply orb_true_iff in H.
      destruct H as [H|H]; [|exact H].
      pose proof (find_none _ _ F p Hin) as N. unfold ci_prefix in N.
      cbn [toLowerCase] in N. congruence.
    + now apply (IH k Hin Hne).
Qed.

End TextFacts.

Section DetectorFacts.

Import Text TextFacts PhishingDetector Scoring.

Local Arguments String.append : simpl never.
Local Arguments Z.mul : simpl never.
Local Arguments Z.add : simpl never.
Local Arguments Z.of_nat : simpl never.

Lemma sound_start : sound 0 (0, []).
Proof. unfold sound. simpl. repeat split; try reflexivity; lia. Qed.

Lemma when_sound n found points indicator vars :
  sound n vars -> (found = true -> 0 < points /\ points mod 5 = 0) ->
  sound (S n) (when found points indicator vars).
Proof.
  intros (H0 & H5 & Hl & Hz) Hp. unfold when. destruct found.
  - destruct (Hp eq_refl) as (Hpos & Hmod). unfold sound. cbn [fst snd].
    split; [lia|]. split.
    + rewrite Z.add_mod by lia. rewrite H5, Hmod. reflexivity.
    + split; [rewrite length_app; simpl; lia|].
      split; [lia|]. intros E. destruct (snd vars); discriminate E.
  - split; [exact H0|]. split; [exact H5|]. split; [lia|exact Hz].
Qed.

Lemma points_of_count n k :
  Nat.ltb 0 n = true -> 0 < k -> k mod 5 = 0 ->
  0 < Z.of_nat n * k /\ (Z.of_nat n * k) mod 5 = 0.
Proof.
  intros Hn Hk Hm. apply Nat.ltb_lt in Hn. split; [nia|].
  rewrite Z.mul_mod by lia. rewrite Hm, Z.mul_0_r. reflexivity.
Qed.

Lemma tests_sound content : sound 5 (tests content).
Proof.
  unfold tests.
  repeat (apply when_sound;
          [|intros Hf; try (apply points_of_count; [exact Hf|lia|reflexivity]);
            try (split; [lia|reflexivity])]).
  apply sound_start.
Qed.

(** X24.  What [analyzeEmail] answers for any text: the score is a
  multiple of 5 between 0 and 100, there are at most five indicators, the
  confidence is 70 plus 8 for each indicator and at most 99 (so it is one
  of 70, 78, 86, 94, 99 and tells nothing but the number of indicators),
  and the score is 0 exactly when there is no indicator. *)
Theorem analyzeEmail_scores_in_steps_of_5 :
  forall content : string,
    let r := analyzeEmail content in
    exists s : Z,
      score r = inject_Z s
      /\ 0 <= s <= 100 /\ s mod 5 = 0
      /\ (List.length (indicators r) <= 5)%nat
      /\ confidence r
         = inject_Z (Z.min (70 + 8 * Z.of_nat (List.length (indicators r))) 99)
      /\ (70 <= confidence r <= 99)%Q
      /\ (s = 0 <-> indicators r = [])
      /\ 0 <= suspiciousLinks r.
Proof.
  intros content r. unfold r, analyzeEmail.
  pose proof (tests_sound content) as H.
  destruct (tests content) as [raw inds].
  unfold sound in H. cbn [fst snd] in H.
  destruct H as (H0 & H5 & Hl & Hz). cbn [score confidence indicators
                                          suspiciousLinks].
  exists (Z.min raw 100). split; [reflexivity|].
  split; [lia|]. split.
  { destruct (Z.min_spec raw 100) as [(_ & ->)|(_ & ->)]; auto. }
  split; [exact Hl|]. split; [f_equal; lia|]. split.
  { unfold Qle. simpl. lia. }
  split; [|lia].
  rewrite <- Hz. lia.
Qed.


Lemma tests_at_least content :
  Z.of_nat (extractSuspiciousLinks content) * 20
  + (if hasFakeSender content then 30 else 0)
  <= fst (tests content)
  /\ ((0 < extractSuspiciousLinks content)%nat ->
      In "Suspicious URL redirects found" (snd (tests content)))
  /\ (hasFakeSender content = true ->
      In "Suspicious sender domain detected" (snd (tests content))).
Proof.
  unfold tests, when.
  destruct (Nat.ltb_spec 0 (extractSuspiciousLinks content)) as [Hl|Hl];
    destruct (hasFakeSender content);
    destruct (hasPoorGrammar content);
    destruct (Nat.ltb 0 (List.length
                (urgentMatches (toLowerCase content))));
    destruct (Nat.ltb 0 (List.length
                (keywordMatches (toLowerCase content))));
    cbn [fst snd];
    (split; [lia|split; intros H; try lia; try discriminate H;
             rewrite ?in_app_iff; simpl; tauto]).
Qed.

Lemma includes_counts (l : list string) (p : string) (s : string) :
  In p l -> includes p s = true ->
  (1 <= List.length (filter (fun d => includes d s) l))%nat.
Proof.
  intros Hin Hp.
  assert (H : In p (filter (fun d => includes d s) l))
    by (apply filter_In; auto).
  destruct (filter (fun d => includes d s) l); [destruct H|simpl; lia].
Qed.

Lemma score_at_least content (n : Z) :
  n <= 100 -> n <= fst (tests content) ->
  (inject_Z n <= score (analyzeEmail content))%Q.
Proof.
  intros H100 Hn. unfold analyzeEmail.
  destruct (tests content) as [raw inds]. cbn [fst] in Hn. cbn [score].
  rewrite <- Zle_Qle. lia.
Qed.

(** X25.  One occurrence, two findings.  A text that names bit.ly or
  tinyurl.com, in any case, is counted two suspicious links for it, once as
  a suspicious domain and once more by the pattern for url shorteners, so it
  scores at least 40; a text that names fake-bank.com or secure-verify.net is
  counted a suspicious link and a fake sender, so it scores at least 50. *)
Theorem analyzeEmail_counts_some_domains_twice :
  forall content domain : string,
    includes domain (toLowerCase content) = true ->
    (In domain ["bit.ly"; "tinyurl.com"] ->
     (2 <= extractSuspiciousLinks content)%nat
     /\ (40 <= score (analyzeEmail content))%Q
     /\ In "Suspicious URL redirects found"
           (indicators (analyzeEmail content)))
    /\ (In domain ["fake-bank.com"; "secure-verify.net"] ->
        (1 <= extractSuspiciousLinks content)%nat
        /\ hasFakeSender content = true
        /\ (50 <= score (analyzeEmail content))%Q
        /\ In "Suspicious sender domain detected"
              (indicators (analyzeEmail content))).
Proof.
  intros content domain Hinc.
  pose proof (tests_at_least content) as (Hraw & Hlink & Hsend).
  assert (Hind : indicators (analyzeEmail content) = snd (tests content)).
  { unfold analyzeEmail. now destruct (tests content). }
  split; intros Hd.
  - assert (Hdom : (1 <= List.length
                           (filter (fun d => includes d (toLowerCase content))
                                   suspiciousDomains))%nat).
    { apply (includes_counts _ domain); auto.
      simpl in Hd. simpl. intuition. }
    assert (Hre : (1 <= count_matches urlShorteners 0 content)%nat).
    { destruct Hd as [<-|[<-|[]]].
      - apply (count_matches_found _ "bit.ly"); simpl; auto; discriminate.
      - apply (count_matches_found _ "tinyurl");
          [simpl; auto|discriminate|].
        cbn [drop]. now apply (includes_of_longer "tinyurl" ".com"). }
    assert (H2 : (2 <= extractSuspiciousLinks content)%nat)
      by (unfold extractSuspiciousLinks; lia).
    split; [exact H2|]. split.
    + apply (score_at_least content 40); [lia|].
      destruct (hasFakeSender content); lia.
    + rewrite Hind. apply Hlink. lia.
  - assert (Hdom : (1 <= List.length
                           (filter (fun d => includes d (toLowerCase content))
                                   suspiciousDomains))%nat).
    { apply (includes_counts _ domain); auto.
      simpl in Hd. simpl. intuition. }
    assert (H1 : (1 <= extractSuspiciousLinks content)%nat)
      by (unfold extractSuspiciousLinks; lia).
    assert (Hs : hasFakeSender content = true).
    { unfold hasFakeSender. apply existsb_exists.
      destruct Hd as [<-|[<-|[]]].
      - exists "fake-bank". split; [simpl; auto|].
        now apply (includes_of_longer "fake-bank" ".com").
      - exists "secure-verify". split; [simpl; auto|].
        now apply (includes_of_longer "secure-verify" ".net"). }
    split; [exact H1|]. split; [exact Hs|]. split.
    + apply (score_at_least content 50); [lia|]. rewrite Hs in Hraw. lia.
    + rewrite Hind. now apply Hsend.
Qed.

Lemma analyzeEmail_counts_some_domains_twice_witness :
  includes "bit.ly" (toLowerCase "see http://BIT.LY/x") = true
  /\ suspiciousLinks (analyzeEmail "see http://BIT.LY/x") = 2
  /\ (2 <= extractSuspiciousLinks "see http://BIT.LY/x")%nat.
Proof.
  assert (H : includes "bit.ly" (toLowerCase "see http://BIT.LY/x") = true)
    by reflexivity.
  split; [exact H|]. split; [reflexivity|].
  exact (proj1 (proj1 (analyzeEmail_counts_some_domains_twice
                         "see http://BIT.LY/x" "bit.ly" H)
                      (or_introl eq_refl))).
Defined.

End DetectorFacts.

Section DetectorOnTheRoute.

Import Text PhishingDetector.

Variable numToString : Q -> string.

Local Arguments String.append : simpl never.



End DetectorOnTheRoute.

(* ------------------------------------------------------------------ *)
(** ** The deepfake detector                                           *)
(* ------------------------------------------------------------------ *)

Section DeepfakeDetectorFacts.

Import Text DeepfakeDetector.

Local Arguments String.append : simpl never.

Lemma at_least_bounds floor c top :
  (floor <= top)%Q -> (c <= top)%Q ->
  (floor <= at_least floor c)%Q /\ (c <= at_least floor c)%Q
  /\ (at_least floor c <= top)%Q.
Proof.
  intros Hf Hc. unfold at_least.
  destruct (Qle_bool floor c) eqn:E.
  - apply Qle_bool_iff in E. repeat split; auto. apply Qle_refl.
  - apply Qle_bool_false in E. repeat split; auto.
    + apply Qle_refl.
    + now apply Qlt_le_weak.
Qed.

Lemma round1_exact_rounds : rounds round1_exact.
Proof.
  split.
  - intros x y H. unfold round1_exact, Qdiv.
    apply Qmult_le_compat_r; [|discriminate].
    rewrite <- Zle_Qle. apply Qfloor_resp_le.
    apply Qplus_le_l. apply Qmult_le_compat_r; [exact H|discriminate].
  - intros n. unfold round1_exact.
    assert (E : Qfloor (inject_Z n * 10 + (1 # 2)) = (n * 10)%Z).
    { unfold Qfloor, inject_Z, Qmult, Qplus. simpl.
      replace (n * 10 * 2 + 1)%Z with (1 + (n * 10) * 2)%Z by lia.
      rewrite Z.div_add by lia. reflexivity. }
    rewrite E. unfold Qdiv, Qeq, Qmult, Qinv, inject_Z. simpl. lia.
Qed.

Section WithRounding.

Variable round1 : Q -> Q.
Hypothesis round1_rounds : rounds round1.
Variable numToString : Q -> string.

Lemma round1_between (lo hi : Z) x :
  (inject_Z lo <= x)%Q -> (x <= inject_Z hi)%Q ->
  (inject_Z lo <= round1 x)%Q /\ (round1 x <= inject_Z hi)%Q.
Proof.
  destruct round1_rounds as (Hm & Hi). intros H1 H2. split.
  - rewrite <- (Hi lo). now apply Hm.
  - rewrite <- (Hi hi). now apply Hm.
Qed.

Lemma image_result d name :
  (70 <= confidence0 d <= 95)%Q ->
  let r := analyzeImage round1 d name in
  (isDeepfake r = true <-> (2 <= List.length (anomalies r))%nat)
  /\ (List.length (anomalies r) <= 4)%nat
  /\ (70 <= df_confidence r <= 95)%Q
  /\ (isDeepfake r = true -> (85 <= df_confidence r)%Q).
Proof.
  intros (Hlo & Hhi) r. unfold r, analyzeImage, simulateImageAnalysis,
    checkFaceSwapArtifacts, checkCompressionAnomalies,
    checkPixelInconsistencies, checkMetadataAnomalies, check.
  assert (H95 : (85 <= 95)%Q) by (unfold Qle; simpl; lia).
  destruct (at_least_bounds 85 (confidence0 d) 95 H95 Hhi)
    as (A1 & A2 & A3).
  destruct (faceSwap d); destruct (compression d); destruct (pixel d);
    destruct (existsb _ suspiciousPatterns);
    cbn [run_checks suspicious filter List.length Nat.leb isDeepfake
         df_confidence anomalies app];
    (split; [split; [intros H; first [lia|discriminate H]
                    | intros H; first [reflexivity|exfalso; lia]]|]);
    (split; [lia|]);
    (split;
     [ first [ apply (round1_between 70 95); [eapply Qle_trans; eauto|exact A3]
             | apply (round1_between 70 95); assumption ]
     | intros H; try discriminate H;
       apply (round1_between 85 95); assumption ]).
Qed.

Lemma video_result d name :
  (75 <= confidence0 d <= 95)%Q ->
  let r := analyzeVideo round1 d name in
  (isDeepfake r = true <-> (2 <= List.length (anomalies r))%nat)
  /\ (List.length (anomalies r) <= 5)%nat
  /\ (75 <= df_confidence r <= 95)%Q
  /\ (isDeepfake r = true -> (88 <= df_confidence r)%Q).
Proof.
  intros (Hlo & Hhi) r. unfold r, analyzeVideo, simulateVideoAnalysis,
    checkFaceSwapArtifacts, checkCompressionAnomalies,
    checkTemporalInconsistency, checkFrameAnomalies,
    checkMetadataAnomalies, check.
  assert (H95 : (88 <= 95)%Q) by (unfold Qle; simpl; lia).
  destruct (at_least_bounds 88 (confidence0 d) 95 H95 Hhi)
    as (A1 & A2 & A3).
  destruct (temporal d); destruct (faceSwap d); destruct (compression d);
    destruct (frame d); destruct (existsb _ suspiciousPatterns);
    cbn [run_checks suspicious filter List.length Nat.leb isDeepfake
         df_confidence anomalies app];
    (split; [split; [intros H; first [lia|discriminate H]
                    | intros H; first [reflexivity|exfalso; lia]]|]);
    (split; [lia|]);
    (split;
     [ first [ apply (round1_between 75 95); [eapply Qle_trans; eauto|exact A3]
             | apply (round1_between 75 95); assumption ]
     | intros H; try discriminate H;
       apply (round1_between 88 95); assumption ]).
Qed.



(** X27.  What the detector answers for an upload, whatever it draws: it
  calls the upload a deepfake exactly when at least two of its checks fired,
  each of which left one anomaly; the confidence lies between 70 and 95
  (between 75 and 95 for a video); and for a deepfake it is at least 85 (88
  for a video). *)
Theorem detector_flags_on_two_anomalies :
  forall (d : Draws) (f : Server.File),
    drawn f d ->
    let r := analyze round1 d f in
    let image := String.prefix "image/" (Server.mimetype f) in
    (isDeepfake r = true <-> (2 <= List.length (anomalies r))%nat)
    /\ (List.length (anomalies r) <= (if image then 4 else 5))%nat
    /\ ((if image then 70 else 75) <= df_confidence r <= 95)%Q
    /\ (isDeepfake r = true ->
        ((if image then 85 else 88) <= df_confidence r)%Q).
Proof.
  unfold drawn, analyze. intros d f.
  destruct (String.prefix "image/" (Server.mimetype f)); intros H.
  - apply (image_result d (Server.originalname f) H).
  - apply (video_result d (Server.originalname f) H).
Qed.


End WithRounding.

Lemma detector_flags_on_two_anomalies_witness :
  let d := {| confidence0 := 80.37; faceSwap := true; temporal := false;
              compression := false; pixel := false; frame := false;
              seconds := 1.234 |} in
  let f := {| Server.originalname := "my_AI_face.png";
              Server.mimetype := "image/png"; Server.size := 2048 |} in
  rounds round1_exact /\ drawn f d
  /\ df_confidence (analyze round1_exact d f) = 85.0%Q
  /\ (isDeepfake (analyze round1_exact d f) = true
      <-> (2 <= List.length (anomalies (analyze round1_exact d f)))%nat).
Proof.
  intros d f.
  assert (Hd : drawn f d) by (unfold drawn; simpl; split; discriminate).
  split; [exact round1_exact_rounds|]. split; [exact Hd|].
  split; [reflexivity|].
  exact (proj1 (detector_flags_on_two_anomalies round1_exact
                  round1_exact_rounds d f Hd)).
Defined.


End DeepfakeDetectorFacts.
(* ------------------------------------------------------------------ *)
(** ** The geolocation service                                         *)
(* ------------------------------------------------------------------ *)

Section GeolocationFacts.

Import Geolocation.

Local Arguments String.append : simpl never.

Lemma geo_get_set_same m ip v : get ip (set ip v m) = Some v.
Proof.
  induction m as [|[k v'] m IH]; simpl.
  - now rewrite String.eqb_refl.
  - destruct (String.eqb ip k) eqn:E; simpl; rewrite E; auto.
Qed.

Lemma geo_get_set_other m ip ip' v :
  ip <> ip' -> get ip' (set ip v m) = get ip' m.
Proof.
  intros Hne. induction m as [|[k v'] m IH]; simpl.
  - destruct (String.eqb_spec ip' ip); congruence.
  - destruct (String.eqb_spec ip k) as [->|]; simpl.
    + destruct (String.eqb_spec ip' k); congruence.
    + destruct (String.eqb_spec ip' k); auto.
Qed.

Lemma str_or_filled s d : d <> "" -> Js.str_or s d <> "".
Proof.
  intros Hd. unfold Js.str_or. destruct (String.eqb_spec s ""); auto.
Qed.

Lemma location_of_filled ip data : filled (location_of ip data).
Proof.
  unfold filled, location_of. simpl.
  repeat split; apply str_or_filled; discriminate.
Qed.

(** One call keeps what is cached and caches only filled locations. *)
Lemma getLocation_keeps fetched ip g :
  (forall k l, get k (cache g) = Some l -> filled l) ->
  (forall k l, get k (cache g) = Some l ->
               get k (cache (snd (getLocation fetched ip g))) = Some l)
  /\ (forall k l, get k (cache (snd (getLocation fetched ip g))) = Some l ->
                  filled l).
Proof.
  intros Hf. unfold getLocation.
  destruct (get ip (cache g)) as [l0|] eqn:E; [split; auto|].
  destruct fetched as [data|]; [|split; auto].
  destruct (String.eqb (api_status data) "fail"); [split; auto|].
  simpl. split.
  - intros k l Hk. rewrite geo_get_set_other; auto.
    intros ->. congruence.
  - intros k l Hk. destruct (String.eqb_spec ip k) as [->|Hne].
    + rewrite geo_get_set_same in Hk. injection Hk as <-.
      apply location_of_filled.
    + rewrite geo_get_set_other in Hk by assumption. eauto.
Qed.

Lemma lookups_keep calls : forall g,
  (forall k l, get k (cache g) = Some l -> filled l) ->
  (forall k l, get k (cache g) = Some l ->
               get k (cache (lookups calls g)) = Some l)
  /\ (forall k l, get k (cache (lookups calls g)) = Some l -> filled l).
Proof.
  induction calls as [|[fetched ip] calls IH]; intros g Hf; [split; auto|].
  destruct (getLocation_keeps fetched ip g Hf) as (K1 & K2).
  destruct (IH _ K2) as (I1 & I2). split.
  - intros k l Hk. apply I1, K1, Hk.
  - exact I2.
Qed.

(** X29.  The cache never forgets and never asks twice.  Once an address
  is in the cache, [getLocation] answers the cached location for it after
  any number of further lookups, whatever the API would say now, without a
  request and without touching the cache; a lookup that succeeds puts its
  location into the cache, so this holds from the first success on.  Only
  [clearCache] ends it. *)
Theorem getLocation_answers_from_the_cache_for_good :
  forall (g : t) (ip : string) (location : GeoLocation),
    getCachedLocation ip g = Some location ->
    forall (calls : list (Fetched * string)) (fetched : Fetched),
      let g' := lookups calls g in
      getLocation fetched ip g' = (Some location, g')
      /\ getCachedLocation ip g' = Some location
      /\ getCachedLocation ip (clearCache g') = None.
Proof.
  intros g ip location Hc calls fetched g'.
  assert (Hk : get ip (cache g') = Some location).
  { unfold g'. clear g'. revert g Hc.
    induction calls as [|[fetched0 ip0] calls IH]; intros g Hc; [exact Hc|].
    apply IH. unfold getCachedLocation, getLocation in *.
    cbn [fst snd].
    destruct (get ip0 (cache g)) as [l0|] eqn:E; [exact Hc|].
    destruct fetched0 as [data|]; [|exact Hc].
    destruct (String.eqb (api_status data) "fail"); [exact Hc|].
    simpl. rewrite geo_get_set_other; auto. intros ->. congruence. }
  split; [|split; [exact Hk|reflexivity]].
  unfold getLocation. now rewrite Hk.
Qed.

Lemma getLocation_answers_from_the_cache_for_good_witness :
  let data := {| api_status := "success"; api_message := "";
                 api_query := "203.0.113.7"; api_country := "Germany";
                 api_countryCode := "DE"; api_region := "BE";
                 api_regionName := "Berlin"; api_city := "Berlin";
                 api_zip := "10115"; api_lat := 52.52; api_lon := 13.405;
                 api_timezone := "Europe/Berlin"; api_isp := "";
                 api_org := ""; api_as := "" |} in
  let g := snd (getLocation (Body data) "203.0.113.7" init) in
  getCachedLocation "203.0.113.7" g
  = Some (location_of "203.0.113.7" data)
  /\ fst (getLocation Thrown "203.0.113.7"
            (lookups [(Thrown, "198.51.100.23")] g))
     = Some (location_of "203.0.113.7" data).
Proof.
  intros data g.
  assert (H : getCachedLocation "203.0.113.7" g
              = Some (location_of "203.0.113.7" data)) by reflexivity.
  split; [exact H|].
  exact (f_equal fst
           (proj1 (getLocation_answers_from_the_cache_for_good g
                     "203.0.113.7" _ H [(Thrown, "198.51.100.23")] Thrown))).
Defined.

(** X30.  What [getLocation] does with the answer for an address that is
  not cached.  A body whose status is not fail is turned into a location,
  cached and answered; a failure of any kind (an exception, a status that
  is not ok, a body with status fail) is answered with [null] and leaves
  the cache as it is, so the next lookup of the address asks the API again.
  Either way exactly one request is made.  Every location the service ever
  answers has a country, a country code, a city, an ISP, an organisation and
  an AS that are not empty. *)
Theorem getLocation_caches_successes_only :
  forall (calls : list (Fetched * string)) (fetched : Fetched) (ip : string),
    let g := lookups calls init in
    let answer := fst (getLocation fetched ip g) in
    let g' := snd (getLocation fetched ip g) in
    (getCachedLocation ip g = None ->
     asked g' = asked g ++ [ip]
     /\ match fetched with
        | Body data =>
            if String.eqb (api_status data) "fail"
            then answer = None /\ cache g' = cache g
            else answer = Some (location_of ip data)
                 /\ getCachedLocation ip g' = Some (location_of ip data)
        | Thrown => answer = None /\ cache g' = cache g
        end)
    /\ (forall location, answer = Some location ->
          filled location
          /\ Server.geo_field geo_country answer = geo_country location
          /\ Server.geo_field geo_city answer = geo_city location).
Proof.
  intros calls fetched ip g answer g'.
  destruct (lookups_keep calls init) as (_ & Hfilled);
    [intros k l H; discriminate H|].
  fold g in Hfilled.
  assert (Hans : forall location, answer = Some location -> filled location).
  { intros location. unfold answer, getLocation.
    destruct (get ip (cache g)) as [l0|] eqn:E.
    - intros [= <-]. eapply Hfilled; eauto.
    - destruct fetched as [data|]; [|discriminate].
      destruct (String.eqb (api_status data) "fail"); [discriminate|].
      intros [= <-]. apply location_of_filled. }
  split.
  - unfold getCachedLocation, answer, g', getLocation. intros ->.
    destruct fetched as [data|]; [|auto].
    destruct (String.eqb (api_status data) "fail"); simpl; auto.
    split; [reflexivity|]. split; [reflexivity|apply geo_get_set_same].
  - intros location Hl. pose proof (Hans location Hl) as Hf.
    split; [exact Hf|]. rewrite Hl. unfold Server.geo_field, Js.str_or.
    destruct Hf as (Hc & _ & Hcity & _).
    destruct (String.eqb_spec (geo_country location) ""); [contradiction|].
    destruct (String.eqb_spec (geo_city location) ""); [contradiction|].
    split; reflexivity.
Qed.

Lemma getLocation_caches_successes_only_witness :
  let g := lookups [(Thrown, "203.0.113.7")] init in
  getCachedLocation "203.0.113.7" g = None
  /\ asked (snd (getLocation Thrown "203.0.113.7" g))
     = ["203.0.113.7"; "203.0.113.7"].
Proof.
  intros g.
  assert (H : getCachedLocation "203.0.113.7" g = None) by reflexivity.
  split; [exact H|].
  exact (proj1 (proj1 (getLocation_caches_successes_only
                         [(Thrown, "203.0.113.7")] Thrown "203.0.113.7")
                      H)).
Defined.

End GeolocationFacts.
